(** * Request binding and response matching of the OpenAPI clients

    This development embeds the two request engines of the repository:

    - [V20]      : [aiopenapi3/v20/glue.py], class [Request]
                   (Swagger 2.0 binding on top of httpx);
    - [OpenAPI3] : [openapi3/paths.py], method [Operation.request]
                   (OpenAPI 3.0 binding on top of requests).

    Python values are kept abstract behind the [Runtime] interface (what
    [json], [pydantic], [urllib] and the data-model layer provide); the
    control flow of the two engines is written out with an exception
    monad.  Strings are byte strings holding UTF-8 text. *)

From Stdlib Require Import ZArith String Ascii List Bool Lia.
From Stdlib Require Import Decimal DecimalString DecimalZ DecimalNat DecimalPos DecimalFacts.
From Stdlib Require Import Strings.Byte.
Import ListNotations.
Open Scope string_scope.
Open Scope list_scope.

Set Warnings "-register-all".

(** ** The Python fragment used by the engines *)

Module Py.

(** Exceptions, by class and [str()] of their argument. [Unmodelled] is not
    a Python exception: it marks inputs on which a library function is not
    described by this model. *)
Inductive exn : Type :=
| ValueError (msg : string)
| TypeError (msg : string)
| KeyError (key : string)
| IndexError (msg : string)
| AttributeError (msg : string)
| RuntimeError (msg : string)
| NotImplementedError (msg : string)
| Unmodelled (what : string).

Inductive res (A : Type) : Type :=
| Ok (a : A)
| Raise (e : exn).

Arguments Ok {A} a.
Arguments Raise {A} e.

Definition bind {A B} (m : res A) (k : A -> res B) : res B :=
  match m with
  | Ok a => k a
  | Raise e => Raise e
  end.

Definition fmap {A B} (f : A -> B) (m : res A) : res B :=
  bind m (fun a => Ok (f a)).

(** *** Strings *)

(** [str(n)] for an [int]. *)
Definition str_of_Z (z : Z) : string := NilZero.string_of_int (Z.to_int z).

Definition str_of_N (n : N) : string := NilZero.string_of_uint (N.to_uint n).

(** [None] prints as ["None"] inside [format] and f-strings. *)
Definition str_of_opt (o : option string) : string :=
  match o with
  | Some s => s
  | None => "None"
  end.

Definition lower_ascii (c : ascii) : ascii :=
  let n := nat_of_ascii c in
  if (65 <=? n)%nat && (n <=? 90)%nat then ascii_of_nat (n + 32) else c.

(** [s.lower()], on ASCII letters (bytes above 127 are left untouched). *)
Fixpoint lower (s : string) : string :=
  match s with
  | EmptyString => EmptyString
  | String c r => String (lower_ascii c) (lower r)
  end.

(** [c in s] for a one-character string [c]. *)
Fixpoint contains (c : ascii) (s : string) : bool :=
  match s with
  | EmptyString => false
  | String a r => Ascii.eqb a c || contains c r
  end.

(** [s.partition(sep)] for a one-character separator: the text before the
    first separator, the separator (empty when absent), the text after. *)
Fixpoint partition (sep : ascii) (s : string) : string * string * string :=
  match s with
  | EmptyString => (EmptyString, EmptyString, EmptyString)
  | String a r =>
      if Ascii.eqb a sep then (EmptyString, String sep EmptyString, r)
      else let '(h, m, t) := partition sep r in (String a h, m, t)
  end.

(** [s.split(sep)] for a one-character separator. *)
Fixpoint split_go (sep : ascii) (s : string) (cur : string) : list string :=
  match s with
  | EmptyString => [cur]
  | String a r =>
      if Ascii.eqb a sep then cur :: split_go sep r EmptyString
      else split_go sep r (cur ++ String a EmptyString)%string
  end.

Definition split (sep : ascii) (s : string) : list string :=
  split_go sep s EmptyString.

(** [sep.join(l)]. *)
Definition join (sep : string) (l : list string) : string := String.concat sep l.

(** [s.encode()] and the decoding of a UTF-8 body back to text. *)
Definition encode (s : string) : list Byte.byte := list_byte_of_string s.
Definition decode (b : list Byte.byte) : string := string_of_list_byte b.

(** *** Dictionaries

    A [dict] keeps insertion order; assigning to a key that is present
    replaces the value in place. *)

Definition dict (V : Type) : Type := list (string * V).

Fixpoint get {V} (k : string) (d : dict V) : option V :=
  match d with
  | [] => None
  | (k', v) :: r => if String.eqb k' k then Some v else get k r
  end.

(** [k in d] *)
Definition mem {V} (k : string) (d : dict V) : bool :=
  match get k d with
  | Some _ => true
  | None => false
  end.

(** [d[k]] *)
Definition getitem {V} (k : string) (d : dict V) : res V :=
  match get k d with
  | Some v => Ok v
  | None => Raise (KeyError k)
  end.

(** [d[k] = v] *)
Fixpoint set {V} (k : string) (v : V) (d : dict V) : dict V :=
  match d with
  | [] => [(k, v)]
  | (k', v') :: r => if String.eqb k' k then (k', v) :: r else (k', v') :: set k v r
  end.

(** [d.update(d')] *)
Definition update {V} (d d' : dict V) : dict V :=
  fold_left (fun acc kv => set (fst kv) (snd kv) acc) d' d.

(** [d.keys()] *)
Definition keys {V} (d : dict V) : list string := map fst d.

(** [bool(d)] *)
Definition truthy {A} (l : list A) : bool :=
  match l with
  | [] => false
  | _ :: _ => true
  end.

(** *** [str.format]

    The format string is scanned left to right.  Replacement fields are
    [{}] (next positional argument), [{N}] (positional argument [N]) and
    [{name}] (keyword argument); [{{] and [}}] stand for literal braces.
    Conversions ([!r]), format specs ([:>8]), attribute and index access
    inside a field are outside this model.

    A field name is an index when every character of it is a decimal
    digit, and Python counts the decimal digits of every script, not only
    [0] to [9].  Strings are sequences of bytes here, so a name is known
    to be an index when it is made of ASCII digits, and known to be a
    keyword when it has an ASCII character that is not a digit; a name
    made of ASCII digits and bytes beyond ASCII only is outside this
    model. *)

Inductive fmt_state : Type :=
| FText
| FOpen
| FClose
| FField (acc : string).

Inductive numbering : Type :=
| Unnumbered
| Automatic (next : nat)
| Manual.

Definition is_digit (c : ascii) : bool :=
  let n := nat_of_ascii c in (48 <=? n)%nat && (n <=? 57)%nat.

Fixpoint all_digits (s : string) : bool :=
  match s with
  | EmptyString => true
  | String c r => is_digit c && all_digits r
  end.

Fixpoint N_of_digits (s : string) (acc : N) : N :=
  match s with
  | EmptyString => acc
  | String c r => N_of_digits r (10 * acc + N.of_nat (nat_of_ascii c - 48))%N
  end.

(** The largest index [str.format] reads (a 64-bit build). *)
Definition PY_SSIZE_T_MAX : N := 9223372036854775807.

Definition is_ascii (c : ascii) : bool := (nat_of_ascii c <? 128)%nat.

(** The name has an ASCII character that is not a digit. *)
Fixpoint has_plain_char (s : string) : bool :=
  match s with
  | EmptyString => false
  | String c r => (is_ascii c && negb (is_digit c)) || has_plain_char r
  end.

Definition positional (args : list string) (i : N) : res string :=
  match (if (i <? N.of_nat (List.length args))%N
         then nth_error args (N.to_nat i) else None) with
  | Some v => Ok v
  | None =>
      Raise (IndexError ("Replacement index " ++ str_of_N i
                         ++ " out of range for positional args tuple"))
  end.

Definition get_field (args : list string) (kwargs : dict string)
    (name : string) (nb : numbering) : res (string * numbering) :=
  match name with
  | EmptyString =>
      match nb with
      | Manual =>
          Raise (ValueError
            "cannot switch from manual field specification to automatic field numbering")
      | Unnumbered => fmap (fun v => (v, Automatic 1)) (positional args 0)
      | Automatic n => fmap (fun v => (v, Automatic (S n))) (positional args (N.of_nat n))
      end
  | String _ _ =>
      if all_digits name then
        let i := N_of_digits name 0 in
        if (PY_SSIZE_T_MAX <? i)%N
        then Raise (ValueError "Too many decimal digits in format string")
        else
          match nb with
          | Automatic _ =>
              Raise (ValueError
                "cannot switch from automatic field numbering to manual field specification")
          | _ => fmap (fun v => (v, Manual)) (positional args i)
          end
      else if has_plain_char name then fmap (fun v => (v, nb)) (getitem name kwargs)
      else Raise (Unmodelled "field name with digits beyond ASCII")
  end.

(** Characters that start a conversion, a format spec, an attribute or an
    index inside a replacement field. *)
Definition field_operator (c : ascii) : bool :=
  Ascii.eqb c "!" || Ascii.eqb c ":" || Ascii.eqb c "." || Ascii.eqb c "[".

Definition unmodelled_field {A} : res A :=
  Raise (Unmodelled "replacement field with conversion, format spec, attribute or index").

Fixpoint format_go (args : list string) (kwargs : dict string)
    (s : string) (st : fmt_state) (nb : numbering) : res string :=
  match s with
  | EmptyString =>
      match st with
      | FText => Ok EmptyString
      | FOpen => Raise (ValueError "Single '{' encountered in format string")
      | FClose => Raise (ValueError "Single '}' encountered in format string")
      | FField _ => Raise (ValueError "expected '}' before end of string")
      end
  | String c r =>
      match st with
      | FText =>
          if Ascii.eqb c "{" then format_go args kwargs r FOpen nb
          else if Ascii.eqb c "}" then format_go args kwargs r FClose nb
          else fmap (String c) (format_go args kwargs r FText nb)
      | FOpen =>
          if Ascii.eqb c "{" then fmap (String "{") (format_go args kwargs r FText nb)
          else if Ascii.eqb c "}" then
            bind (get_field args kwargs EmptyString nb) (fun '(v, nb') =>
            fmap (append v) (format_go args kwargs r FText nb'))
          else if field_operator c then unmodelled_field
          else format_go args kwargs r (FField (String c EmptyString)) nb
      | FClose =>
          if Ascii.eqb c "}" then fmap (String "}") (format_go args kwargs r FText nb)
          else Raise (ValueError "Single '}' encountered in format string")
      | FField acc =>
          if Ascii.eqb c "}" then
            bind (get_field args kwargs acc nb) (fun '(v, nb') =>
            fmap (append v) (format_go args kwargs r FText nb'))
          else if Ascii.eqb c "{" then Raise (ValueError "unexpected '{' in field name")
          else if field_operator c then unmodelled_field
          else format_go args kwargs r (FField (acc ++ String c EmptyString)%string) nb
      end
  end.

(** [s.format] applied to positional and keyword arguments, the arguments
    already rendered by [str()]. *)
Definition format (s : string) (args : list string) (kwargs : dict string)
    : res string :=
  format_go args kwargs s FText Unnumbered.

End Py.

Export Py.

Declare Scope py_scope.
Delimit Scope py_scope with py.
Notation "x <- m ;; k" := (bind m (fun x => k))
  (at level 61, m at next level, right associativity) : py_scope.
Notation "' p <- m ;; k" := (bind m (fun p => k))
  (at level 61, p pattern, m at next level, right associativity) : py_scope.
Open Scope py_scope.

(** Header maps of [httpx] and [requests] compare field names without
    regard to case. *)
Fixpoint headers_get (name : string) (hs : list (string * string)) : option string :=
  match hs with
  | [] => None
  | (k, v) :: r => if String.eqb (lower k) (lower name) then Some v else headers_get name r
  end.

(** ** What the engines take from their collaborators

    [obj] is the universe of Python values handed in by the caller or
    produced by [json.loads]; [Schema] is a schema object of the data-model
    layer. *)
Class Runtime : Type := {
  obj : Type;
  (** a [str] as an object, and [str(o)] *)
  of_str : string -> obj;
  py_str : obj -> string;
  (** unpacking [*o] *)
  py_iter : obj -> res (list obj);
  isinstance_dict : obj -> bool;
  isinstance_list : obj -> bool;
  (** [isinstance(o, pydantic.BaseModel)] and [o.dict()] *)
  isinstance_BaseModel : obj -> bool;
  BaseModel_dict : obj -> obj;
  (** [issubclass(type(o), openapi3.schemas.Model)] and the dictionary
      [{k: v for k, v in o if v is not None}] *)
  issubclass_Model : obj -> bool;
  Model_items : obj -> obj;
  (** [json.dumps(o)], [json.dumps(o, default=lambda c: dict(c))] and
      [json.loads(s)] *)
  json_dumps : obj -> res string;
  json_dumps_default : obj -> res string;
  json_loads : string -> res obj;
  (** [urllib.parse.urlencode] *)
  urlencode : dict obj -> string;
  Schema : Type;
  (** truth value of [schema.required] *)
  Schema_required : Schema -> bool;
  (** [schema.model(data)] *)
  Schema_model : Schema -> obj -> res obj
}.

(** ** [aiopenapi3/v20/glue.py] *)

Module V20.
Section Glue.
Context {rt : Runtime}.

Record ParameterBase : Type := {
  name : string;
  in_ : string;
  required : bool;
  schema_ : option Schema
}.

Record SecurityRequirement : Type := {
  SecurityRequirement_name : string;
  SecurityRequirement_types : list string
}.

Record SecurityScheme : Type := {
  SecurityScheme_type : string;
  SecurityScheme_in_ : string;
  SecurityScheme_name : string
}.

Record Response : Type := {
  Response_schema_ : option Schema
}.

Record Operation : Type := {
  operationId : option string;
  parameters : list ParameterBase;
  consumes : list string;
  responses : dict Response;
  (** [None] when the operation declares no [security] member *)
  security : option (list SecurityRequirement)
}.

Record PathItem : Type := {
  PathItem_parameters : list ParameterBase
}.

Record Root : Type := {
  paths : dict PathItem;
  Root_security : list SecurityRequirement;
  securityDefinitions : dict SecurityScheme
}.

(** The message plugins, keyed by [operationId]. *)
Record Plugins : Type := {
  marshalled : option string -> obj -> obj;
  sending : option string -> list byte -> list byte;
  received : option string -> string -> string;
  parsed : option string -> obj -> obj;
  unmarshalled : option string -> obj -> obj
}.

(** [self.req], the request under construction. *)
Record Req : Type := {
  url : string;
  params : dict obj;
  headers : dict obj;
  cookies : dict obj;
  auth : option obj;
  content : option (list byte)
}.

Record Request : Type := {
  api_security : dict obj;       (* self.api._security *)
  api_plugins : Plugins;         (* self.api.plugins.message *)
  root : Root;
  path : string;
  operation : Operation;
  req : Req
}.

(** The response handed back by the transport. *)
Record Envelope : Type := {
  status_code : Z;
  Envelope_headers : list (string * string);
  Envelope_content : list byte
}.

Definition text (r : Envelope) : string := decode (Envelope_content r).

Definition with_req (self : Request) (r : Req) : Request :=
  {| api_security := api_security self; api_plugins := api_plugins self;
     root := root self; path := path self; operation := operation self; req := r |}.

Definition set_url (r : Req) (u : string) : Req :=
  {| url := u; params := params r; headers := headers r; cookies := cookies r;
     auth := auth r; content := content r |}.
Definition set_params (r : Req) (d : dict obj) : Req :=
  {| url := url r; params := d; headers := headers r; cookies := cookies r;
     auth := auth r; content := content r |}.
Definition set_headers (r : Req) (d : dict obj) : Req :=
  {| url := url r; params := params r; headers := d; cookies := cookies r;
     auth := auth r; content := content r |}.
Definition set_cookies (r : Req) (d : dict obj) : Req :=
  {| url := url r; params := params r; headers := headers r; cookies := d;
     auth := auth r; content := content r |}.
Definition set_auth (r : Req) (a : option obj) : Req :=
  {| url := url r; params := params r; headers := headers r; cookies := cookies r;
     auth := a; content := content r |}.
Definition set_content (r : Req) (c : option (list byte)) : Req :=
  {| url := url r; params := params r; headers := headers r; cookies := cookies r;
     auth := auth r; content := c |}.

(** Property [Request.data]: the schema of the first [body] parameter. *)
Definition data (self : Request) : res (option Schema) :=
  match filter (fun x => in_ x =? "body") (parameters (operation self)) with
  | i :: _ => Ok (schema_ i)
  | [] => Raise (ValueError "body")
  end.

(** *** [_prepare_security] *)

(** The local variable [security] (lines 40-43). *)
Definition security_alternatives (self : Request) : list SecurityRequirement :=
  match security (operation self) with
  | Some [] => []
  | Some l => l ++ Root_security (root self)
  | None => [] ++ Root_security (root self)
  end.

(** [self.operation.security.keys()]: the attribute is looked up on a list
    (or on [None]), which has no [keys]. *)
Definition security_keys (s : option (list SecurityRequirement)) : res (list string) :=
  match s with
  | Some _ => Raise (AttributeError "'list' object has no attribute 'keys'")
  | None => Raise (AttributeError "'NoneType' object has no attribute 'keys'")
  end.

(** The two nested loops of lines 46-52: the first credential whose name
    is the name of an alternative, with the first such alternative. *)
Fixpoint first_satisfied (creds : dict obj) (alts : list SecurityRequirement)
    : option (SecurityRequirement * obj) :=
  match creds with
  | [] => None
  | (scheme, value) :: rest =>
      match filter (fun x => SecurityRequirement_name x =? scheme) alts with
      | r :: _ => Some (r, value)
      | [] => first_satisfied rest alts
      end
  end.

Definition _prepare_secschemes (self : Request)
    (security_requirement : SecurityRequirement) (value : obj) : res Request :=
  ss <- getitem (SecurityRequirement_name security_requirement)
          (securityDefinitions (root self)) ;;
  let r0 := req self in
  let r1 := if SecurityScheme_type ss =? "basic" then set_auth r0 (Some value) else r0 in
  let r2 :=
    if SecurityScheme_type ss =? "apiKey" then
      let q := if SecurityScheme_in_ ss =? "query"
               then set_params r1 (set (SecurityScheme_name ss) value (params r1)) else r1 in
      let h := if SecurityScheme_in_ ss =? "header"
               then set_headers q (set (SecurityScheme_name ss) value (headers q)) else q in
      if SecurityScheme_in_ ss =? "cookie"
      then set_cookies h [(SecurityScheme_name ss, value)] else h
    else r1 in
  Ok (with_req self r2).

Definition _prepare_security (self : Request) : res Request :=
  let alternatives := security_alternatives self in
  if truthy (api_security self) && truthy alternatives then
    match first_satisfied (api_security self) alternatives with
    | Some (r, value) => _prepare_secschemes self r value
    | None =>
        ks <- security_keys (security (operation self)) ;;
        Raise (ValueError ("No security requirement satisfied (accepts "
                           ++ join ", " ks ++ ")"))
    end
  else Ok self.

(** *** [_prepare_parameters] *)

Definition not_body (x : ParameterBase) : bool := negb (in_ x =? "body").

(** Lines 83-87: the dictionary [accepted_parameters]. *)
Definition accepted_parameters (self : Request) : res (dict ParameterBase) :=
  item <- getitem (path self) (paths (root self)) ;;
  let p := filter not_body (parameters (operation self) ++ PathItem_parameters item) in
  Ok (fold_left (fun acc x => update acc [(name x, x)]) p []).

(** Lines 89-110: one pass over [accepted_parameters.items()], threading
    [path_parameters] and [self.req]. *)
Fixpoint bind_parameters (items : list (string * ParameterBase))
    (given : option (dict obj)) (path_parameters : dict obj) (r : Req)
    : res (dict obj * Req) :=
  match items with
  | [] => Ok (path_parameters, r)
  | (name, spec) :: rest =>
      let absent := match given with
                    | None => true
                    | Some ps => negb (mem name ps)
                    end in
      if absent then
        if required spec
        then Raise (ValueError ("Required parameter " ++ name ++ " not provided"))
        else bind_parameters rest given path_parameters r
      else
        value <- getitem name (match given with Some ps => ps | None => [] end) ;;
        let path_parameters :=
          if in_ spec =? "path" then set name value path_parameters else path_parameters in
        let r := if in_ spec =? "query"
                 then set_params r (set name value (params r)) else r in
        let r := if in_ spec =? "header"
                 then set_headers r (set name value (headers r)) else r in
        let r := if in_ spec =? "cookie"
                 then set_cookies r (set name value (cookies r)) else r in
        bind_parameters rest given path_parameters r
  end.

(** Keyword arguments as [format] renders them. *)
Definition kwargs_str (d : dict obj) : dict string :=
  map (fun kv => (fst kv, py_str (snd kv))) d.

Definition _prepare_parameters (self : Request) (given : option (dict obj))
    : res Request :=
  accepted <- accepted_parameters self ;;
  '(path_parameters, r) <- bind_parameters accepted given [] (req self) ;;
  u <- format (url r) [] (kwargs_str path_parameters) ;;
  Ok (with_req self (set_url r u)).

(** *** [_prepare_body] *)

Definition str_of_data (d : option obj) : string :=
  match d with
  | Some o => py_str o
  | None => "None"
  end.

Definition _prepare_body (self : Request) (body : option obj) : res Request :=
  match data self with
  | Raise (ValueError _) => Ok self
  | Raise e => Raise e
  | Ok sch =>
      missing <- match body with
                 | Some _ => Ok false
                 | None =>
                     match sch with
                     | Some s => Ok (Schema_required s)
                     | None =>
                         Raise (AttributeError
                                  "'NoneType' object has no attribute 'required'")
                     end
                 end ;;
      if missing : bool then
        Raise (ValueError "Request Body is required but none was provided.")
      else if existsb (String.eqb "application/json") (consumes (operation self)) then
        d <- match body with
             | Some d =>
                 if isinstance_dict d || isinstance_list d then Ok d
                 else if isinstance_BaseModel d then Ok (BaseModel_dict d)
                 else Raise (TypeError (str_of_data body))
             | None => Raise (TypeError (str_of_data body))
             end ;;
        let d := marshalled (api_plugins self) (operationId (operation self)) d in
        s <- json_dumps d ;;
        let b := encode s in
        let b := sending (api_plugins self) (operationId (operation self)) b in
        let r := set_content (req self) (Some b) in
        Ok (with_req self
              (set_headers r (set "Content-Type" (of_str "application/json") (headers r))))
      else Raise (NotImplementedError "")
  end.

Definition _prepare (self : Request) (body : option obj) (given : option (dict obj))
    : res Request :=
  self <- _prepare_security self ;;
  self <- _prepare_parameters self given ;;
  _prepare_body self body.

(** *** [_process] *)

(** Lines 162-166: the response definition for a status code. *)
Definition expected_response (self : Request) (status_code : string) : option Response :=
  let rs := responses (operation self) in
  if mem status_code rs then get status_code rs
  else if mem "default" rs then get "default" rs
  else None.

(** Lines 180-191: decoding, once a response definition is selected. *)
Definition decode_body (self : Request) (expected : Response) (result : Envelope)
    (content_type : string) : res (option obj) :=
  let op := operation self in
  if fst (fst (partition ";" (lower content_type))) =? "application/json" then
    let d := text result in
    let d := received (api_plugins self) (operationId op) d in
    d <- json_loads d ;;
    let d := parsed (api_plugins self) (operationId op) d in
    sch <- match Response_schema_ expected with
           | Some s => Ok s
           | None => Raise (AttributeError "'NoneType' object has no attribute 'model'")
           end ;;
    d <- Schema_model sch d ;;
    let d := unmarshalled (api_plugins self) (operationId op) d in
    Ok (Some d)
  else Raise (NotImplementedError content_type).

Definition _process (self : Request) (result : Envelope) : res (option obj) :=
  let op := operation self in
  let status := str_of_Z (status_code result) in
  match expected_response self status with
  | None =>
      let options := join "," (keys (responses op)) in
      Raise (ValueError ("Unexpected response " ++ str_of_Z (status_code result)
                         ++ " from " ++ str_of_opt (operationId op)
                         ++ " (expected one of " ++ options
                         ++ "), no default is defined"))
  | Some expected =>
      if status =? "204" then Ok None
      else
        match headers_get "Content-Type" (Envelope_headers result) with
        | None => Raise (AttributeError "'NoneType' object has no attribute 'lower'")
        | Some content_type => decode_body self expected result content_type
        end
  end.

(** *** Property [parameters] (lines 24-28) *)

(** The parameters of the operation and of its path that are not the
    body. *)
Definition parameters_property (self : Request) : res (list ParameterBase) :=
  item <- getitem (path self) (paths (root self)) ;;
  Ok (filter (fun x => negb (in_ x =? "body"))
        (parameters (operation self) ++ PathItem_parameters item)).

End Glue.
End V20.

(** ** [openapi3/paths.py] *)

Module OpenAPI3.

(** Loading a document either yields the object or raises [SpecError]. *)
Inductive loaded (A : Type) : Type :=
| Loaded (a : A)
| SpecError (msg : string).

Arguments Loaded {A} a.
Arguments SpecError {A} msg.

Section Paths.
Context {rt : Runtime}.

(** Class [Parameter] of paths.py. *)
Record ParameterObject : Type := {
  name : string;
  in_ : string;
  required : bool
}.

Record SecurityRequirement : Type := {
  SecurityRequirement_name : string;
  types : list string
}.

Record SecurityScheme : Type := {
  SecurityScheme_type : string;
  scheme : option string;
  bearerFormat : option string;
  SecurityScheme_in_ : option string;
  SecurityScheme_name : string
}.

Record MediaType : Type := {
  schema : option Schema
}.

Record RequestBody : Type := {
  RequestBody_required : bool;
  RequestBody_content : dict MediaType
}.

Record Response : Type := {
  (** [None] when the response declares no [content] member *)
  content : option (dict MediaType)
}.

Record PathItem : Type := {
  PathItem_parameters : list ParameterObject
}.

(** [self._root]: [components.securitySchemes] and [paths]. *)
Record Root : Type := {
  securitySchemes : dict SecurityScheme;
  paths : dict PathItem
}.

Record Operation : Type := {
  (** [self.path]: the keys leading to this operation in the document,
      ending with the path template and the method *)
  path : list string;
  operationId : option string;
  parameters : list ParameterObject;
  requestBody : option RequestBody;
  responses : dict Response;
  security : list SecurityRequirement;
  _root : Root
}.

Inductive Auth : Type :=
| HTTPBasicAuth (username password : obj)
| HTTPDigestAuth (username password : obj).

(** The local variables of [request] that the three preparation steps
    update. *)
Record Locals : Type := {
  body : option string;
  headers : dict obj;
  url_path : string;
  query_params : dict obj;
  auth : option Auth;
  cert : option obj
}.

Definition set_body (l : Locals) (b : option string) : Locals :=
  {| body := b; headers := headers l; url_path := url_path l;
     query_params := query_params l; auth := auth l; cert := cert l |}.
Definition set_headers (l : Locals) (h : dict obj) : Locals :=
  {| body := body l; headers := h; url_path := url_path l;
     query_params := query_params l; auth := auth l; cert := cert l |}.
Definition set_url_path (l : Locals) (p : string) : Locals :=
  {| body := body l; headers := headers l; url_path := p;
     query_params := query_params l; auth := auth l; cert := cert l |}.
Definition set_query_params (l : Locals) (q : dict obj) : Locals :=
  {| body := body l; headers := headers l; url_path := url_path l;
     query_params := q; auth := auth l; cert := cert l |}.
Definition set_auth (l : Locals) (a : option Auth) : Locals :=
  {| body := body l; headers := headers l; url_path := url_path l;
     query_params := query_params l; auth := a; cert := cert l |}.
Definition set_cert (l : Locals) (c : option obj) : Locals :=
  {| body := body l; headers := headers l; url_path := url_path l;
     query_params := query_params l; auth := auth l; cert := c |}.

(** What [requests] is called with, and what it returns. *)
Record Call : Type := {
  Call_method : string;
  Call_url : string;
  Call_auth : option Auth;
  Call_cert : option obj;
  Call_headers : dict obj;
  Call_data : option string
}.

Record Envelope : Type := {
  status_code : Z;
  Envelope_headers : list (string * string);
  Envelope_content : list byte
}.

(** [l[-k]] for [k >= 1]. *)
Definition index_from_end (l : list string) (k : nat) : res string :=
  match nth_error (List.rev l) (k - 1) with
  | Some x => Ok x
  | None => Raise (IndexError "list index out of range")
  end.

Definition opt_eqb (o : option string) (s : string) : bool :=
  match o with
  | Some x => x =? s
  | None => false
  end.

(** *** Security (lines 147-196) *)

(** [self.security.keys()]: [self.security] is a list. *)
Definition security_keys (s : list SecurityRequirement) : res (list string) :=
  Raise (AttributeError "'list' object has no attribute 'keys'").

(** Lines 152-161: the first credential for which an alternative of that
    name exists, with the first such alternative. *)
Fixpoint first_satisfied (creds : dict obj) (alts : list SecurityRequirement)
    : option (SecurityRequirement * obj) :=
  match creds with
  | [] => None
  | (sch, value) :: rest =>
      match find (fun r => SecurityRequirement_name r =? sch) alts with
      | Some r => Some (r, value)
      | None => first_satisfied rest alts
      end
  end.

(** [HTTPBasicAuth] and [HTTPDigestAuth] take a user name and a password;
    any other number of unpacked arguments is a [TypeError] of the call. *)
Definition auth_init (mk : obj -> obj -> Auth) (args : list obj) : res Auth :=
  match args with
  | [u; p] => Ok (mk u p)
  | _ => Raise (TypeError "__init__() takes 3 positional arguments")
  end.

Definition apply_http (ss : SecurityScheme) (value : obj) (l : Locals) : res Locals :=
  l <- (if opt_eqb (scheme ss) "basic"
        then args <- py_iter value ;; a <- auth_init HTTPBasicAuth args ;;
             Ok (set_auth l (Some a))
        else Ok l) ;;
  l <- (if opt_eqb (scheme ss) "bearer"
        then let header_format :=
               match bearerFormat ss with
               | Some f => if f =? "" then "Bearer {}" else f
               | None => "Bearer {}"
               end in
             h <- format header_format [py_str value] [] ;;
             Ok (set_headers l (set "Authorization" (of_str h) (headers l)))
        else Ok l) ;;
  l <- (if opt_eqb (scheme ss) "digest"
        then args <- py_iter value ;; a <- auth_init HTTPDigestAuth args ;;
             Ok (set_auth l (Some a))
        else Ok l) ;;
  let l := if opt_eqb (scheme ss) "mutualTLS" then set_cert l (Some value) else l in
  if negb (opt_eqb (scheme ss) "basic" || opt_eqb (scheme ss) "bearer"
           || opt_eqb (scheme ss) "digest" || opt_eqb (scheme ss) "mutualTLS")
  then Raise (NotImplementedError "")
  else Ok l.

Definition apply_scheme (ss : SecurityScheme) (value : obj) (l : Locals) : res Locals :=
  l <- (if SecurityScheme_type ss =? "http" then apply_http ss value l else Ok l) ;;
  let l :=
    if SecurityScheme_type ss =? "apiKey" then
      let l := if opt_eqb (SecurityScheme_in_ ss) "query"
               then set_query_params l (set (SecurityScheme_name ss) value (query_params l))
               else l in
      if opt_eqb (SecurityScheme_in_ ss) "header"
      then set_headers l (set (SecurityScheme_name ss) value (headers l))
      else l
    else l in
  if (SecurityScheme_type ss =? "oauth2") || (SecurityScheme_type ss =? "openIdConnect")
  then Raise (NotImplementedError "")
  else Ok l.

Definition request_security (self : Operation) (creds : dict obj) (l : Locals)
    : res Locals :=
  if truthy creds && truthy (security self) then
    match first_satisfied creds (security self) with
    | None =>
        ks <- security_keys (security self) ;;
        Raise (ValueError ("No security requirement satisfied (accepts "
                           ++ join ", " ks ++ ")"))
    | Some (security_requirement, value) =>
        security_scheme <- getitem (SecurityRequirement_name security_requirement)
                             (securitySchemes (_root self)) ;;
        apply_scheme security_scheme value l
    end
  else Ok l.

(** *** Request body (lines 198-211) *)

Definition request_body (self : Operation) (data : option obj) (l : Locals)
    : res Locals :=
  match requestBody self with
  | None => Ok l
  | Some rb =>
      if RequestBody_required rb && (match data with None => true | Some _ => false end)
      then Raise (ValueError "Request Body is required but none was provided.")
      else if mem "application/json" (RequestBody_content rb) then
        l <- match data with
             | Some d =>
                 if isinstance_dict d
                 then s <- json_dumps d ;; Ok (set_body l (Some s))
                 else if issubclass_Model d
                 then s <- json_dumps_default (Model_items d) ;; Ok (set_body l (Some s))
                 else Ok l
             | None => Ok l
             end ;;
        Ok (set_headers l (set "Content-Type" (of_str "application/json") (headers l)))
      else Raise (NotImplementedError "")
  end.

(** *** Parameters (lines 213-237) *)

(** [{p.name: p for p in ps}] *)
Definition by_name (ps : list ParameterObject) : dict ParameterObject :=
  fold_left (fun acc p => set (name p) p acc) ps [].

Definition accepted_parameters (self : Operation) : res (dict ParameterObject) :=
  let accepted := by_name (parameters self) in
  template <- index_from_end (path self) 2 ;;
  item <- getitem template (paths (_root self)) ;;
  Ok (update accepted (by_name (PathItem_parameters item))).

(** Lines 220-237: one pass over [accepted_parameters.items()]. *)
Fixpoint bind_parameters (items : list (string * ParameterObject))
    (given : dict obj) (l : Locals) : res Locals :=
  match items with
  | [] => Ok l
  | (name, spec) :: rest =>
      if required spec && negb (mem name given)
      then Raise (ValueError ("Required parameter " ++ name ++ " not provided"))
      else
        l <- (if mem name given then
                value <- getitem name given ;;
                if in_ spec =? "path" then
                  p <- format (url_path l) [] [(name, py_str value)] ;;
                  Ok (set_url_path l p)
                else if in_ spec =? "query" then
                  Ok (set_query_params l (set name value (query_params l)))
                else if in_ spec =? "header" then
                  Ok (set_headers l (set name value (headers l)))
                else if in_ spec =? "cookie" then
                  Ok (set_headers l (set "Cookie" value (headers l)))
                else Ok l
              else Ok l) ;;
        bind_parameters rest given l
  end.

Definition request_parameters (self : Operation) (given : dict obj) (l : Locals)
    : res Locals :=
  accepted <- accepted_parameters self ;;
  bind_parameters accepted given l.

(** *** Response handling (lines 246-284) *)

(** Lines 251-260: the response definition for a status code. *)
Definition expected_response (self : Operation) (result : Envelope) : res Response :=
  let status := str_of_Z (status_code result) in
  if mem status (responses self) then getitem status (responses self)
  else if mem "default" (responses self) then getitem "default" (responses self)
  else Raise (RuntimeError ("Unexpected response " ++ str_of_Z (status_code result)
                            ++ " from " ++ str_of_opt (operationId self)
                            ++ " (expected one of " ++ join "," (keys (responses self))
                            ++ ", no default is defined)")).

(** Lines 263-277: the media type entry for a content type. *)
Definition expected_media (self : Operation) (declared : dict MediaType)
    (content_type : string) : res MediaType :=
  let m := get content_type declared in
  let m := match m with
           | None =>
               if contains "/" content_type
               then get (hd "" (split "/" content_type) ++ "/*")%string declared
               else m
           | Some _ => m
           end in
  match m with
  | Some media => Ok media
  | None =>
      Raise (RuntimeError ("Unexpected content type " ++ content_type
                           ++ " returned for operation " ++ str_of_opt (operationId self)
                           ++ " (expected one of " ++ join "," (keys declared) ++ ")"))
  end.

Definition request_process (self : Operation) (result : Envelope) : res obj :=
  expected <- expected_response self result ;;
  (* a missing field is reported by requests under its lower-cased name *)
  content_type <- match headers_get "Content-Type" (Envelope_headers result) with
                  | Some v => Ok v
                  | None => Raise (KeyError "content-type")
                  end ;;
  declared <- match content expected with
              | Some d => Ok d
              | None => Raise (AttributeError "'NoneType' object has no attribute 'get'")
              end ;;
  media <- expected_media self declared content_type ;;
  if lower content_type =? "application/json" then
    sch <- match schema media with
           | Some s => Ok s
           | None => Raise (AttributeError "'NoneType' object has no attribute 'model'")
           end ;;
    j <- json_loads (decode (Envelope_content result)) ;;
    Schema_model sch j
  else Raise (NotImplementedError "").

(** *** [Operation.request] *)

Definition request (transport : Call -> res Envelope) (self : Operation)
    (base_url : string) (creds : dict obj) (data : option obj) (given : dict obj)
    : res obj :=
  request_method <- index_from_end (path self) 1 ;;
  template <- index_from_end (path self) 2 ;;
  let l := {| body := None; headers := []; url_path := template; query_params := [];
              auth := None; cert := None |} in
  l <- request_security self creds l ;;
  l <- request_body self data l ;;
  l <- request_parameters self given l ;;
  let final_url := (base_url ++ url_path l ++ "?" ++ urlencode (query_params l))%string in
  result <- transport {| Call_method := request_method; Call_url := final_url;
                         Call_auth := auth l; Call_cert := cert l;
                         Call_headers := headers l; Call_data := body l |} ;;
  request_process self result.


(** *** Loading parameters and security requirements (lines 58-77, 293-309)

    [ObjectBase._get] and [ObjectBase.get_path] are not part of these
    sources: what [_get] returned for the members the engine reads, and the
    location [get_path] reports, are inputs here.  The members of a
    parameter that [request] never reads ([description], [schema], ...) are
    stored as they come and left out. *)

Record ParameterFields : Type := {
  fields_name : string;
  fields_in : string;
  (** [None] when the document has no [required] member *)
  fields_required : option bool
}.

(** [x is True] *)
Definition is_True (x : option bool) : bool :=
  match x with
  | Some true => true
  | _ => false
  end.

(** [Parameter._parse_data]; [required] is read by [request] for its truth
    value only, which is what the loaded parameter keeps. *)
Definition Parameter_parse_data (get_path : string) (f : ParameterFields)
    : loaded ParameterObject :=
  if (fields_in f =? "path") && negb (is_True (fields_required f))
  then SpecError ("Parameter " ++ get_path
                  ++ " must be required since it is in the path")
  else Loaded {| name := fields_name f; in_ := fields_in f;
                 required := is_True (fields_required f) |}.

(** [l[0]] *)
Definition first_item {A} (l : list A) : res A :=
  match l with
  | x :: _ => Ok x
  | [] => Raise (IndexError "list index out of range")
  end.

(** [SecurityRequirement.can_parse] *)
Definition can_parse (dct : dict obj) : res bool :=
  if (List.length (keys dct) =? 1)%nat
  then v <- first_item (map snd dct) ;; Ok (isinstance_list v)
  else Ok false.

(** [SecurityRequirement._parse_data]; [get_types name] stands for
    [self._get(name, str, is_list=True)]. *)
Definition SecurityRequirement_parse_data (get_types : string -> res (list string))
    (raw_element : dict obj) : res SecurityRequirement :=
  n <- first_item (keys raw_element) ;;
  ts <- get_types n ;;
  Ok {| SecurityRequirement_name := n; types := ts |}.

(** [SecurityRequirement.__dict__] *)
Definition SecurityRequirement_dict (r : SecurityRequirement) : dict (list string) :=
  [(SecurityRequirement_name r, types r)].

End Paths.
End OpenAPI3.

(** ** A concrete runtime

    Python values built from [None], booleans, integers, ASCII strings,
    lists, tuples, dictionaries with string keys and typed model
    instances, with the JSON text [json.dumps] writes for them by default
    (separators [", "] and [": "], ASCII output) and a reader for JSON text.
    Floating-point numbers and non-ASCII text are outside this instance. *)

Module Concrete.

Inductive pyobj : Type :=
| PNone
| PBool (b : bool)
| PInt (z : Z)
| PStr (s : string)
| PList (l : list pyobj)
| PTuple (l : list pyobj)
| PDict (d : list (string * pyobj))
| PModel (fields : list (string * pyobj)).

(** The double quote character. *)
Definition dquote : ascii := ascii_of_nat 34.

Definition hex_digit (n : nat) : ascii :=
  if (n <? 10)%nat then ascii_of_nat (48 + n) else ascii_of_nat (87 + n).

Definition hex_value (c : ascii) : option nat :=
  let n := nat_of_ascii c in
  if (48 <=? n)%nat && (n <=? 57)%nat then Some (n - 48)
  else if (97 <=? n)%nat && (n <=? 102)%nat then Some (n - 87)
  else if (65 <=? n)%nat && (n <=? 70)%nat then Some (n - 55)
  else None.

(** One character of a JSON string, as [json.dumps] writes it. *)
Definition escape_char (c : ascii) : res string :=
  let n := nat_of_ascii c in
  if Ascii.eqb c dquote then Ok (String "\" (String dquote EmptyString))
  else if Ascii.eqb c "\" then Ok "\\"
  else if (n =? 10)%nat then Ok "\n"
  else if (n =? 13)%nat then Ok "\r"
  else if (n =? 9)%nat then Ok "\t"
  else if (n =? 8)%nat then Ok "\b"
  else if (n =? 12)%nat then Ok "\f"
  else if (128 <=? n)%nat then Raise (Unmodelled "non-ASCII text")
  else if (n <? 32)%nat || (n =? 127)%nat then
    Ok (String "\" (String "u" (String "0" (String "0"
          (String (hex_digit (n / 16)) (String (hex_digit (n mod 16)) EmptyString))))))
  else Ok (String c EmptyString).

Fixpoint escape (s : string) : res string :=
  match s with
  | EmptyString => Ok EmptyString
  | String c r => e <- escape_char c ;; t <- escape r ;; Ok (e ++ t)%string
  end.

Definition quote (s : string) : res string :=
  e <- escape s ;; Ok (String dquote (e ++ String dquote EmptyString))%string.

(** The texts of the items of a container, separated by [", "]. *)
Fixpoint joined {A} (f : A -> res string) (l : list A) : res string :=
  match l with
  | [] => Ok EmptyString
  | x :: r =>
      s <- f x ;;
      match r with
      | [] => Ok s
      | _ :: _ => t <- joined f r ;; Ok (s ++ ", " ++ t)%string
      end
  end.

Fixpoint dumps (o : pyobj) : res string :=
  match o with
  | PNone => Ok "null"
  | PBool true => Ok "true"
  | PBool false => Ok "false"
  | PInt z => Ok (str_of_Z z)
  | PStr s => quote s
  | PList l => s <- joined dumps l ;; Ok ("[" ++ s ++ "]")%string
  | PTuple l => s <- joined dumps l ;; Ok ("[" ++ s ++ "]")%string
  | PDict d =>
      s <- joined (fun kv => q <- quote (fst kv) ;; s <- dumps (snd kv) ;;
                             Ok (q ++ ": " ++ s)%string) d ;;
      Ok ("{" ++ s ++ "}")%string
  | PModel _ => Raise (TypeError "Object of type Model is not JSON serializable")
  end.

(** Reading JSON text. *)

Definition is_ws (c : ascii) : bool :=
  let n := nat_of_ascii c in
  (n =? 32)%nat || (n =? 9)%nat || (n =? 10)%nat || (n =? 13)%nat.

Fixpoint skip_ws (s : string) : string :=
  match s with
  | String c r => if is_ws c then skip_ws r else s
  | EmptyString => s
  end.

(** The text after a given first character, if the text starts with it. *)
Definition eat (c : ascii) (s : string) : option string :=
  match s with
  | String a r => if Ascii.eqb a c then Some r else None
  | EmptyString => None
  end.

Fixpoint eat_all (lit : string) (s : string) : option string :=
  match lit with
  | EmptyString => Some s
  | String c lit' =>
      match eat c s with
      | Some r => eat_all lit' r
      | None => None
      end
  end.

Fixpoint take_digits (s : string) : string * string :=
  match s with
  | String c r =>
      if is_digit c then let '(d, t) := take_digits r in (String c d, t) else (EmptyString, s)
  | EmptyString => (EmptyString, EmptyString)
  end.

Definition Z_of_digits (d : string) : Z :=
  match NilZero.uint_of_string d with
  | Some u => Z.of_uint u
  | None => 0
  end.

Definition starts_fraction (s : string) : bool :=
  match s with
  | String c _ => Ascii.eqb c "." || Ascii.eqb c "e" || Ascii.eqb c "E"
  | EmptyString => false
  end.

(** An integer literal without its sign; a leading [0] is a complete
    literal. *)
Definition parse_nat (s : string) : res (Z * string) :=
  match eat "0" s with
  | Some r => if starts_fraction r then Raise (Unmodelled "float") else Ok (0%Z, r)
  | None =>
      let '(d, t) := take_digits s in
      match d with
      | EmptyString => Raise (ValueError "Expecting value")
      | String _ _ =>
          if starts_fraction t then Raise (Unmodelled "float") else Ok (Z_of_digits d, t)
      end
  end.

(** The character an escape letter stands for. *)
Definition unescape (e : ascii) : option ascii :=
  if Ascii.eqb e dquote then Some dquote
  else if Ascii.eqb e "\" then Some "\"%char
  else if Ascii.eqb e "/" then Some "/"%char
  else if Ascii.eqb e "n" then Some (ascii_of_nat 10)
  else if Ascii.eqb e "r" then Some (ascii_of_nat 13)
  else if Ascii.eqb e "t" then Some (ascii_of_nat 9)
  else if Ascii.eqb e "b" then Some (ascii_of_nat 8)
  else if Ascii.eqb e "f" then Some (ascii_of_nat 12)
  else None.

(** The text of a string literal after its opening quote. *)
Fixpoint parse_string (s : string) : res (string * string) :=
  match s with
  | EmptyString => Raise (ValueError "Unterminated string starting at")
  | String c r =>
      if Ascii.eqb c dquote then Ok (EmptyString, r)
      else if Ascii.eqb c "\" then
        match r with
        | String e r' =>
            if Ascii.eqb e "u" then
              match r' with
              | String a (String b (String h (String l r''))) =>
                  match hex_value a, hex_value b, hex_value h, hex_value l with
                  | Some x3, Some x2, Some x1, Some x0 =>
                      if (x3 =? 0)%nat && (x2 =? 0)%nat && (x1 <? 8)%nat
                      then '(t, rest) <- parse_string r'' ;;
                           Ok (String (ascii_of_nat (16 * x1 + x0)) t, rest)
                      else Raise (Unmodelled "non-ASCII text")
                  | _, _, _, _ => Raise (ValueError "Invalid \uXXXX escape")
                  end
              | _ => Raise (ValueError "Invalid \uXXXX escape")
              end
            else
              match unescape e with
              | Some x => '(t, rest) <- parse_string r' ;; Ok (String x t, rest)
              | None => Raise (ValueError "Invalid \escape")
              end
        | EmptyString => Raise (ValueError "Unterminated string starting at")
        end
      else if (nat_of_ascii c <? 32)%nat then Raise (ValueError "Invalid control character at")
      else if (128 <=? nat_of_ascii c)%nat then Raise (Unmodelled "non-ASCII text")
      else '(t, rest) <- parse_string r ;; Ok (String c t, rest)
  end.

Definition expect (lit : string) (s : string) (v : pyobj) : res (pyobj * string) :=
  match eat_all lit s with
  | Some rest => Ok (v, rest)
  | None => Raise (ValueError "Expecting value")
  end.

Definition out_of_fuel {A} : res A :=
  Raise (Unmodelled "nesting deeper than the text is long").

Fixpoint parse_value (fuel : nat) (s : string) : res (pyobj * string) :=
  match fuel with
  | O => out_of_fuel
  | S fuel =>
      match s with
      | EmptyString => Raise (ValueError "Expecting value")
      | String c r =>
          if Ascii.eqb c "n" then expect "ull" r PNone
          else if Ascii.eqb c "t" then expect "rue" r (PBool true)
          else if Ascii.eqb c "f" then expect "alse" r (PBool false)
          else if Ascii.eqb c dquote then
            '(t, rest) <- parse_string r ;; Ok (PStr t, rest)
          else if Ascii.eqb c "-" then
            '(z, rest) <- parse_nat r ;; Ok (PInt (- z), rest)
          else if is_digit c then
            '(z, rest) <- parse_nat s ;; Ok (PInt z, rest)
          else if Ascii.eqb c "[" then
            match eat "]" (skip_ws r) with
            | Some rest => Ok (PList [], rest)
            | None => '(l, rest) <- parse_elements fuel (skip_ws r) ;; Ok (PList l, rest)
            end
          else if Ascii.eqb c "{" then
            match eat "}" (skip_ws r) with
            | Some rest => Ok (PDict [], rest)
            | None =>
                '(d, rest) <- parse_members fuel (skip_ws r) ;;
                Ok (PDict (fold_left (fun acc kv => set (fst kv) (snd kv) acc) d []), rest)
            end
          else Raise (ValueError "Expecting value")
      end
  end
with parse_elements (fuel : nat) (s : string) : res (list pyobj * string) :=
  match fuel with
  | O => out_of_fuel
  | S fuel =>
      '(v, rest) <- parse_value fuel s ;;
      match eat "," (skip_ws rest) with
      | Some rest =>
          '(l, rest) <- parse_elements fuel (skip_ws rest) ;; Ok (v :: l, rest)
      | None =>
          match eat "]" (skip_ws rest) with
          | Some rest => Ok ([v], rest)
          | None => Raise (ValueError "Expecting ',' delimiter")
          end
      end
  end
with parse_members (fuel : nat) (s : string) : res (list (string * pyobj) * string) :=
  match fuel with
  | O => out_of_fuel
  | S fuel =>
      match eat dquote s with
      | Some r =>
          '(k, rest) <- parse_string r ;;
          match eat ":" (skip_ws rest) with
          | Some rest =>
              '(v, rest) <- parse_value fuel (skip_ws rest) ;;
              match eat "," (skip_ws rest) with
              | Some rest =>
                  '(d, rest) <- parse_members fuel (skip_ws rest) ;;
                  Ok ((k, v) :: d, rest)
              | None =>
                  match eat "}" (skip_ws rest) with
                  | Some rest => Ok ([(k, v)], rest)
                  | None => Raise (ValueError "Expecting ',' delimiter")
                  end
              end
          | None => Raise (ValueError "Expecting ':' delimiter")
          end
      | None => Raise (ValueError "Expecting property name enclosed in double quotes")
      end
  end.

Definition loads (s : string) : res pyobj :=
  '(v, rest) <- parse_value (S (String.length s)) (skip_ws s) ;;
  match skip_ws rest with
  | EmptyString => Ok v
  | String _ _ => Raise (ValueError "Extra data")
  end.

(** The values this instance reads back from what it writes: no tuples
    (they come back as lists), no model instances, ASCII text only,
    dictionaries without repeated keys. *)
Fixpoint ascii_text (s : string) : bool :=
  match s with
  | EmptyString => true
  | String c r => (nat_of_ascii c <? 128)%nat && ascii_text r
  end.

Fixpoint distinct (l : list string) : bool :=
  match l with
  | [] => true
  | k :: r => negb (existsb (String.eqb k) r) && distinct r
  end.

Fixpoint json_value (o : pyobj) : bool :=
  match o with
  | PNone | PBool _ | PInt _ => true
  | PStr s => ascii_text s
  | PList l => forallb json_value l
  | PDict d =>
      forallb (fun kv => ascii_text (fst kv) && json_value (snd kv)) d
      && distinct (map fst d)
  | PTuple _ | PModel _ => false
  end.

(** Fuel that suffices to read a value back. *)
Fixpoint need (o : pyobj) : nat :=
  match o with
  | PList l => S (list_sum (map (fun x => S (need x)) l))
  | PDict d => S (list_sum (map (fun kv => S (need (snd kv))) d))
  | _ => 1
  end.

(** What may follow a number: the end of the text or a character that
    does not continue the literal. *)
Definition ends_number (rest : string) : bool :=
  match rest with
  | EmptyString => true
  | String c _ => negb (is_digit c) && negb (starts_fraction rest)
  end.

(** What may follow a run of digits. *)
Definition first_not_digit (s : string) : bool :=
  match s with
  | EmptyString => true
  | String c _ => negb (is_digit c)
  end.

(** Induction over values, with the hypothesis for every item of a
    container. *)
Fixpoint pyobj_induction (P : pyobj -> Prop)
    (HNone : P PNone) (HBool : forall b, P (PBool b)) (HInt : forall z, P (PInt z))
    (HStr : forall s, P (PStr s))
    (HList : forall l, Forall P l -> P (PList l))
    (HTuple : forall l, Forall P l -> P (PTuple l))
    (HDict : forall d, Forall (fun kv => P (snd kv)) d -> P (PDict d))
    (HModel : forall d, Forall (fun kv => P (snd kv)) d -> P (PModel d))
    (o : pyobj) {struct o} : P o :=
  let rec := pyobj_induction P HNone HBool HInt HStr HList HTuple HDict HModel in
  let all :=
    fix all (l : list pyobj) : Forall P l :=
      match l with
      | [] => Forall_nil P
      | x :: r => Forall_cons x (rec x) (all r)
      end in
  let all_snd :=
    fix all_snd (d : list (string * pyobj)) : Forall (fun kv => P (snd kv)) d :=
      match d with
      | [] => Forall_nil _
      | kv :: r => Forall_cons kv (rec (snd kv)) (all_snd r)
      end in
  match o with
  | PNone => HNone
  | PBool b => HBool b
  | PInt z => HInt z
  | PStr s => HStr s
  | PList l => HList l (all l)
  | PTuple l => HTuple l (all l)
  | PDict d => HDict d (all_snd d)
  | PModel d => HModel d (all_snd d)
  end.

(** The first character of the text of a value. *)
Definition value_start (s : string) : bool :=
  match s with
  | EmptyString => false
  | String c _ =>
      negb (is_ws c) && negb (Ascii.eqb c "]") && negb (Ascii.eqb c "}")
      && negb (Ascii.eqb c ",")
  end.

(** A value is read back from the text written for it, whatever follows
    that text, with the fuel [need] grants. *)
Definition reads_back (v : pyobj) : Prop :=
  exists s, dumps v = Ok s /\
  value_start s = true /\
  need v <= String.length s /\
  forall fuel rest, need v <= fuel -> ends_number rest = true ->
                    parse_value fuel (s ++ rest) = Ok (v, rest).

(** [repr(o)] and [str(o)]; quotes inside strings are not escaped. *)
Fixpoint repr (o : pyobj) : string :=
  match o with
  | PNone => "None"
  | PBool true => "True"
  | PBool false => "False"
  | PInt z => str_of_Z z
  | PStr s => "'" ++ s ++ "'"
  | PList l => "[" ++ join ", " (map repr l) ++ "]"
  | PTuple [x] => "(" ++ repr x ++ ",)"
  | PTuple l => "(" ++ join ", " (map repr l) ++ ")"
  | PDict d =>
      "{" ++ join ", " (map (fun kv => let '(k, v) := kv in "'" ++ k ++ "': " ++ repr v) d)
      ++ "}"
  | PModel d =>
      "Model(" ++ join ", " (map (fun kv => let '(k, v) := kv in k ++ "=" ++ repr v) d)
      ++ ")"
  end%string.

Definition str (o : pyobj) : string :=
  match o with
  | PStr s => s
  | _ => repr o
  end.

Fixpoint chars (s : string) : list pyobj :=
  match s with
  | EmptyString => []
  | String c r => PStr (String c EmptyString) :: chars r
  end.

Definition iter (o : pyobj) : res (list pyobj) :=
  match o with
  | PList l | PTuple l => Ok l
  | PStr s => Ok (chars s)
  | PDict d => Ok (map PStr (keys d))
  | _ => Raise (TypeError "object is not iterable")
  end.

Definition is_dict (o : pyobj) : bool :=
  match o with PDict _ => true | _ => false end.
Definition is_list (o : pyobj) : bool :=
  match o with PList _ => true | _ => false end.
Definition is_model (o : pyobj) : bool :=
  match o with PModel _ => true | _ => false end.

Definition model_dict (o : pyobj) : pyobj :=
  match o with
  | PModel d => PDict d
  | _ => o
  end.

Definition model_items (o : pyobj) : pyobj :=
  match o with
  | PModel d => PDict (filter (fun kv => match snd kv with PNone => false | _ => true end) d)
  | _ => o
  end.

(** [json.dumps] with [default=lambda c: dict(c)]: nested model instances
    are written as dictionaries. *)
Fixpoint unmodel (o : pyobj) : pyobj :=
  match o with
  | PList l => PList (map unmodel l)
  | PTuple l => PTuple (map unmodel l)
  | PDict d => PDict (map (fun kv => let '(k, v) := kv in (k, unmodel v)) d)
  | PModel d => PDict (map (fun kv => let '(k, v) := kv in (k, unmodel v)) d)
  | _ => o
  end.

(** Query strings over unreserved characters (no percent-encoding). *)
Definition urlencode_plain (q : dict pyobj) : string :=
  join "&" (map (fun kv => fst kv ++ "=" ++ str (snd kv))%string q).

(** A schema of the data-model layer, reduced to the properties it
    requires. *)
Record schema : Type := {
  required_properties : list string
}.

(** Modelled from the spec: the method [model] of a schema belongs to the
    data-model layer, which is not part of these sources.  The
    specification describes it as [construct(schema, value)], which builds
    the typed value of the decoded result and fails with a validation error
    when the value does not conform to the schema.  Here it builds a model
    instance from a dictionary that holds the required properties; the
    validation error is a [ValueError], as that of pydantic is. *)
Definition model (s : schema) (o : pyobj) : res pyobj :=
  match o with
  | PDict d =>
      if forallb (fun k => mem k d) (required_properties s) then Ok (PModel d)
      else Raise (ValueError "field required")
  | _ => Raise (ValueError "value is not a valid dict")
  end.

Definition runtime : Runtime := {|
  obj := pyobj;
  of_str := PStr;
  py_str := str;
  py_iter := iter;
  isinstance_dict := is_dict;
  isinstance_list := is_list;
  isinstance_BaseModel := is_model;
  BaseModel_dict := model_dict;
  issubclass_Model := is_model;
  Model_items := model_items;
  json_dumps := dumps;
  json_dumps_default := fun o => dumps (unmodel o);
  json_loads := loads;
  urlencode := urlencode_plain;
  Schema := schema;
  Schema_required := fun s => truthy (required_properties s);
  Schema_model := model
|}.

End Concrete.

(** ** Path templates

    A path template is literal text interleaved with [{name}]
    placeholders. *)

Inductive segment : Type :=
| Lit (s : string)
| Field (name : string).


Fixpoint fields (t : list segment) : list string :=
  match t with
  | [] => []
  | Lit _ :: r => fields r
  | Field n :: r => n :: fields r
  end.






(** The value a caller supplies under a name, if any. *)
Definition supplied {V} (given : option (dict V)) (n : string) : option V :=
  match given with
  | Some g => get n g
  | None => None
  end.

(** ** Example specifications and calls *)

Module Examples.
Import Concrete.
#[local] Existing Instance runtime.

Definition identity_plugins : V20.Plugins :=
  {| V20.marshalled := fun _ d => d; V20.sending := fun _ b => b;
     V20.received := fun _ s => s; V20.parsed := fun _ d => d;
     V20.unmarshalled := fun _ d => d |}.

Definition empty_req (u : string) : V20.Req :=
  {| V20.url := u; V20.params := []; V20.headers := []; V20.cookies := [];
     V20.auth := None; V20.content := None |}.

(** An operation and its path both declare a parameter [id]. *)
Definition v20_op_id : V20.ParameterBase :=
  {| V20.name := "id"; V20.in_ := "query"; V20.required := false; V20.schema_ := None |}.
Definition v20_path_id : V20.ParameterBase :=
  {| V20.name := "id"; V20.in_ := "path"; V20.required := true; V20.schema_ := None |}.

Definition item_schema : schema := {| required_properties := ["id"] |}.
Definition error_schema : schema := {| required_properties := ["message"] |}.

Definition v20_item_response : V20.Response :=
  {| V20.Response_schema_ := Some item_schema |}.
Definition v20_error_response : V20.Response :=
  {| V20.Response_schema_ := Some error_schema |}.

Definition v20_get_item_op : V20.Operation :=
  {| V20.operationId := Some "getItem";
     V20.parameters := [v20_op_id];
     V20.consumes := ["application/json"];
     V20.responses := [("200", v20_item_response)];
     V20.security := None |}.

Definition v20_items_path : V20.PathItem :=
  {| V20.PathItem_parameters := [v20_path_id] |}.

Definition v20_items_root : V20.Root :=
  {| V20.paths := [("/items/{id}", v20_items_path)];
     V20.Root_security := [];
     V20.securityDefinitions := [] |}.

Definition v20_get_item : V20.Request :=
  {| V20.api_security := [];
     V20.api_plugins := identity_plugins;
     V20.root := v20_items_root;
     V20.path := "/items/{id}";
     V20.operation := v20_get_item_op;
     V20.req := empty_req "/items/{id}" |}.

Definition oa3_op_id : OpenAPI3.ParameterObject :=
  {| OpenAPI3.name := "id"; OpenAPI3.in_ := "query"; OpenAPI3.required := false |}.
Definition oa3_path_id : OpenAPI3.ParameterObject :=
  {| OpenAPI3.name := "id"; OpenAPI3.in_ := "path"; OpenAPI3.required := true |}.

Definition oa3_items_root : OpenAPI3.Root :=
  {| OpenAPI3.securitySchemes := [];
     OpenAPI3.paths :=
       [("/items/{id}", {| OpenAPI3.PathItem_parameters := [oa3_path_id] |})] |}.

Definition json_media : OpenAPI3.MediaType := {| OpenAPI3.schema := Some item_schema |}.
Definition oa3_item_response : OpenAPI3.Response :=
  {| OpenAPI3.content := Some [("application/json", json_media)] |}.

Definition oa3_get_item : OpenAPI3.Operation :=
  {| OpenAPI3.path := ["paths"; "/items/{id}"; "get"];
     OpenAPI3.operationId := Some "getItem";
     OpenAPI3.parameters := [oa3_op_id];
     OpenAPI3.requestBody := None;
     OpenAPI3.responses :=
       [("200", oa3_item_response)];
     OpenAPI3.security := [];
     OpenAPI3._root := oa3_items_root |}.

(** Responses to [getItem]. *)
Definition item_json : list byte :=
  encode ("{" ++ String dquote "id" ++ String dquote ": 1}")%string.

Definition v20_response (status : Z) (hs : list (string * string)) : V20.Envelope :=
  {| V20.status_code := status; V20.Envelope_headers := hs;
     V20.Envelope_content := item_json |}.

Definition oa3_response (status : Z) (hs : list (string * string)) : OpenAPI3.Envelope :=
  {| OpenAPI3.status_code := status; OpenAPI3.Envelope_headers := hs;
     OpenAPI3.Envelope_content := item_json |}.

(** [getItem] with a [default] response next to ["200"]. *)
Definition v20_get_item_default : V20.Request :=
  {| V20.api_security := [];
     V20.api_plugins := identity_plugins;
     V20.root := v20_items_root;
     V20.path := "/items/{id}";
     V20.operation :=
       {| V20.operationId := Some "getItem";
          V20.parameters := [v20_op_id];
          V20.consumes := ["application/json"];
          V20.responses :=
            [("200", v20_item_response); ("default", v20_error_response)];
          V20.security := None |};
     V20.req := empty_req "/items/{id}" |}.

(** An operation secured by [basicAuth], in a specification whose
    spec-wide security is [globalKey]. *)
Definition v20_basicAuth : V20.SecurityRequirement :=
  {| V20.SecurityRequirement_name := "basicAuth"; V20.SecurityRequirement_types := [] |}.
Definition v20_globalKey : V20.SecurityRequirement :=
  {| V20.SecurityRequirement_name := "globalKey"; V20.SecurityRequirement_types := [] |}.

Definition v20_secured_root : V20.Root :=
  {| V20.paths := [("/items/{id}", v20_items_path)];
     V20.Root_security := [v20_globalKey];
     V20.securityDefinitions :=
       [("basicAuth", {| V20.SecurityScheme_type := "basic";
                         V20.SecurityScheme_in_ := "";
                         V20.SecurityScheme_name := "" |});
        ("globalKey", {| V20.SecurityScheme_type := "apiKey";
                         V20.SecurityScheme_in_ := "header";
                         V20.SecurityScheme_name := "X-API-Key" |})] |}.

Definition v20_secured_op (own : option (list V20.SecurityRequirement)) : V20.Operation :=
  {| V20.operationId := Some "getItem";
     V20.parameters := [];
     V20.consumes := ["application/json"];
     V20.responses := [("200", v20_item_response)];
     V20.security := own |}.

Definition v20_secured (own : option (list V20.SecurityRequirement))
    (creds : dict pyobj) : V20.Request :=
  {| V20.api_security := creds;
     V20.api_plugins := identity_plugins;
     V20.root := v20_secured_root;
     V20.path := "/items/{id}";
     V20.operation := v20_secured_op own;
     V20.req := empty_req "/items/{id}" |}.

Definition oa3_basicAuth : OpenAPI3.SecurityRequirement :=
  {| OpenAPI3.SecurityRequirement_name := "basicAuth"; OpenAPI3.types := [] |}.

Definition oa3_secured : OpenAPI3.Operation :=
  {| OpenAPI3.path := ["paths"; "/items/{id}"; "get"];
     OpenAPI3.operationId := Some "getItem";
     OpenAPI3.parameters := [];
     OpenAPI3.requestBody := None;
     OpenAPI3.responses := [("200", oa3_item_response)];
     OpenAPI3.security := [oa3_basicAuth];
     OpenAPI3._root :=
       {| OpenAPI3.securitySchemes :=
            [("basicAuth", {| OpenAPI3.SecurityScheme_type := "http";
                              OpenAPI3.scheme := Some "basic";
                              OpenAPI3.bearerFormat := None;
                              OpenAPI3.SecurityScheme_in_ := None;
                              OpenAPI3.SecurityScheme_name := "" |})];
          OpenAPI3.paths := [("/items/{id}", {| OpenAPI3.PathItem_parameters := [] |})] |} |}.

Definition no_locals (template : string) : OpenAPI3.Locals :=
  {| OpenAPI3.body := None; OpenAPI3.headers := []; OpenAPI3.url_path := template;
     OpenAPI3.query_params := []; OpenAPI3.auth := None; OpenAPI3.cert := None |}.

(** [createItem] takes an [application/json] body. *)
Definition v20_create_item : V20.Request :=
  {| V20.api_security := [];
     V20.api_plugins := identity_plugins;
     V20.root :=
       {| V20.paths := [("/items", {| V20.PathItem_parameters := [] |})];
          V20.Root_security := [];
          V20.securityDefinitions := [] |};
     V20.path := "/items";
     V20.operation :=
       {| V20.operationId := Some "createItem";
          V20.parameters :=
            [{| V20.name := "item"; V20.in_ := "body"; V20.required := true;
                V20.schema_ := Some item_schema |}];
          V20.consumes := ["application/json"];
          V20.responses := [("200", v20_item_response)];
          V20.security := None |};
     V20.req := empty_req "/items" |}.

Definition oa3_create_item : OpenAPI3.Operation :=
  {| OpenAPI3.path := ["paths"; "/items"; "post"];
     OpenAPI3.operationId := Some "createItem";
     OpenAPI3.parameters := [];
     OpenAPI3.requestBody :=
       Some {| OpenAPI3.RequestBody_required := true;
               OpenAPI3.RequestBody_content := [("application/json", json_media)] |};
     OpenAPI3.responses := [("200", oa3_item_response)];
     OpenAPI3.security := [];
     OpenAPI3._root :=
       {| OpenAPI3.securitySchemes := [];
          OpenAPI3.paths := [("/items", {| OpenAPI3.PathItem_parameters := [] |})] |} |}.

(** A value to send and the response that echoes a request body. *)
Definition item_value : pyobj :=
  PDict [("id", PInt 1);
         ("tags", PList [PStr "a"; PNone; PInt (-7)]);
         ("name", PStr (String "x" (String (ascii_of_nat 10) "y")))].

(** The JSON text of [item_value]. *)
Definition item_text : string :=
  Eval vm_compute in match dumps item_value with Ok s => s | Raise _ => EmptyString end.

Definition v20_echo (status : Z) (body : list byte) : V20.Envelope :=
  {| V20.status_code := status;
     V20.Envelope_headers := [("Content-Type", "application/json")];
     V20.Envelope_content := body |}.

(** An operation on a path with two placeholders, both declared as
    required [path] parameters by the operation. *)
Definition oa3_get_part : OpenAPI3.Operation :=
  {| OpenAPI3.path := ["paths"; "/items/{id}/parts/{part}"; "get"];
     OpenAPI3.operationId := Some "getPart";
     OpenAPI3.parameters :=
       [{| OpenAPI3.name := "id"; OpenAPI3.in_ := "path"; OpenAPI3.required := true |};
        {| OpenAPI3.name := "part"; OpenAPI3.in_ := "path"; OpenAPI3.required := true |}];
     OpenAPI3.requestBody := None;
     OpenAPI3.responses := [("200", oa3_item_response)];
     OpenAPI3.security := [];
     OpenAPI3._root :=
       {| OpenAPI3.securitySchemes := [];
          OpenAPI3.paths :=
            [("/items/{id}/parts/{part}", {| OpenAPI3.PathItem_parameters := [] |})] |} |}.

(** An operation secured by an API key sent in the query string. *)
Definition v20_apiKeyAuth : V20.SecurityRequirement :=
  {| V20.SecurityRequirement_name := "apiKeyAuth"; V20.SecurityRequirement_types := [] |}.

Definition v20_with_api_key : V20.Request :=
  {| V20.api_security := [("apiKeyAuth", PStr "secret123")];
     V20.api_plugins := identity_plugins;
     V20.root :=
       {| V20.paths := [("/items/{id}", v20_items_path)];
          V20.Root_security := [];
          V20.securityDefinitions :=
            [("apiKeyAuth", {| V20.SecurityScheme_type := "apiKey";
                               V20.SecurityScheme_in_ := "query";
                               V20.SecurityScheme_name := "key" |})] |};
     V20.path := "/items/{id}";
     V20.operation := v20_secured_op (Some [v20_apiKeyAuth]);
     V20.req := empty_req "/items/{id}" |}.

(** [search] takes its parameters in the query, in a header and in a
    cookie. *)
Definition v20_search_q : V20.ParameterBase :=
  {| V20.name := "q"; V20.in_ := "query"; V20.required := true; V20.schema_ := None |}.
Definition v20_search_trace : V20.ParameterBase :=
  {| V20.name := "X-Trace"; V20.in_ := "header"; V20.required := false;
     V20.schema_ := None |}.
Definition v20_search_session : V20.ParameterBase :=
  {| V20.name := "session"; V20.in_ := "cookie"; V20.required := false;
     V20.schema_ := None |}.

Definition v20_search : V20.Request :=
  {| V20.api_security := [];
     V20.api_plugins := identity_plugins;
     V20.root :=
       {| V20.paths := [("/search", {| V20.PathItem_parameters := [] |})];
          V20.Root_security := [];
          V20.securityDefinitions := [] |};
     V20.path := "/search";
     V20.operation :=
       {| V20.operationId := Some "search";
          V20.parameters := [v20_search_q; v20_search_trace; v20_search_session];
          V20.consumes := [];
          V20.responses := [("200", v20_item_response)];
          V20.security := None |};
     V20.req := empty_req "/search" |}.

Definition v20_search_values : dict pyobj :=
  [("q", PStr "tea"); ("X-Trace", PStr "t1"); ("session", PStr "s1")].


(** Security schemes of an OpenAPI 3 document. *)
Definition oa3_http_scheme (sch : string) (format : option string)
    : OpenAPI3.SecurityScheme :=
  {| OpenAPI3.SecurityScheme_type := "http";
     OpenAPI3.scheme := Some sch;
     OpenAPI3.bearerFormat := format;
     OpenAPI3.SecurityScheme_in_ := None;
     OpenAPI3.SecurityScheme_name := "" |}.

Definition oa3_api_key (location key : string) : OpenAPI3.SecurityScheme :=
  {| OpenAPI3.SecurityScheme_type := "apiKey";
     OpenAPI3.scheme := None;
     OpenAPI3.bearerFormat := None;
     OpenAPI3.SecurityScheme_in_ := Some location;
     OpenAPI3.SecurityScheme_name := key |}.

Definition oa3_session : OpenAPI3.ParameterObject :=
  {| OpenAPI3.name := "session"; OpenAPI3.in_ := "cookie"; OpenAPI3.required := false |}.

(** The members of a parameter [id] located in the path, as read from a
    document. *)
Definition path_id_fields (required : option bool) : OpenAPI3.ParameterFields :=
  {| OpenAPI3.fields_name := "id"; OpenAPI3.fields_in := "path";
     OpenAPI3.fields_required := required |}.

(** The requests that preparing [search] and [createItem] leaves. *)
Definition v20_search_prepared : V20.Request :=
  V20.with_req v20_search
    {| V20.url := "/search";
       V20.params := [("q", PStr "tea")];
       V20.headers := [("X-Trace", PStr "t1")];
       V20.cookies := [("session", PStr "s1")];
       V20.auth := None;
       V20.content := None |}.

Definition v20_create_item_prepared : V20.Request :=
  V20.with_req v20_create_item
    {| V20.url := "/items";
       V20.params := [];
       V20.headers := [("Content-Type", PStr "application/json")];
       V20.cookies := [];
       V20.auth := None;
       V20.content := Some (encode item_text) |}.



(** A dictionary without the [id] that [item_schema] requires, and its
    JSON text. *)
Definition item_without_id : pyobj := PDict [("name", PStr "x")].

Definition text_without_id : string :=
  Eval vm_compute in
    match dumps item_without_id with Ok s => s | Raise _ => EmptyString end.

End Examples.

(** * Properties *)

(** ** Strings and dictionaries *)

Lemma str_of_Z_inj (a b : Z) : str_of_Z a = str_of_Z b -> a = b.
Proof.
  unfold str_of_Z. intro H.
  assert (N : forall z, NilZero.int_of_string (NilZero.string_of_int (Z.to_int z))
                        = Some (Z.to_int z)).
  { intro z. apply NilZero.isi; destruct z; simpl; try discriminate;
      intro E; injection E as E;
      pose proof (DecimalPos.Unsigned.to_uint_nonnil p) as NN; congruence. }
  apply DecimalZ.to_int_inj.
  pose proof (N a) as Na. pose proof (N b) as Nb.
  rewrite H in Na. congruence.
Qed.

Lemma get_set {V} (n k : string) (v : V) (d : dict V) :
  get n (set k v d) = if k =? n then Some v else get n d.
Proof.
  induction d as [|[k' v'] r IH]; simpl.
  - reflexivity.
  - destruct (String.eqb_spec k' k) as [E|E]; simpl.
    + subst k'. destruct (String.eqb_spec k n); reflexivity.
    + rewrite IH. destruct (String.eqb_spec k' n) as [E'|E'];
        destruct (String.eqb_spec k n); subst; try reflexivity; congruence.
Qed.


Lemma get_update {V} (n : string) (d d' : dict V) :
  get n (update d d') =
  match find (fun kv => fst kv =? n) (List.rev d') with
  | Some kv => Some (snd kv)
  | None => get n d
  end.
Proof.
  unfold update. induction d' as [|kv r IH] using rev_ind; simpl.
  - reflexivity.
  - rewrite fold_left_app, rev_app_distr. simpl. rewrite get_set, IH.
    destruct (fst kv =? n); reflexivity.
Qed.

Lemma get_fold_by_name {P} (nm : P -> string) (n : string) (ps : list P) (d : dict P) :
  get n (fold_left (fun acc x => set (nm x) x acc) ps d) =
  match find (fun x => nm x =? n) (List.rev ps) with
  | Some q => Some q
  | None => get n d
  end.
Proof.
  induction ps as [|p r IH] using rev_ind; simpl.
  - reflexivity.
  - rewrite fold_left_app, rev_app_distr. simpl. rewrite get_set, IH.
    destruct (nm p =? n); reflexivity.
Qed.

Lemma find_app {A} (f : A -> bool) (l l' : list A) :
  find f (l ++ l') = match find f l with Some x => Some x | None => find f l' end.
Proof.
  induction l as [|a l IH]; simpl; [reflexivity|].
  destruct (f a); [reflexivity|exact IH].
Qed.

Lemma get_None_keys {V} (n : string) (d : dict V) :
  get n d = None -> ~ In n (keys d).
Proof.
  induction d as [|[k v] r IH]; simpl; [tauto|].
  destruct (String.eqb_spec k n) as [E|E]; [discriminate|].
  intros H [I|I]; [congruence|]. exact (IH H I).
Qed.

Lemma keys_set {V} (k : string) (v : V) (d : dict V) :
  keys (set k v d) = match get k d with Some _ => keys d | None => keys d ++ [k] end.
Proof.
  induction d as [|[k' v'] r IH]; simpl; [reflexivity|].
  destruct (String.eqb_spec k' k) as [E|E]; simpl; [reflexivity|].
  rewrite IH. destruct (get k r); reflexivity.
Qed.

Lemma NoDup_keys_set {V} (k : string) (v : V) (d : dict V) :
  NoDup (keys d) -> NoDup (keys (set k v d)).
Proof.
  intro H. rewrite keys_set. destruct (get k d) eqn:G; [exact H|].
  apply NoDup_rev in H. rewrite <- (rev_involutive (keys d ++ [k])).
  apply NoDup_rev. rewrite rev_app_distr. simpl. constructor; [|exact H].
  rewrite <- in_rev. apply get_None_keys. exact G.
Qed.

Lemma NoDup_keys_fold {P} (nm : P -> string) (ps : list P) (d : dict P) :
  NoDup (keys d) -> NoDup (keys (fold_left (fun acc x => set (nm x) x acc) ps d)).
Proof.
  revert d. induction ps as [|p r IH]; simpl; intros d H; [exact H|].
  apply IH. apply NoDup_keys_set. exact H.
Qed.

(** In a dictionary the last entry under a key is the only one. *)
Lemma find_rev_get {V} (n : string) (d : dict V) :
  NoDup (keys d) ->
  match find (fun kv => fst kv =? n) (List.rev d) with
  | Some kv => Some (snd kv)
  | None => None
  end = get n d.
Proof.
  induction d as [|[k v] r IH]; simpl; intro H; [reflexivity|].
  inversion H as [|? ? Hk Hr]; subst. rewrite find_app. simpl.
  destruct (String.eqb_spec k n) as [E|E].
  - subst k. destruct (find (fun kv => fst kv =? n) (List.rev r)) as [[k' v']|] eqn:F.
    + exfalso. apply find_some in F. destruct F as [I E]. simpl in E.
      apply String.eqb_eq in E. subst k'. apply in_rev in I.
      apply Hk. unfold keys. change n with (fst (n, v')). apply in_map. exact I.
    + reflexivity.
  - rewrite <- (IH Hr).
    destruct (find (fun kv => fst kv =? n) (List.rev r)); reflexivity.
Qed.

Lemma get_update_dict {V} (n : string) (d d' : dict V) :
  NoDup (keys d') ->
  get n (update d d') = match get n d' with Some v => Some v | None => get n d end.
Proof.
  intro H. rewrite get_update. rewrite <- (find_rev_get n d' H).
  destruct (find (fun kv => fst kv =? n) (List.rev d')); reflexivity.
Qed.

(** ** Merging path-level and operation-level parameters *)

Section Merging.
Context {rt : Runtime}.

(** C1 (as the code has it). On a name collision the merged
    [accepted_parameters] dictionary holds the path-level entry: in both
    engines the path-level parameters are written last.  If the owning path
    declares a (non-body, for Swagger 2.0) parameter named [n], and [q] is
    the last such declaration, then the entry for [n] is [q], whatever the
    operation itself declares under that name. *)
Theorem C1_path_level_entry_wins :
  (forall (self : V20.Request) (item : V20.PathItem) (n : string) (q : V20.ParameterBase),
      getitem (V20.path self) (V20.paths (V20.root self)) = Ok item ->
      find (fun x => V20.name x =? n)
           (List.rev (filter V20.not_body (V20.PathItem_parameters item))) = Some q ->
      In q (V20.PathItem_parameters item) /\
      exists acc, V20.accepted_parameters self = Ok acc /\ get n acc = Some q)
  /\
  (forall (self : OpenAPI3.Operation) (template : string) (item : OpenAPI3.PathItem)
          (n : string) (q : OpenAPI3.ParameterObject),
      OpenAPI3.index_from_end (OpenAPI3.path self) 2 = Ok template ->
      getitem template (OpenAPI3.paths (OpenAPI3._root self)) = Ok item ->
      find (fun x => OpenAPI3.name x =? n)
           (List.rev (OpenAPI3.PathItem_parameters item)) = Some q ->
      In q (OpenAPI3.PathItem_parameters item) /\
      exists acc, OpenAPI3.accepted_parameters self = Ok acc /\ get n acc = Some q).
Proof.
  split.
  - intros self item n q Hitem Hq. split.
    + apply find_some in Hq. destruct Hq as [Hq _].
      apply in_rev in Hq. apply filter_In in Hq. tauto.
    + unfold V20.accepted_parameters. rewrite Hitem. simpl.
      eexists. split; [reflexivity|].
      change (fun acc x => update acc [(V20.name x, x)])
        with (fun acc (x : V20.ParameterBase) => set (V20.name x) x acc).
      rewrite get_fold_by_name, filter_app, rev_app_distr, find_app, Hq.
      reflexivity.
  - intros self template item n q Htpl Hitem Hq. split.
    + apply find_some in Hq. destruct Hq as [Hq _]. apply in_rev in Hq. exact Hq.
    + unfold OpenAPI3.accepted_parameters. rewrite Htpl. simpl. rewrite Hitem. simpl.
      eexists. split; [reflexivity|].
      rewrite get_update_dict.
      * unfold OpenAPI3.by_name at 1. rewrite get_fold_by_name, Hq. reflexivity.
      * apply NoDup_keys_fold. constructor.
Qed.

End Merging.

(** C1 as the specification words it fails on both engines: with [id] declared at both
    levels, the merged dictionary holds the path-level declaration only. *)
Lemma C1_counterexample :
  V20.accepted_parameters Examples.v20_get_item = Ok [("id", Examples.v20_path_id)]
  /\ Examples.v20_path_id <> Examples.v20_op_id
  /\ OpenAPI3.accepted_parameters Examples.oa3_get_item = Ok [("id", Examples.oa3_path_id)]
  /\ Examples.oa3_path_id <> Examples.oa3_op_id.
Proof.
  repeat split; try reflexivity; discriminate.
Qed.

Lemma C1_witness :
  In Examples.v20_path_id
     (V20.PathItem_parameters Examples.v20_items_path)
  /\ exists acc, V20.accepted_parameters Examples.v20_get_item = Ok acc
                 /\ get "id" acc = Some Examples.v20_path_id.
Proof.
  apply (proj1 (C1_path_level_entry_wins (rt := Concrete.runtime))
           Examples.v20_get_item
           Examples.v20_items_path "id"
           Examples.v20_path_id); reflexivity.
Defined.

(** ** Matching a response *)

Lemma str_of_Z_204 (z : Z) : z <> 204%Z -> (str_of_Z z =? "204") = false.
Proof.
  intro H. apply String.eqb_neq. intro E. apply H.
  apply str_of_Z_inj. exact E.
Qed.

Section Responses.
Context {rt : Runtime}.


(** C5 (as the code has it). In the Swagger 2.0 engine a response with
    status 204 whose status is covered by the declared responses (an entry
    ["204"] or ["default"]) yields the empty result, whatever the headers,
    the body, the declared schema and the collaborators are; nothing is
    decoded. *)
Theorem C5_no_content_skips_decoding :
  forall (self : V20.Request) (result : V20.Envelope) (expected : V20.Response),
    V20.status_code result = 204%Z ->
    V20.expected_response self "204" = Some expected ->
    V20._process self result = Ok None.
Proof.
  intros self result expected S E. unfold V20._process. rewrite S.
  change (str_of_Z 204) with "204". rewrite E. reflexivity.
Qed.

(** C10. When the status is matched (and is not 204 for the Swagger 2.0
    engine) and the response has no Content-Type header, neither engine
    reports an unexpected content type: the Swagger 2.0 engine calls
    [lower] on [None], the OpenAPI 3 engine indexes the header map with a
    missing field. *)
Theorem C10_missing_content_type_header :
  (forall (self : V20.Request) (result : V20.Envelope) (expected : V20.Response),
      V20.expected_response self (str_of_Z (V20.status_code result)) = Some expected ->
      V20.status_code result <> 204%Z ->
      headers_get "Content-Type" (V20.Envelope_headers result) = None ->
      V20._process self result =
      Raise (AttributeError "'NoneType' object has no attribute 'lower'"))
  /\
  (forall (self : OpenAPI3.Operation) (result : OpenAPI3.Envelope)
          (expected : OpenAPI3.Response),
      OpenAPI3.expected_response self result = Ok expected ->
      OpenAPI3.status_code result <> 204%Z ->
      headers_get "Content-Type" (OpenAPI3.Envelope_headers result) = None ->
      OpenAPI3.request_process self result = Raise (KeyError "content-type")).
Proof.
  split.
  - intros self result expected E S H. unfold V20._process.
    rewrite E, (str_of_Z_204 _ S), H. reflexivity.
  - intros self result expected E _ H. unfold OpenAPI3.request_process.
    rewrite E. simpl. rewrite H. reflexivity.
Qed.

End Responses.


(** C5 as the specification words it fails: a 204 response to an operation that
    declares neither ["204"] nor ["default"] is an unexpected status. *)
Lemma C5_counterexample :
  V20._process Examples.v20_get_item (Examples.v20_response 204 [])
  = Raise (ValueError
      "Unexpected response 204 from getItem (expected one of 200), no default is defined").
Proof. reflexivity. Qed.

Lemma C5_witness :
  V20._process Examples.v20_get_item_default
    (Examples.v20_response 204 [("Content-Type", "text/html")]) = Ok None.
Proof.
  apply (C5_no_content_skips_decoding (rt := Concrete.runtime)
           Examples.v20_get_item_default
           (Examples.v20_response 204 [("Content-Type", "text/html")])
           Examples.v20_error_response);
    reflexivity.
Defined.

Lemma C10_witness :
  V20._process Examples.v20_get_item (Examples.v20_response 200 [])
  = Raise (AttributeError "'NoneType' object has no attribute 'lower'")
  /\ OpenAPI3.request_process Examples.oa3_get_item (Examples.oa3_response 200 [])
     = Raise (KeyError "content-type").
Proof.
  split.
  - apply (proj1 (C10_missing_content_type_header (rt := Concrete.runtime))
             Examples.v20_get_item (Examples.v20_response 200 [])
             Examples.v20_item_response);
      [reflexivity | discriminate | reflexivity].
  - apply (proj2 (C10_missing_content_type_header (rt := Concrete.runtime))
             Examples.oa3_get_item (Examples.oa3_response 200 [])
             Examples.oa3_item_response);
      [reflexivity | discriminate | reflexivity].
Defined.

(** ** Matching a media type *)

Lemma append_assoc (a b c : string) : ((a ++ b) ++ c = a ++ (b ++ c))%string.
Proof. induction a as [|x a IH]; simpl; [reflexivity|]. rewrite IH. reflexivity. Qed.

Lemma append_nil_r (a : string) : (a ++ "")%string = a.
Proof. induction a as [|x a IH]; simpl; [reflexivity|]. rewrite IH. reflexivity. Qed.

(** The first component of [split] is the text before the first
    separator. *)
Lemma split_go_primary (sep : ascii) (p rest cur : string) :
  contains sep p = false ->
  split_go sep (p ++ String sep rest) cur = (cur ++ p)%string :: split_go sep rest "".
Proof.
  revert cur. induction p as [|a p IH]; simpl; intros cur H.
  - rewrite Ascii.eqb_refl, append_nil_r. reflexivity.
  - apply orb_false_iff in H. destruct H as [Ha Hp]. rewrite Ha.
    rewrite IH by exact Hp. rewrite append_assoc. reflexivity.
Qed.

Lemma contains_decompose (c : ascii) (s : string) :
  contains c s = true ->
  exists p r, s = (p ++ String c r)%string /\ contains c p = false.
Proof.
  induction s as [|a s IH]; simpl; [discriminate|].
  destruct (Ascii.eqb_spec a c) as [E|E]; simpl.
  - intros _. subst a. exists "", s. split; reflexivity.
  - intro H. destruct (IH H) as (p & r & -> & Hp).
    exists (String a p), r. split; [reflexivity|]. simpl.
    rewrite Hp. destruct (Ascii.eqb_spec a c); [contradiction|reflexivity].
Qed.

Section MediaTypes.
Context {rt : Runtime}.

(** The lookup of a media type entry, engine by engine.  In the OpenAPI 3
    engine the entry of the matched response is looked up under the
    Content-Type header as received; failing that, under [primary/*] where
    [primary] is the text of the header before its first [/]; failing both,
    the call fails with an error listing the declared media types.  The
    Swagger 2.0 engine has no media type entries: a header whose media
    type, in lower case and up to the first [;], is [application/json] is
    handled as [application/json] itself, and every other one is rejected as
    not implemented. *)
Lemma media_type_lookup :
  (forall (self : OpenAPI3.Operation) (declared : dict OpenAPI3.MediaType)
          (content_type : string),
      (forall m, get content_type declared = Some m ->
                 OpenAPI3.expected_media self declared content_type = Ok m) /\
      (forall primary rest m,
          content_type = (primary ++ "/" ++ rest)%string ->
          contains "/" primary = false ->
          get content_type declared = None ->
          get (primary ++ "/*")%string declared = Some m ->
          OpenAPI3.expected_media self declared content_type = Ok m) /\
      (get content_type declared = None ->
       (forall primary rest,
           content_type = (primary ++ "/" ++ rest)%string ->
           contains "/" primary = false ->
           get (primary ++ "/*")%string declared = None) ->
       OpenAPI3.expected_media self declared content_type =
       Raise (RuntimeError ("Unexpected content type " ++ content_type
                            ++ " returned for operation "
                            ++ str_of_opt (OpenAPI3.operationId self)
                            ++ " (expected one of " ++ join "," (keys declared) ++ ")"))) /\
      (forall result expected e,
          OpenAPI3.expected_response self result = Ok expected ->
          headers_get "Content-Type" (OpenAPI3.Envelope_headers result)
          = Some content_type ->
          OpenAPI3.content expected = Some declared ->
          OpenAPI3.expected_media self declared content_type = Raise e ->
          OpenAPI3.request_process self result = Raise e))
  /\
  (forall (self : V20.Request) (expected : V20.Response) (result : V20.Envelope)
          (content_type : string),
      (fst (fst (partition ";" (lower content_type))) = "application/json" ->
       V20.decode_body self expected result content_type
       = V20.decode_body self expected result "application/json") /\
      (fst (fst (partition ";" (lower content_type))) <> "application/json" ->
       V20.decode_body self expected result content_type
       = Raise (NotImplementedError content_type))).
Proof.
  split.
  - intros self declared ct. repeat split.
    + intros m H. unfold OpenAPI3.expected_media. rewrite H. reflexivity.
    + intros primary rest m -> Hp Hn Hw. unfold OpenAPI3.expected_media.
      rewrite Hn.
      assert (C : contains "/" (primary ++ "/" ++ rest) = true).
      { clear. induction primary as [|a p IH]; simpl; [reflexivity|].
        apply orb_true_iff. right. exact IH. }
      rewrite C. unfold split. simpl append.
      rewrite (split_go_primary _ _ rest "" Hp). simpl hd. rewrite Hw. reflexivity.
    + intros Hn Hw. unfold OpenAPI3.expected_media. rewrite Hn.
      destruct (contains "/" ct) eqn:C; [|reflexivity].
      destruct (contains_decompose _ _ C) as (p & r & E & Hp).
      unfold split. rewrite E at 1. rewrite (split_go_primary _ _ r "" Hp). simpl hd.
      rewrite (Hw p r E Hp). reflexivity.
    + intros result expected e He Hh Hc Hm. unfold OpenAPI3.request_process.
      rewrite He. simpl. rewrite Hh. simpl. rewrite Hc. simpl. rewrite Hm. reflexivity.
  - intros self expected result ct. split; intro H; unfold V20.decode_body.
    + rewrite H. reflexivity.
    + apply String.eqb_neq in H. rewrite H. reflexivity.
Qed.

End MediaTypes.

(** C4. A response declared for [application/json] and received as
    [application/json; charset=utf-8]: the OpenAPI 3 engine looks the header
    up as received, finds neither it nor [application/*] among the declared
    media types and rejects the response, although it decodes the same body
    received as [application/json]; the Swagger 2.0 engine drops what
    follows the [;] and decodes the response with the schema of the matched
    entry. *)
Theorem C4_charset_suffix_at_failing_input :
  OpenAPI3.request_process Examples.oa3_get_item
    (Examples.oa3_response 200 [("Content-Type", "application/json; charset=utf-8")])
  = Raise (RuntimeError
      "Unexpected content type application/json; charset=utf-8 returned for operation getItem (expected one of application/json)")
  /\
  OpenAPI3.request_process Examples.oa3_get_item
    (Examples.oa3_response 200 [("Content-Type", "application/json")])
  = Ok (Concrete.PModel [("id", Concrete.PInt 1)])
  /\
  V20._process Examples.v20_get_item
    (Examples.v20_response 200 [("Content-Type", "application/json; charset=utf-8")])
  = Ok (Some (Concrete.PModel [("id", Concrete.PInt 1)])).
Proof. repeat split; reflexivity. Qed.

(** [text/plain] selects the entry declared for [text/*]. *)
Lemma OpenAPI3_wildcard_lookup :
  OpenAPI3.expected_media Examples.oa3_get_item
    [("text/*", Examples.json_media)] "text/plain" = Ok Examples.json_media.
Proof.
  apply (proj1 (proj2 (proj1 (media_type_lookup (rt := Concrete.runtime))
                         Examples.oa3_get_item [("text/*", Examples.json_media)]
                         "text/plain")) "text" "plain");
    reflexivity.
Qed.

(** ** Security *)

Section Security.
Context {rt : Runtime}.

Lemma V20_first_satisfied_nil (creds : dict obj) :
  V20.first_satisfied creds [] = None.
Proof. induction creds as [|[k v] r IH]; simpl; [reflexivity|exact IH]. Qed.

Lemma first_satisfied_truthy (creds : dict obj) (alts : list V20.SecurityRequirement)
    (r : V20.SecurityRequirement) (value : obj) :
  V20.first_satisfied creds alts = Some (r, value) ->
  truthy creds && truthy alts = true.
Proof.
  destruct creds as [|c creds]; [discriminate|].
  destruct alts as [|a alts]; [|reflexivity].
  rewrite V20_first_satisfied_nil. discriminate.
Qed.

Lemma OpenAPI3_first_satisfied_truthy (creds : dict obj)
    (alts : list OpenAPI3.SecurityRequirement)
    (r : OpenAPI3.SecurityRequirement) (value : obj) :
  OpenAPI3.first_satisfied creds alts = Some (r, value) ->
  truthy creds && truthy alts = true.
Proof.
  destruct creds as [|c creds]; [discriminate|].
  destruct alts as [|a alts]; [|reflexivity].
  intro H. exfalso. revert H. generalize (c :: creds). clear.
  intro l. induction l as [|[k v] l IH]; simpl; [discriminate|exact IH].
Qed.

(** C6 (as the code has it). An operation whose security list is
    explicitly empty is prepared without any security, whatever the
    credentials are.  Otherwise the Swagger 2.0 engine matches the
    credentials against the operation's own alternatives followed by the
    spec-wide ones (the spec-wide list is appended whether the operation's
    list is absent or not), and applies the scheme of the first credential
    that names one of them; the OpenAPI 3 engine matches against the
    operation's own list only. *)
Theorem C6_security_alternatives :
  (forall (self : V20.Request),
      (V20.security (V20.operation self) = Some [] ->
       V20._prepare_security self = Ok self) /\
      (forall own, V20.security (V20.operation self) = Some own -> own <> [] ->
                   V20.security_alternatives self
                   = own ++ V20.Root_security (V20.root self)) /\
      (V20.security (V20.operation self) = None ->
       V20.security_alternatives self = V20.Root_security (V20.root self)) /\
      (forall r value,
          V20.first_satisfied (V20.api_security self) (V20.security_alternatives self)
          = Some (r, value) ->
          V20._prepare_security self = V20._prepare_secschemes self r value))
  /\
  (forall (self : OpenAPI3.Operation) (creds : dict obj) (l : OpenAPI3.Locals),
      (OpenAPI3.security self = [] -> OpenAPI3.request_security self creds l = Ok l) /\
      (forall r value,
          OpenAPI3.first_satisfied creds (OpenAPI3.security self) = Some (r, value) ->
          OpenAPI3.request_security self creds l
          = (ss <- getitem (OpenAPI3.SecurityRequirement_name r)
                     (OpenAPI3.securitySchemes (OpenAPI3._root self)) ;;
             OpenAPI3.apply_scheme ss value l))).
Proof.
  split.
  - intro self. repeat split.
    + intro H. unfold V20._prepare_security, V20.security_alternatives.
      rewrite H. simpl. rewrite andb_false_r. reflexivity.
    + intros own H N. unfold V20.security_alternatives. rewrite H.
      destruct own; [contradiction|reflexivity].
    + intro H. unfold V20.security_alternatives. rewrite H. reflexivity.
    + intros r value H. unfold V20._prepare_security.
      rewrite (first_satisfied_truthy _ _ _ _ H), H. reflexivity.
  - intros self creds l. split.
    + intro H. unfold OpenAPI3.request_security. rewrite H. simpl.
      rewrite andb_false_r. reflexivity.
    + intros r value H. unfold OpenAPI3.request_security.
      rewrite (OpenAPI3_first_satisfied_truthy _ _ _ _ H), H. reflexivity.
Qed.

(** When credentials are supplied and none of them names an alternative,
    building the error message fails first: [keys] is looked up on the
    list of alternatives. *)
Lemma unsatisfied_security_raises_AttributeError :
  (forall (self : V20.Request),
      truthy (V20.api_security self) = true ->
      truthy (V20.security_alternatives self) = true ->
      V20.first_satisfied (V20.api_security self) (V20.security_alternatives self) = None ->
      exists msg, V20._prepare_security self = Raise (AttributeError msg))
  /\
  (forall (self : OpenAPI3.Operation) (creds : dict obj) (l : OpenAPI3.Locals),
      truthy creds = true ->
      truthy (OpenAPI3.security self) = true ->
      OpenAPI3.first_satisfied creds (OpenAPI3.security self) = None ->
      exists msg, OpenAPI3.request_security self creds l = Raise (AttributeError msg)).
Proof.
  split.
  - intros self C A F. unfold V20._prepare_security. rewrite C, A, F. simpl.
    destruct (V20.security (V20.operation self)); simpl; eexists; reflexivity.
  - intros self creds l C A F. unfold OpenAPI3.request_security.
    rewrite C, A, F. simpl. eexists. reflexivity.
Qed.

End Security.

(** C6 as the specification words it fails: the operation accepts [basicAuth] only,
    yet a credential for the spec-wide [globalKey] alternative is matched
    and injected as an API key header. *)
Lemma C6_counterexample :
  V20.security (V20.operation
    (Examples.v20_secured (Some [Examples.v20_basicAuth])
       [("globalKey", Concrete.PStr "secret123")]))
  = Some [Examples.v20_basicAuth]
  /\
  fmap (fun self => V20.headers (V20.req self))
    (V20._prepare_security
       (Examples.v20_secured (Some [Examples.v20_basicAuth])
          [("globalKey", Concrete.PStr "secret123")]))
  = Ok [("X-API-Key", Concrete.PStr "secret123")].
Proof. split; reflexivity. Qed.

Lemma C6_witness :
  V20._prepare_security
    (Examples.v20_secured (Some []) [("globalKey", Concrete.PStr "secret123")])
  = Ok (Examples.v20_secured (Some []) [("globalKey", Concrete.PStr "secret123")]).
Proof.
  apply (proj1 (proj1 (C6_security_alternatives (rt := Concrete.runtime))
                  (Examples.v20_secured (Some [])
                     [("globalKey", Concrete.PStr "secret123")])));
    reflexivity.
Defined.

(** C7. Credentials that name none of the accepted alternatives: both
    engines mean to raise [ValueError] naming the accepted alternatives, but
    the message is built with [keys()] on a list, so the call ends in an
    [AttributeError] instead. *)
Theorem C7_unsatisfied_security_at_failing_input :
  V20._prepare_security
    (Examples.v20_secured (Some [Examples.v20_basicAuth])
       [("other", Concrete.PStr "x")])
  = Raise (AttributeError "'list' object has no attribute 'keys'")
  /\
  OpenAPI3.request_security Examples.oa3_secured [("other", Concrete.PStr "x")]
    (Examples.no_locals "/items/{id}")
  = Raise (AttributeError "'list' object has no attribute 'keys'").
Proof. split; reflexivity. Qed.

(** ** The concrete JSON writer and reader *)

Module ConcreteFacts.
Import Concrete.

Lemma escape_char_parse (c : ascii) :
  (nat_of_ascii c <? 128)%nat = true ->
  exists e, escape_char c = Ok e /\
            forall tail t rest, parse_string tail = Ok (t, rest) ->
                                parse_string (e ++ tail) = Ok (String c t, rest).
Proof.
  destruct c as [[] [] [] [] [] [] [] []]; intro H; try discriminate H;
    (eexists; split; [reflexivity|]; intros tail t rest P; cbn; rewrite P; reflexivity).
Qed.

Lemma escape_parse (s rest : string) :
  ascii_text s = true ->
  exists e, escape s = Ok e /\
            parse_string (e ++ String dquote rest) = Ok (s, rest).
Proof.
  induction s as [|c s IH]; simpl; intro H.
  - exists "". split; reflexivity.
  - apply andb_true_iff in H. destruct H as [Hc Hs].
    destruct (escape_char_parse c Hc) as (e & E & P).
    destruct (IH Hs) as (t & T & Q).
    exists (e ++ t)%string. rewrite E, T. split; [reflexivity|].
    rewrite append_assoc. apply P. exact Q.
Qed.

Lemma quote_parse (s rest : string) :
  ascii_text s = true ->
  exists q, quote s = Ok (String dquote q) /\
            parse_string (q ++ rest) = Ok (s, rest).
Proof.
  intro H. destruct (escape_parse s rest H) as (e & E & P).
  exists (e ++ String dquote "")%string. unfold quote. rewrite E. split; [reflexivity|].
  rewrite append_assoc. exact P.
Qed.

Lemma take_digits_uint (u : uint) (rest : string) :
  first_not_digit rest = true ->
  take_digits (NilEmpty.string_of_uint u ++ rest) = (NilEmpty.string_of_uint u, rest).
Proof.
  intro H. induction u; simpl; try (rewrite IHu; reflexivity).
  destruct rest as [|c r]; simpl in *; [reflexivity|].
  apply negb_true_iff in H. rewrite H. reflexivity.
Qed.

Lemma ends_number_first (rest : string) :
  ends_number rest = true -> first_not_digit rest = true /\ starts_fraction rest = false.
Proof.
  destruct rest as [|c r]; [intros _; split; reflexivity|].
  unfold ends_number, first_not_digit. intro H.
  apply andb_true_iff in H. destruct H as [H1 H2].
  split; [exact H1|]. apply negb_true_iff in H2. exact H2.
Qed.

Lemma to_uint_head (p : positive) :
  exists c s, NilEmpty.string_of_uint (Pos.to_uint p) = String c s /\
              is_digit c = true /\ Ascii.eqb c "0" = false.
Proof.
  pose proof (DecimalPos.Unsigned.to_uint_nonnil p) as N.
  assert (Z : forall d, Pos.to_uint p <> D0 d).
  { intros d E.
    assert (U : unorm (Pos.to_uint p) = Pos.to_uint p).
    { rewrite <- (DecimalPos.Unsigned.to_of (Pos.to_uint p)).
      rewrite DecimalPos.Unsigned.of_to. reflexivity. }
    pose proof (DecimalPos.Unsigned.to_uint_nonzero p) as NZ.
    assert (H0 : nzhead (Pos.to_uint p) <> Nil).
    { intro H0. apply NZ. rewrite <- U. apply unorm_0. exact H0. }
    rewrite (unorm_nzhead _ H0) in U. rewrite E in U.
    apply (nzhead_nonzero (D0 d) d). exact U. }
  destruct (Pos.to_uint p) as [|d|d|d|d|d|d|d|d|d|d];
    [contradiction | exfalso; exact (Z d eq_refl) | ..];
    simpl; eexists; eexists; (split; [reflexivity|split; reflexivity]).
Qed.

Lemma Z_of_digits_uint (p : positive) :
  Z_of_digits (NilEmpty.string_of_uint (Pos.to_uint p)) = Zpos p.
Proof.
  unfold Z_of_digits.
  destruct (to_uint_head p) as (c & s & E & _).
  assert (U : NilZero.uint_of_string (NilEmpty.string_of_uint (Pos.to_uint p))
              = Some (Pos.to_uint p)).
  { pose proof (DecimalPos.Unsigned.to_uint_nonnil p) as N.
    rewrite <- (NilZero.usu _ N). f_equal.
    destruct (Pos.to_uint p); [contradiction|reflexivity..]. }
  rewrite U. unfold Z.of_uint. rewrite DecimalPos.Unsigned.of_to. reflexivity.
Qed.

Lemma parse_nat_pos (p : positive) (rest : string) :
  ends_number rest = true ->
  parse_nat (NilEmpty.string_of_uint (Pos.to_uint p) ++ rest) = Ok (Zpos p, rest).
Proof.
  intro H. destruct (ends_number_first rest H) as [D F].
  unfold parse_nat. rewrite (take_digits_uint _ _ D).
  destruct (to_uint_head p) as (c & s & E & Hd & H0).
  rewrite <- (Z_of_digits_uint p).
  rewrite E. simpl. rewrite H0, F. reflexivity.
Qed.

Lemma str_of_Z_pos (p : positive) :
  str_of_Z (Zpos p) = NilEmpty.string_of_uint (Pos.to_uint p).
Proof.
  unfold str_of_Z. simpl.
  pose proof (DecimalPos.Unsigned.to_uint_nonnil p) as N.
  destruct (Pos.to_uint p); [contradiction|reflexivity..].
Qed.

Lemma str_of_Z_neg (p : positive) :
  str_of_Z (Zneg p) = String "-" (NilEmpty.string_of_uint (Pos.to_uint p)).
Proof.
  unfold str_of_Z. simpl.
  pose proof (DecimalPos.Unsigned.to_uint_nonnil p) as N.
  destruct (Pos.to_uint p); [contradiction|reflexivity..].
Qed.

Lemma parse_value_int (z : Z) (fuel : nat) (rest : string) :
  ends_number rest = true ->
  parse_value (S fuel) (str_of_Z z ++ rest) = Ok (PInt z, rest).
Proof.
  intro H. destruct z as [|p|p].
  - destruct (ends_number_first rest H) as [D F].
    change (str_of_Z 0) with "0". simpl. unfold parse_nat. simpl. rewrite F. reflexivity.
  - rewrite str_of_Z_pos.
    pose proof (parse_nat_pos p rest H) as P.
    destruct (to_uint_head p) as (c & s & E & Hd & H0).
    rewrite E in *. simpl append in *. cbn [parse_value].
    rewrite Hd, P.
    destruct c as [[] [] [] [] [] [] [] []]; try discriminate Hd; reflexivity.
  - rewrite str_of_Z_neg. simpl append. cbn [parse_value].
    rewrite (parse_nat_pos p rest H). reflexivity.
Qed.

Lemma value_start_skip (s rest : string) :
  value_start s = true ->
  skip_ws (s ++ rest) = (s ++ rest)%string /\ eat "]" (s ++ rest) = None
  /\ eat "}" (s ++ rest) = None /\ value_start (s ++ rest) = true.
Proof.
  destruct s as [|c s]; [discriminate|]. simpl. intro H.
  apply andb_true_iff in H. destruct H as [H H4].
  apply andb_true_iff in H. destruct H as [H H3].
  apply andb_true_iff in H. destruct H as [H1 H2].
  apply negb_true_iff in H1, H2, H3, H4.
  rewrite H1, H2, H3, H4. repeat split; reflexivity.
Qed.

Lemma str_of_Z_start (z : Z) : value_start (str_of_Z z) = true.
Proof.
  destruct z as [|p|p].
  - reflexivity.
  - rewrite str_of_Z_pos. destruct (to_uint_head p) as (c & s & E & Hd & _).
    rewrite E. destruct c as [[] [] [] [] [] [] [] []]; try discriminate Hd; reflexivity.
  - rewrite str_of_Z_neg. reflexivity.
Qed.

Lemma fold_set_distinct {V} (d acc : dict V) :
  distinct (map fst (acc ++ d)) = true ->
  fold_left (fun a kv => set (fst kv) (snd kv) a) d acc = acc ++ d.
Proof.
  revert acc. induction d as [|[k v] d IH]; intros acc H; simpl.
  - rewrite List.app_nil_r. reflexivity.
  - assert (S : set k v acc = acc ++ [(k, v)]).
    { clear IH. induction acc as [|[k' v'] acc IHa]; simpl in *; [reflexivity|].
      apply andb_true_iff in H. destruct H as [H1 H2].
      rewrite (IHa H2).
      destruct (String.eqb_spec k' k) as [E|E]; [|reflexivity].
      exfalso. subst k'. apply negb_true_iff in H1.
      rewrite map_app in H1. simpl in H1. rewrite existsb_app in H1. simpl in H1.
      rewrite String.eqb_refl in H1. rewrite orb_true_r in H1. discriminate. }
    rewrite S, IH; rewrite <- List.app_assoc; [reflexivity|exact H].
Qed.

Lemma length_append (a b : string) :
  String.length (a ++ b) = String.length a + String.length b.
Proof. induction a as [|c a IH]; simpl; [reflexivity|]. rewrite IH. reflexivity. Qed.

(** The items of a non-empty list, up to the closing bracket. *)
Lemma elements_read_back (l : list pyobj) :
  Forall reads_back l -> l <> [] ->
  exists its, joined dumps l = Ok its /\
  value_start its = true /\
  list_sum (map (fun x => S (need x)) l) <= S (String.length its) /\
  forall fuel rest, list_sum (map (fun x => S (need x)) l) <= fuel ->
                    parse_elements fuel (its ++ String "]" rest) = Ok (l, rest).
Proof.
  induction 1 as [|x r Hx Hr IH]; [congruence|]. intros _.
  destruct Hx as (sx & Ex & Sx & Lx & Px). cbn [joined]. rewrite Ex. cbn [bind].
  destruct r as [|y r'].
  - exists sx. split; [reflexivity|]. split; [exact Sx|]. split; [simpl; lia|].
    intros fuel rest F.
    destruct fuel as [|fuel]; [simpl in F; lia|]. cbn [parse_elements].
    rewrite Px; [|simpl in F; lia|reflexivity]. reflexivity.
  - destruct (IH ltac:(discriminate)) as (sr & Er & Sr & Lr & Pr).
    rewrite Er. cbn [bind]. exists (sx ++ ", " ++ sr)%string.
    split; [reflexivity|]. split; [|split].
    + destruct sx as [|c sx]; [discriminate|]. exact Sx.
    + rewrite !length_append. simpl in *. lia.
    + intros fuel rest F. destruct fuel as [|fuel]; [simpl in F; lia|].
      cbn [parse_elements]. rewrite !append_assoc.
      rewrite Px; [|simpl in F; lia|reflexivity].
      cbn [bind]. simpl append. cbn [skip_ws is_ws]. simpl.
      destruct (value_start_skip sr (String "]" rest) Sr) as (K & _).
      rewrite K. rewrite Pr; [reflexivity|]. simpl in F. simpl. lia.
Qed.

(** The members of a non-empty dictionary, up to the closing brace. *)
Lemma members_read_back (d : list (string * pyobj)) :
  Forall (fun kv => ascii_text (fst kv) = true /\ reads_back (snd kv)) d -> d <> [] ->
  exists its,
    joined (fun kv => q <- quote (fst kv) ;; s <- dumps (snd kv) ;;
                      Ok (q ++ ": " ++ s)%string) d = Ok its /\
    value_start its = true /\
    list_sum (map (fun kv => S (need (snd kv))) d) <= S (String.length its) /\
    forall fuel rest, list_sum (map (fun kv => S (need (snd kv))) d) <= fuel ->
                      parse_members fuel (its ++ String "}" rest) = Ok (d, rest).
Proof.
  induction 1 as [|[k v] r Hx Hr IH]; [congruence|]. intros _.
  destruct Hx as (Hk & sv & Ev & Sv & Lv & Pv). cbn [fst snd] in *.
  cbn [joined fst snd]. rewrite Ev.
  destruct r as [|y r'].
  - destruct (quote_parse k (": " ++ sv ++ String "}" "")%string Hk) as (q & Q & _).
    rewrite Q. cbn [bind].
    exists (String dquote q ++ ": " ++ sv)%string.
    split; [reflexivity|]. split; [reflexivity|]. split.
    + simpl; rewrite ?length_append; simpl; rewrite ?length_append; simpl in *; lia.
    + intros fuel rest F. destruct fuel as [|fuel]; [simpl in F; lia|].
      destruct (quote_parse k (": " ++ sv ++ String "}" rest)%string Hk) as (q' & Q' & P').
      assert (q' = q) by congruence. subst q'.
      cbn [parse_members]. simpl append. rewrite !append_assoc.
      cbn [eat]. rewrite Ascii.eqb_refl. simpl append in *. rewrite P'. cbn [bind].
      simpl.
      destruct (value_start_skip sv (String "}" rest) Sv) as (K & _).
      rewrite K. rewrite Pv; [|simpl in F; lia|reflexivity]. reflexivity.
  - destruct (IH ltac:(discriminate)) as (sr & Er & Sr & Lr & Pr).
    rewrite Er.
    destruct (quote_parse k (": " ++ sv ++ String "}" "")%string Hk) as (q & Q & _).
    rewrite Q. cbn [bind].
    exists ((String dquote q ++ ": " ++ sv) ++ ", " ++ sr)%string.
    split; [reflexivity|]. split; [reflexivity|]. split.
    + simpl; rewrite ?length_append; simpl; rewrite ?length_append; simpl in *; lia.
    + intros fuel rest F. destruct fuel as [|fuel]; [simpl in F; lia|].
      destruct (quote_parse k (": " ++ sv ++ ", " ++ sr ++ String "}" rest)%string Hk)
        as (q' & Q' & P').
      assert (q' = q) by congruence. subst q'.
      cbn [parse_members]. simpl append. rewrite !append_assoc.
      cbn [eat]. rewrite Ascii.eqb_refl. simpl append in *. rewrite P'. cbn [bind].
      simpl.
      destruct (value_start_skip sv (String "," (String " " (sr ++ String "}" rest))) Sv)
        as (K & _).
      rewrite K. rewrite Pv; [|simpl in F; lia|reflexivity]. cbn [bind]. simpl.
      destruct (value_start_skip sr (String "}" rest) Sr) as (K' & _).
      rewrite K'. rewrite Pr; [reflexivity|]. simpl in F. simpl. lia.
Qed.

Lemma distinct_keys (d : list (string * pyobj)) :
  distinct (map fst d) = true ->
  fold_left (fun a kv => set (fst kv) (snd kv) a) d [] = d.
Proof. intro H. exact (fold_set_distinct d [] H). Qed.

(** Every JSON value is read back from the text written for it. *)
Lemma json_values_read_back (v : pyobj) : json_value v = true -> reads_back v.
Proof.
  induction v as [ | b | z | s | l IH | l IH | d IH | d IH ] using pyobj_induction;
    intro J; try discriminate J.
  - exists "null". split; [reflexivity|split; [reflexivity|split; [simpl; lia|]]].
    intros [|fuel] rest F _; [simpl in F; lia|]. reflexivity.
  - destruct b; [exists "true"|exists "false"];
      (split; [reflexivity|split; [reflexivity|split; [simpl; lia|]]]);
      intros [|fuel] rest F _; try (simpl in F; lia); reflexivity.
  - exists (str_of_Z z). split; [reflexivity|]. split; [apply str_of_Z_start|]. split.
    + pose proof (str_of_Z_start z) as S. destruct (str_of_Z z); [discriminate|simpl; lia].
    + intros [|fuel] rest F E; [simpl in F; lia|]. apply parse_value_int. exact E.
  - simpl in J. destruct (quote_parse s "" J) as (q & Q & _).
    exists (String dquote q). split; [exact Q|]. split; [reflexivity|]. split; [simpl; lia|].
    intros [|fuel] rest F E; [simpl in F; lia|].
    destruct (quote_parse s rest J) as (q' & Q' & P').
    assert (q' = q) by congruence. subst q'.
    simpl append. cbn [parse_value]. rewrite P'. reflexivity.
  - simpl in J.
    assert (A : Forall reads_back l).
    { clear -IH J. induction IH as [|x r Hx Hr IHr]; [constructor|].
      simpl in J. apply andb_true_iff in J. destruct J as [J1 J2].
      constructor; auto. }
    destruct l as [|x r].
    + exists "[]". split; [reflexivity|split; [reflexivity|split; [simpl; lia|]]].
      intros [|fuel] rest F _; [simpl in F; lia|]. reflexivity.
    + destruct (elements_read_back (x :: r) A ltac:(discriminate))
        as (its & E & S & L & P).
      exists ("[" ++ its ++ "]")%string. split; [|split; [reflexivity|split]].
      * cbn [dumps]. rewrite E. reflexivity.
      * cbn [need]. simpl String.length. rewrite length_append. simpl in *. lia.
      * intros [|fuel] rest F _; [cbn [need] in F; lia|]. cbn [need] in F.
        simpl append. rewrite append_assoc. cbn [parse_value]. simpl.
        destruct (value_start_skip its (String "]" rest) S) as (K1 & K2 & _).
        simpl append in *. rewrite K1, K2, P; [reflexivity|].
        cbn [need] in F. lia.
  - simpl in J. apply andb_true_iff in J. destruct J as [J D].
    assert (A : Forall (fun kv => ascii_text (fst kv) = true /\ reads_back (snd kv)) d).
    { clear -IH J. induction IH as [|x r Hx Hr IHr]; [constructor|].
      simpl in J. apply andb_true_iff in J. destruct J as [J1 J2].
      apply andb_true_iff in J1. destruct J1 as [J0 J1].
      constructor; auto. }
    destruct d as [|x r].
    + exists "{}". split; [reflexivity|split; [reflexivity|split; [simpl; lia|]]].
      intros [|fuel] rest F _; [simpl in F; lia|]. reflexivity.
    + destruct (members_read_back (x :: r) A ltac:(discriminate))
        as (its & E & S & L & P).
      exists ("{" ++ its ++ "}")%string. split; [|split; [reflexivity|split]].
      * cbn [dumps]. rewrite E. reflexivity.
      * cbn [need]. simpl String.length. rewrite length_append. simpl in *. lia.
      * intros [|fuel] rest F _; [cbn [need] in F; lia|]. cbn [need] in F.
        simpl append. rewrite append_assoc. cbn [parse_value]. simpl.
        destruct (value_start_skip its (String "}" rest) S) as (K1 & _ & K2 & _).
        simpl append in *. rewrite K1, K2, P; [|cbn [need] in F; lia].
        cbn [bind]. rewrite (distinct_keys _ D). reflexivity.
Qed.

Theorem loads_dumps (v : pyobj) :
  json_value v = true -> exists s, dumps v = Ok s /\ loads s = Ok v.
Proof.
  intro J. destruct (json_values_read_back v J) as (s & E & S & L & P).
  exists s. split; [exact E|]. unfold loads.
  destruct (value_start_skip s "" S) as (K & _). rewrite append_nil_r in K.
  rewrite K. rewrite <- (append_nil_r s) at 2.
  rewrite P; [reflexivity|lia|reflexivity].
Qed.

End ConcreteFacts.

(** ** Request bodies *)

Section Bodies.
Context {rt : Runtime}.

(** The Swagger 2.0 engine on an operation with a JSON body: a value that
    is neither a dictionary, a list nor a model instance is a [TypeError];
    a model instance is encoded through its dictionary form. *)
Lemma V20_prepare_body_types (self : V20.Request) (sch : option Schema) (d : obj) :
  V20.data self = Ok sch ->
  existsb (String.eqb "application/json") (V20.consumes (V20.operation self)) = true ->
  (isinstance_dict d = false -> isinstance_list d = false ->
   isinstance_BaseModel d = false ->
   V20._prepare_body self (Some d) = Raise (TypeError (py_str d)))
  /\
  (isinstance_dict d = false -> isinstance_list d = false ->
   isinstance_BaseModel d = true ->
   forall s,
     json_dumps (V20.marshalled (V20.api_plugins self)
                   (V20.operationId (V20.operation self)) (BaseModel_dict d)) = Ok s ->
     fmap (fun self' => V20.content (V20.req self')) (V20._prepare_body self (Some d))
     = Ok (Some (V20.sending (V20.api_plugins self)
                   (V20.operationId (V20.operation self)) (encode s)))).
Proof.
  intros D C. split.
  - intros H1 H2 H3. unfold V20._prepare_body. rewrite D. cbn [bind].
    rewrite C, H1, H2, H3. reflexivity.
  - intros H1 H2 H3 s S. unfold V20._prepare_body. rewrite D. cbn [bind].
    rewrite C, H1, H2, H3. cbn [bind orb]. rewrite S. reflexivity.
Qed.

(** The encode path on a dictionary or list, with identity plugins. *)
Lemma V20_prepare_body_json (self : V20.Request) (v : obj) (sch0 : option Schema)
    (s : string) :
  (forall id d, V20.marshalled (V20.api_plugins self) id d = d) ->
  (forall id b, V20.sending (V20.api_plugins self) id b = b) ->
  V20.data self = Ok sch0 ->
  existsb (String.eqb "application/json") (V20.consumes (V20.operation self)) = true ->
  isinstance_dict v || isinstance_list v = true ->
  json_dumps v = Ok s ->
  V20._prepare_body self (Some v)
  = Ok (V20.with_req self
          (V20.set_headers (V20.set_content (V20.req self) (Some (encode s)))
             (set "Content-Type" (of_str "application/json")
                (V20.headers (V20.req self))))).
Proof.
  intros Pm Ps D C T Hd. unfold V20._prepare_body. rewrite D. cbn [bind].
  rewrite C, T. cbn [bind]. rewrite Pm, Hd. cbn [bind]. rewrite Ps. reflexivity.
Qed.

(** The decode path on a matched [application/json] response whose body
    is the text [s], with identity plugins. *)
Lemma V20_process_json (self : V20.Request) (r : V20.Req) (v : obj) (s : string)
    (expected : V20.Response) (sch : Schema) (status : Z)
    (hs : list (string * string)) :
  (forall id t, V20.received (V20.api_plugins self) id t = t) ->
  (forall id d, V20.parsed (V20.api_plugins self) id d = d) ->
  (forall id d, V20.unmarshalled (V20.api_plugins self) id d = d) ->
  json_loads s = Ok v ->
  V20.expected_response self (str_of_Z status) = Some expected ->
  status <> 204%Z ->
  V20.Response_schema_ expected = Some sch ->
  headers_get "Content-Type" hs = Some "application/json" ->
  V20._process (V20.with_req self r)
    {| V20.status_code := status; V20.Envelope_headers := hs;
       V20.Envelope_content := encode s |}
  = fmap Some (Schema_model sch v).
Proof.
  intros Pr Pp Pu Hl E S Hs Hh.
  unfold V20._process. cbn [V20.status_code V20.Envelope_headers].
  change (V20.expected_response _ (str_of_Z status))
    with (V20.expected_response self (str_of_Z status)).
  rewrite E, (str_of_Z_204 _ S), Hh.
  unfold V20.decode_body, V20.text, decode, encode.
  cbn [V20.Envelope_content V20.operation V20.api_plugins V20.with_req].
  rewrite string_of_list_byte_of_string.
  rewrite Pr, Hl. cbn [bind]. rewrite Pp, Hs. cbn [bind].
  unfold fmap. destruct (Schema_model sch v); cbn [bind]; [rewrite Pu|]; reflexivity.
Qed.

(** C9 (as the code has it). A structured value (dictionary or list) that
    JSON represents, that is, one that [json.loads] reads back from the text
    [json.dumps] writes for it, comes through the round trip unchanged as
    far as the engine goes: the request body prepared for it, echoed as the
    body of a matched [application/json] response, is parsed back to that
    same value, and the result of the call is what the schema of the
    matched response makes of it, the typed value it builds or the
    validation error it raises.  All five plugins are the identity. *)
Theorem C9_json_round_trip :
  forall (self : V20.Request) (v : obj) (sch0 : option Schema) (s : string)
         (expected : V20.Response) (sch : Schema) (status : Z)
         (hs : list (string * string)),
    let plugins := V20.api_plugins self in
    (forall id d, V20.marshalled plugins id d = d) ->
    (forall id b, V20.sending plugins id b = b) ->
    (forall id t, V20.received plugins id t = t) ->
    (forall id d, V20.parsed plugins id d = d) ->
    (forall id d, V20.unmarshalled plugins id d = d) ->
    V20.data self = Ok sch0 ->
    existsb (String.eqb "application/json") (V20.consumes (V20.operation self)) = true ->
    isinstance_dict v || isinstance_list v = true ->
    json_dumps v = Ok s ->
    json_loads s = Ok v ->
    V20.expected_response self (str_of_Z status) = Some expected ->
    status <> 204%Z ->
    V20.Response_schema_ expected = Some sch ->
    headers_get "Content-Type" hs = Some "application/json" ->
    exists self' body,
      V20._prepare_body self (Some v) = Ok self' /\
      V20.content (V20.req self') = Some body /\
      json_loads (decode body) = Ok v /\
      let echo := {| V20.status_code := status; V20.Envelope_headers := hs;
                     V20.Envelope_content := body |} in
      V20._process self' echo = fmap Some (Schema_model sch v) /\
      (forall m, Schema_model sch v = Ok m -> V20._process self' echo = Ok (Some m)) /\
      (forall e, Schema_model sch v = Raise e -> V20._process self' echo = Raise e).
Proof.
  intros self v sch0 s expected sch status hs plugins
         Pm Ps Pr Pp Pu D C T Hd Hl E S Hs Hh.
  eexists. exists (encode s).
  split; [exact (V20_prepare_body_json self v sch0 s Pm Ps D C T Hd)|].
  split; [reflexivity|].
  split; [unfold decode, encode; rewrite string_of_list_byte_of_string; exact Hl|].
  cbv zeta.
  pose proof (V20_process_json self
                (V20.set_headers (V20.set_content (V20.req self) (Some (encode s)))
                   (set "Content-Type" (of_str "application/json")
                      (V20.headers (V20.req self))))
                v s expected sch status hs Pr Pp Pu Hl E S Hs Hh) as R.
  split; [exact R|]. split.
  - intros m M. rewrite R, M. reflexivity.
  - intros e M. rewrite R, M. reflexivity.
Qed.

End Bodies.

(** C8. A raw number as the body of an operation that takes
    [application/json]: the Swagger 2.0 engine raises [TypeError]; the
    OpenAPI 3 engine has no such case and goes on without a body, with the
    Content-Type header set. *)
Theorem C8_raw_number_body_at_failing_input :
  V20._prepare_body Examples.v20_create_item (Some (Concrete.PInt 5))
  = Raise (TypeError "5")
  /\
  OpenAPI3.request_body Examples.oa3_create_item (Some (Concrete.PInt 5))
    (Examples.no_locals "/items")
  = Ok (OpenAPI3.set_headers (Examples.no_locals "/items")
          [("Content-Type", Concrete.PStr "application/json")])
  /\
  OpenAPI3.body (OpenAPI3.set_headers (Examples.no_locals "/items")
                   [("Content-Type", Concrete.PStr "application/json")]) = None.
Proof. repeat split; reflexivity. Qed.

(** With the concrete runtime the hypothesis of C9 on the value holds for
    every dictionary or list made of [None], booleans, integers, ASCII
    strings, lists and dictionaries with distinct keys. *)
Lemma V20_round_trip_of_json_values :
  forall (self : V20.Request (rt := Concrete.runtime)) (v : Concrete.pyobj)
         (sch0 : option Concrete.schema) (expected : V20.Response)
         (sch : Concrete.schema) (status : Z) (hs : list (string * string)),
    V20.api_plugins self = Examples.identity_plugins ->
    V20.data self = Ok sch0 ->
    existsb (String.eqb "application/json") (V20.consumes (V20.operation self)) = true ->
    Concrete.is_dict v || Concrete.is_list v = true ->
    Concrete.json_value v = true ->
    V20.expected_response self (str_of_Z status) = Some expected ->
    status <> 204%Z ->
    V20.Response_schema_ expected = Some sch ->
    headers_get "Content-Type" hs = Some "application/json" ->
    exists self' body,
      V20._prepare_body self (Some v) = Ok self' /\
      V20.content (V20.req self') = Some body /\
      V20._process self'
        {| V20.status_code := status; V20.Envelope_headers := hs;
           V20.Envelope_content := body |}
      = fmap Some (Concrete.model sch v).
Proof.
  intros self v sch0 expected sch status hs Pl D C T J E S Hs Hh.
  destruct (ConcreteFacts.loads_dumps v J) as (s & Hd & Hl).
  eexists. exists (encode s). split.
  { apply (V20_prepare_body_json (rt := Concrete.runtime) self v sch0 s);
      try assumption; rewrite Pl; reflexivity. }
  split; [reflexivity|].
  apply (V20_process_json (rt := Concrete.runtime) self _ v s expected sch status hs);
    try assumption; rewrite Pl; reflexivity.
Qed.

(** C9 as the specification words it fails: a dictionary that JSON
    represents but that lacks a property the schema of the response
    requires is encoded, echoed and parsed back, and then rejected by the
    schema; the round trip ends in its validation error, not in a value
    equal to the input. *)
Lemma C9_counterexample :
  Concrete.json_value Examples.item_without_id = true
  /\ fmap (fun self' => V20.content (V20.req self'))
       (V20._prepare_body Examples.v20_create_item (Some Examples.item_without_id))
     = Ok (Some (encode Examples.text_without_id))
  /\ Concrete.loads (decode (encode Examples.text_without_id)) = Ok Examples.item_without_id
  /\ V20._process Examples.v20_create_item
       (Examples.v20_echo 200 (encode Examples.text_without_id))
     = Raise (ValueError "field required").
Proof. repeat split; reflexivity. Qed.

Lemma C9_witness :
  exists self' body,
    V20._prepare_body Examples.v20_create_item (Some Examples.item_value) = Ok self' /\
    V20.content (V20.req self') = Some body /\
    Concrete.loads (decode body) = Ok Examples.item_value /\
    V20._process self' (Examples.v20_echo 200 body)
    = Ok (Some (Concrete.PModel
                  [("id", Concrete.PInt 1);
                   ("tags", Concrete.PList [Concrete.PStr "a"; Concrete.PNone;
                                            Concrete.PInt (-7)]);
                   ("name", Concrete.PStr (String "x" (String (ascii_of_nat 10) "y")))])).
Proof.
  destruct (@C9_json_round_trip Concrete.runtime
              Examples.v20_create_item Examples.item_value
              (Some Examples.item_schema)
              Examples.item_text
              Examples.v20_item_response Examples.item_schema 200%Z
              [("Content-Type", "application/json")]
              (fun _ _ => eq_refl) (fun _ _ => eq_refl) (fun _ _ => eq_refl)
              (fun _ _ => eq_refl) (fun _ _ => eq_refl)
              eq_refl eq_refl eq_refl eq_refl eq_refl eq_refl
              ltac:(discriminate) eq_refl eq_refl)
    as (self' & body & P & B & L & _ & M & _).
  exists self', body. split; [exact P|]. split; [exact B|]. split; [exact L|].
  apply M. reflexivity.
Defined.

(** ** Path parameters and the path template *)











Section PathParameters.
Context {rt : Runtime}.


(** The pass over the accepted parameters, when every required one is
    supplied: it ends normally, leaves the template untouched, and has
    collected the supplied value of every [path] parameter; whatever it
    collected was supplied under that name. *)
Lemma V20_bind_parameters_collects (given : option (dict obj))
    (items : list (string * V20.ParameterBase)) :
  (forall n spec, In (n, spec) items -> V20.required spec = true ->
                  supplied given n <> None) ->
  forall (pp : dict obj) (r : V20.Req),
    (forall n v, get n pp = Some v -> supplied given n = Some v) ->
    exists pp' r',
      V20.bind_parameters items given pp r = Ok (pp', r') /\
      V20.url r' = V20.url r /\
      (forall n v, get n pp' = Some v -> supplied given n = Some v) /\
      (forall n v, get n pp = Some v -> get n pp' = Some v) /\
      (forall n spec v, In (n, spec) items -> V20.in_ spec = "path" ->
                        supplied given n = Some v -> get n pp' = Some v).
Proof.
  induction items as [|[name spec] items IH]; intros R pp r I.
  - exists pp, r. simpl. repeat split; auto. intros n spec v [].
  - assert (R' : forall n s, In (n, s) items -> V20.required s = true ->
                             supplied given n <> None).
    { intros n s H. apply R. right. exact H. }
    cbn [V20.bind_parameters].
    assert (A : (match given with
                 | Some ps => negb (mem name ps)
                 | None => true
                 end) = match supplied given name with Some _ => false | None => true end).
    { destruct given as [g|]; simpl; [|reflexivity]. unfold mem.
      destruct (get name g); reflexivity. }
    rewrite A. destruct (supplied given name) as [value|] eqn:S.
    + assert (G : getitem name (match given with Some ps => ps | None => [] end)
                  = Ok value).
      { destruct given as [g|]; simpl in S; [|discriminate].
        unfold getitem. rewrite S. reflexivity. }
      rewrite G. cbn [bind].
      set (pp1 := if V20.in_ spec =? "path" then set name value pp else pp).
      set (r1 := if V20.in_ spec =? "cookie" then _ else _).
      assert (U : V20.url r1 = V20.url r).
      { unfold r1. destruct (V20.in_ spec =? "query"), (V20.in_ spec =? "header"),
          (V20.in_ spec =? "cookie"); reflexivity. }
      assert (I1 : forall n v, get n pp1 = Some v -> supplied given n = Some v).
      { intros n v. unfold pp1. destruct (V20.in_ spec =? "path"); [|apply I].
        rewrite get_set. destruct (String.eqb_spec name n) as [E|E]; [|apply I].
        subst n. intro H. congruence. }
      assert (M1 : forall n v, get n pp = Some v -> get n pp1 = Some v).
      { intros n v H. unfold pp1. destruct (V20.in_ spec =? "path"); [|exact H].
        rewrite get_set. destruct (String.eqb_spec name n) as [E|E]; [|exact H].
        subst n. apply I in H. congruence. }
      destruct (IH R' pp1 r1 I1) as (pp' & r' & B & U' & I' & M' & P').
      exists pp', r'. split; [exact B|]. split; [congruence|]. split; [exact I'|].
      split; [auto|].
      intros n s v [H|H] Hp Hs.
      * injection H as E1 E2. subst n s. apply M'. unfold pp1.
        rewrite Hp. simpl. rewrite get_set, String.eqb_refl. congruence.
      * exact (P' n s v H Hp Hs).
    + destruct (V20.required spec) eqn:Q.
      * exfalso. apply (R name spec); [left; reflexivity|exact Q|exact S].
      * destruct (IH R' pp r I) as (pp' & r' & B & U' & I' & M' & P').
        exists pp', r'. split; [exact B|]. split; [exact U'|]. split; [exact I'|].
        split; [exact M'|].
        intros n s v [H|H] Hp Hs.
        -- injection H as E1 E2. subst n s. congruence.
        -- exact (P' n s v H Hp Hs).
Qed.


End PathParameters.



(** The OpenAPI 3 engine formats the template at each [path] parameter
    with that parameter alone; with two placeholders the first call already
    fails on the other one. *)
Lemma OpenAPI3_formats_per_parameter :
  OpenAPI3.request_parameters Examples.oa3_get_part
    [("id", Concrete.PInt 7); ("part", Concrete.PInt 3)]
    (Examples.no_locals "/items/{id}/parts/{part}")
  = Raise (KeyError "part").
Proof. reflexivity. Qed.

(** ** Binding parameters in the Swagger 2.0 engine *)

Section V20Parameters.
Context {rt : Runtime}.

(** One turn of the loop, in terms of what the caller supplied. *)
Lemma V20_bind_parameters_step (name : string) (spec : V20.ParameterBase)
    (rest : list (string * V20.ParameterBase)) (given : option (dict obj))
    (pp : dict obj) (r : V20.Req) :
  V20.bind_parameters ((name, spec) :: rest) given pp r =
  match supplied given name with
  | None =>
      if V20.required spec
      then Raise (ValueError ("Required parameter " ++ name ++ " not provided"))
      else V20.bind_parameters rest given pp r
  | Some value =>
      V20.bind_parameters rest given
        (if V20.in_ spec =? "path" then set name value pp else pp)
        (let r := if V20.in_ spec =? "query"
                  then V20.set_params r (set name value (V20.params r)) else r in
         let r := if V20.in_ spec =? "header"
                  then V20.set_headers r (set name value (V20.headers r)) else r in
         if V20.in_ spec =? "cookie"
         then V20.set_cookies r (set name value (V20.cookies r)) else r)
  end.
Proof.
  cbn [V20.bind_parameters]. destruct given as [g|]; simpl.
  - unfold mem, getitem. destruct (get name g); reflexivity.
  - reflexivity.
Qed.

Lemma V20_bind_parameters_app (a b : list (string * V20.ParameterBase))
    (given : option (dict obj)) (pp : dict obj) (r : V20.Req) :
  V20.bind_parameters (a ++ b) given pp r =
  bind (V20.bind_parameters a given pp r)
       (fun st => V20.bind_parameters b given (fst st) (snd st)).
Proof.
  revert pp r. induction a as [|[n s] a IH]; intros pp r.
  - reflexivity.
  - rewrite <- app_comm_cons, !V20_bind_parameters_step.
    destruct (supplied given n).
    + apply IH.
    + destruct (V20.required s); [reflexivity|apply IH].
Qed.

(** X1. A call that leaves out a required parameter fails with
    [ValueError] naming the first such parameter in the order of the
    accepted dictionary; nothing is substituted into the path. *)
Theorem V20_missing_required_parameter :
  forall (self : V20.Request) (given : option (dict obj))
         (before after : list (string * V20.ParameterBase))
         (n : string) (spec : V20.ParameterBase),
    V20.accepted_parameters self = Ok (before ++ (n, spec) :: after) ->
    (forall k s, In (k, s) before -> V20.required s = true -> supplied given k <> None) ->
    V20.required spec = true ->
    supplied given n = None ->
    V20._prepare_parameters self given
    = Raise (ValueError ("Required parameter " ++ n ++ " not provided")).
Proof.
  intros self given before after n spec A B R S.
  unfold V20._prepare_parameters. rewrite A. cbn [bind].
  rewrite V20_bind_parameters_app.
  destruct (V20_bind_parameters_collects given before B [] (V20.req self))
    as (pp & r & E & _).
  { intros k v H. discriminate. }
  rewrite E. cbn [bind fst snd]. rewrite V20_bind_parameters_step, S, R. reflexivity.
Qed.

(** X2. Names the caller supplies that are not accepted parameters are
    ignored: two value maps that agree on every accepted parameter give the
    same outcome. *)
Theorem V20_unknown_names_ignored :
  forall (self : V20.Request) (given given' : option (dict obj))
         (accepted : dict V20.ParameterBase),
    V20.accepted_parameters self = Ok accepted ->
    (forall n spec, In (n, spec) accepted -> supplied given n = supplied given' n) ->
    V20._prepare_parameters self given = V20._prepare_parameters self given'.
Proof.
  intros self given given' accepted A H.
  unfold V20._prepare_parameters. rewrite A. cbn [bind].
  assert (E : forall pp r, V20.bind_parameters accepted given pp r
                           = V20.bind_parameters accepted given' pp r).
  { clear A. revert H. induction accepted as [|[k s] acc IH]; intros H pp r;
      [reflexivity|].
    rewrite !V20_bind_parameters_step.
    rewrite <- (H k s (or_introl eq_refl)).
    assert (H' : forall m spec, In (m, spec) acc -> supplied given m = supplied given' m).
    { intros m spec I. apply (H m spec). right. exact I. }
    destruct (supplied given k); [apply (IH H')|].
    destruct (V20.required s); [reflexivity|apply (IH H')]. }
  rewrite E. reflexivity.
Qed.

(** Where the loop puts the values: what it wrote under a name is the
    value supplied under that name, and stays. *)
Lemma V20_bind_parameters_routes (given : option (dict obj))
    (items : list (string * V20.ParameterBase)) :
  forall (pp : dict obj) (r : V20.Req) (pp' : dict obj) (r' : V20.Req),
    V20.bind_parameters items given pp r = Ok (pp', r') ->
    V20.auth r' = V20.auth r /\ V20.content r' = V20.content r /\
    (forall n v, supplied given n = Some v ->
       (get n (V20.params r) = Some v -> get n (V20.params r') = Some v) /\
       (get n (V20.headers r) = Some v -> get n (V20.headers r') = Some v) /\
       (get n (V20.cookies r) = Some v -> get n (V20.cookies r') = Some v)) /\
    (forall n spec v, In (n, spec) items -> supplied given n = Some v ->
       (V20.in_ spec = "query" -> get n (V20.params r') = Some v) /\
       (V20.in_ spec = "header" -> get n (V20.headers r') = Some v) /\
       (V20.in_ spec = "cookie" -> get n (V20.cookies r') = Some v)).
Proof.
  induction items as [|[name spec] items IH]; intros pp r pp' r' B.
  - injection B as <- <-. split; [reflexivity|split; [reflexivity|split]].
    + intros n v _. repeat split; auto.
    + intros n spec v [].
  - rewrite V20_bind_parameters_step in B.
    destruct (supplied given name) as [value|] eqn:S.
    + apply IH in B. destruct B as (A & C & K & R).
      assert (Keep : forall n v, supplied given n = Some v ->
                (get n (V20.params r) = Some v -> get n (V20.params r') = Some v) /\
                (get n (V20.headers r) = Some v -> get n (V20.headers r') = Some v) /\
                (get n (V20.cookies r) = Some v -> get n (V20.cookies r') = Some v)).
      { intros n v Sn. destruct (K n v Sn) as (K1 & K2 & K3).
        repeat split; intro G; [apply K1|apply K2|apply K3];
          destruct (V20.in_ spec =? "query"), (V20.in_ spec =? "header"),
            (V20.in_ spec =? "cookie"); cbn; try exact G;
          rewrite get_set; destruct (String.eqb_spec name n); try exact G;
          subst; congruence. }
      split; [|split; [|split; [exact Keep|]]].
      * rewrite A. destruct (V20.in_ spec =? "query"), (V20.in_ spec =? "header"),
          (V20.in_ spec =? "cookie"); reflexivity.
      * rewrite C. destruct (V20.in_ spec =? "query"), (V20.in_ spec =? "header"),
          (V20.in_ spec =? "cookie"); reflexivity.
      * intros n s v [I|I] Sn; [|exact (R n s v I Sn)].
        injection I as <- <-. rewrite S in Sn. injection Sn as <-.
        destruct (K name value S) as (K1 & K2 & K3).
        repeat split; intro L; [apply K1|apply K2|apply K3]; rewrite L;
          destruct (V20.in_ spec =? "query"), (V20.in_ spec =? "header"),
            (V20.in_ spec =? "cookie"); cbn; try discriminate;
          rewrite get_set, String.eqb_refl; reflexivity.
    + destruct (V20.required spec); [discriminate|].
      apply IH in B. destruct B as (A & C & K & R).
      split; [exact A|split; [exact C|split; [exact K|]]].
      intros n s v [I|I] Sn; [|exact (R n s v I Sn)].
      injection I as <- <-. congruence.
Qed.

(** X3. Every accepted parameter the caller supplies is placed by its
    location: [query] values in the query map, [header] values in the
    header map, [cookie] values in the cookie map, each under the
    parameter's name; credentials and body already in the request are left
    alone. *)
Theorem V20_parameters_routed_by_location :
  forall (self self' : V20.Request) (given : option (dict obj))
         (accepted : dict V20.ParameterBase),
    V20.accepted_parameters self = Ok accepted ->
    V20._prepare_parameters self given = Ok self' ->
    V20.auth (V20.req self') = V20.auth (V20.req self) /\
    V20.content (V20.req self') = V20.content (V20.req self) /\
    forall n spec v, In (n, spec) accepted -> supplied given n = Some v ->
      (V20.in_ spec = "query" -> get n (V20.params (V20.req self')) = Some v) /\
      (V20.in_ spec = "header" -> get n (V20.headers (V20.req self')) = Some v) /\
      (V20.in_ spec = "cookie" -> get n (V20.cookies (V20.req self')) = Some v).
Proof.
  intros self self' given accepted A P.
  unfold V20._prepare_parameters in P. rewrite A in P. cbn [bind] in P.
  destruct (V20.bind_parameters accepted given [] (V20.req self)) as [[pp r]|] eqn:B;
    cbn [bind] in P; [|discriminate].
  destruct (format (V20.url r) [] (V20.kwargs_str pp)) as [u|]; cbn [bind] in P;
    [|discriminate].
  injection P as <-.
  destruct (V20_bind_parameters_routes given accepted [] (V20.req self) pp r B)
    as (Au & Co & _ & R).
  split; [exact Au|split; [exact Co|]]. exact R.
Qed.

End V20Parameters.

(** [V20_missing_required_parameter] at a concrete call. *)
Lemma V20_missing_required_parameter_witness :
  V20._prepare_parameters Examples.v20_get_item None
  = Raise (ValueError "Required parameter id not provided").
Proof.
  apply (V20_missing_required_parameter (rt := Concrete.runtime)
           Examples.v20_get_item None [] [] "id" Examples.v20_path_id).
  - reflexivity.
  - intros k s [].
  - reflexivity.
  - reflexivity.
Defined.


(** [V20_unknown_names_ignored] at a concrete call. *)
Lemma V20_unknown_names_ignored_witness :
  V20._prepare_parameters Examples.v20_get_item
    (Some [("id", Concrete.PStr "42"); ("verbose", Concrete.PInt 1)])
  = V20._prepare_parameters Examples.v20_get_item (Some [("id", Concrete.PStr "42")]).
Proof.
  apply (V20_unknown_names_ignored (rt := Concrete.runtime) Examples.v20_get_item
           (Some [("id", Concrete.PStr "42"); ("verbose", Concrete.PInt 1)])
           (Some [("id", Concrete.PStr "42")]) [("id", Examples.v20_path_id)]).
  - reflexivity.
  - intros n spec [H|[]]. injection H as <- _. reflexivity.
Defined.


(** [V20_parameters_routed_by_location] at a concrete call. *)
Lemma V20_parameters_routed_by_location_witness :
  get "q" (V20.params (V20.req Examples.v20_search_prepared))
  = Some (Concrete.PStr "tea") /\
  get "X-Trace" (V20.headers (V20.req Examples.v20_search_prepared))
  = Some (Concrete.PStr "t1") /\
  get "session" (V20.cookies (V20.req Examples.v20_search_prepared))
  = Some (Concrete.PStr "s1").
Proof.
  pose proof (V20_parameters_routed_by_location (rt := Concrete.runtime)
                Examples.v20_search Examples.v20_search_prepared
                (Some Examples.v20_search_values)
                [("q", Examples.v20_search_q); ("X-Trace", Examples.v20_search_trace);
                 ("session", Examples.v20_search_session)]
                eq_refl eq_refl) as (_ & _ & R).
  split; [|split].
  - apply (R "q" Examples.v20_search_q); [left; reflexivity|reflexivity|reflexivity].
  - apply (R "X-Trace" Examples.v20_search_trace);
      [right; left; reflexivity|reflexivity|reflexivity].
  - apply (R "session" Examples.v20_search_session);
      [right; right; left; reflexivity|reflexivity|reflexivity].
Defined.

Section V20Placeholders.
Context {rt : Runtime}.





End V20Placeholders.


(** ** Bodies, credentials and responses in the Swagger 2.0 engine *)

Section V20Steps.
Context {rt : Runtime}.

(** The two ways the body step succeeds. *)
Lemma V20_prepare_body_cases (self self' : V20.Request) (body : option obj) :
  V20._prepare_body self body = Ok self' ->
  (self' = self /\ exists e, V20.data self = Raise e) \/
  (exists sch b,
     V20.data self = Ok sch /\ body <> None /\
     self' = V20.with_req self
               (V20.set_headers (V20.set_content (V20.req self) (Some b))
                  (set "Content-Type" (of_str "application/json")
                     (V20.headers (V20.req self))))).
Proof.
  intro P. unfold V20._prepare_body in P.
  destruct (V20.data self) as [sch|e] eqn:D.
  - right. exists sch. destruct body as [d|].
    + cbn [bind] in P.
      destruct (existsb (String.eqb "application/json")
                  (V20.consumes (V20.operation self))); [|discriminate].
      destruct (isinstance_dict d || isinstance_list d);
        [|destruct (isinstance_BaseModel d); [|discriminate]];
        cbn [bind] in P;
        match type of P with
        | bind (json_dumps ?x) _ = _ => destruct (json_dumps x); cbn [bind] in P
        end; try discriminate; injection P as <-;
        (eexists; split; [reflexivity|split; [discriminate|reflexivity]]).
    + destruct sch as [s|]; cbn [bind] in P; [|discriminate].
      destruct (Schema_required s); [discriminate|].
      destruct (existsb (String.eqb "application/json")
                  (V20.consumes (V20.operation self))); discriminate.
  - left. destruct e; try discriminate. injection P as <-.
    split; [reflexivity|]. eexists. reflexivity.
Qed.

(** X5. Preparing the body touches nothing but the body and the
    Content-Type header: an operation without a body parameter leaves the
    request as it is whatever data is passed, and one with a body parameter
    ends with a body and [Content-Type: application/json]. *)
Theorem V20_prepare_body_frame :
  forall (self self' : V20.Request) (body : option obj),
    V20._prepare_body self body = Ok self' ->
    V20.url (V20.req self') = V20.url (V20.req self) /\
    V20.params (V20.req self') = V20.params (V20.req self) /\
    V20.cookies (V20.req self') = V20.cookies (V20.req self) /\
    V20.auth (V20.req self') = V20.auth (V20.req self) /\
    (forall k, k <> "Content-Type" ->
               get k (V20.headers (V20.req self')) = get k (V20.headers (V20.req self))) /\
    (forall e, V20.data self = Raise e -> self' = self) /\
    (forall sch, V20.data self = Ok sch ->
       body <> None /\
       (exists b, V20.content (V20.req self') = Some b) /\
       get "Content-Type" (V20.headers (V20.req self'))
       = Some (of_str "application/json")).
Proof.
  intros self self' body P.
  destruct (V20_prepare_body_cases self self' body P)
    as [[-> [e D]]|(sch & b & D & Nb & ->)].
  - do 4 (split; [reflexivity|]). split; [reflexivity|]. split; [reflexivity|].
    intros sch E. congruence.
  - cbn. do 4 (split; [reflexivity|]). split; [|split].
    + intros k Hk. rewrite get_set.
      destruct (String.eqb_spec "Content-Type" k); [congruence|reflexivity].
    + intros e E. congruence.
    + intros sch' _. split; [exact Nb|]. split; [exists b; reflexivity|].
      rewrite get_set. reflexivity.
Qed.

(** X6. The checks of the body step, in their order, for an operation with
    a body parameter: a missing body is reported first when the schema says
    it is required; an operation that does not consume [application/json]
    is not implemented, whatever the data; and with an optional body, leaving
    the data out is a [TypeError] on [None]. *)
Theorem V20_prepare_body_errors :
  forall (self : V20.Request) (sch : option Schema),
    V20.data self = Ok sch ->
    let json := existsb (String.eqb "application/json")
                  (V20.consumes (V20.operation self)) in
    (forall s, sch = Some s -> Schema_required s = true ->
       V20._prepare_body self None
       = Raise (ValueError "Request Body is required but none was provided.")) /\
    (forall d, json = false ->
       V20._prepare_body self (Some d) = Raise (NotImplementedError "")) /\
    (forall s, sch = Some s -> Schema_required s = false -> json = true ->
       V20._prepare_body self None = Raise (TypeError "None")).
Proof.
  intros self sch D json. subst json. split; [|split].
  - intros s -> R. unfold V20._prepare_body. rewrite D. cbn [bind]. rewrite R.
    reflexivity.
  - intros d J. unfold V20._prepare_body. rewrite D. cbn [bind]. rewrite J.
    reflexivity.
  - intros s -> R J. unfold V20._prepare_body. rewrite D. cbn [bind]. rewrite R, J.
    reflexivity.
Qed.

(** X7. Applying a security scheme: a requirement whose scheme is not
    defined is a [KeyError]; otherwise the step succeeds and leaves the path
    and the body alone, a [basic] scheme stores the credential as the
    authentication and nothing else does, only [apiKey] schemes touch the
    query, header and cookie maps, and an [apiKey] in a cookie replaces the
    whole cookie map by the single key. *)
Theorem V20_prepare_secschemes_effect :
  forall (self : V20.Request) (r : V20.SecurityRequirement) (value : obj),
    (get (V20.SecurityRequirement_name r) (V20.securityDefinitions (V20.root self)) = None ->
     V20._prepare_secschemes self r value
     = Raise (KeyError (V20.SecurityRequirement_name r))) /\
    (forall ss,
       get (V20.SecurityRequirement_name r) (V20.securityDefinitions (V20.root self))
       = Some ss ->
       exists req',
         V20._prepare_secschemes self r value = Ok (V20.with_req self req') /\
         V20.url req' = V20.url (V20.req self) /\
         V20.content req' = V20.content (V20.req self) /\
         V20.auth req' = (if V20.SecurityScheme_type ss =? "basic" then Some value
                          else V20.auth (V20.req self)) /\
         (V20.SecurityScheme_type ss <> "apiKey" ->
          V20.params req' = V20.params (V20.req self) /\
          V20.headers req' = V20.headers (V20.req self) /\
          V20.cookies req' = V20.cookies (V20.req self)) /\
         (V20.SecurityScheme_type ss = "apiKey" ->
          (V20.SecurityScheme_in_ ss = "query" ->
           get (V20.SecurityScheme_name ss) (V20.params req') = Some value) /\
          (V20.SecurityScheme_in_ ss = "header" ->
           get (V20.SecurityScheme_name ss) (V20.headers req') = Some value) /\
          (V20.SecurityScheme_in_ ss = "cookie" ->
           V20.cookies req' = [(V20.SecurityScheme_name ss, value)]))).
Proof.
  intros self r value. split.
  - intro G. unfold V20._prepare_secschemes, getitem. rewrite G. reflexivity.
  - intros ss G. unfold V20._prepare_secschemes, getitem. rewrite G. cbn [bind].
    eexists. split; [reflexivity|].
    destruct (String.eqb_spec (V20.SecurityScheme_type ss) "basic") as [B|B];
      destruct (String.eqb_spec (V20.SecurityScheme_type ss) "apiKey") as [K|K];
      try (rewrite B in K; discriminate K);
      destruct (String.eqb_spec (V20.SecurityScheme_in_ ss) "query") as [Q|Q];
      destruct (String.eqb_spec (V20.SecurityScheme_in_ ss) "header") as [H|H];
      destruct (String.eqb_spec (V20.SecurityScheme_in_ ss) "cookie") as [C|C];
      try (rewrite Q in H; discriminate H); try (rewrite Q in C; discriminate C);
      try (rewrite H in C; discriminate C);
      cbn; repeat split; try reflexivity; try congruence; intros;
      try congruence; try (rewrite get_set, String.eqb_refl; reflexivity).
Qed.

Lemma V20_first_satisfied_skips (skipped rest : dict obj)
    (alts : list V20.SecurityRequirement) :
  (forall k v, In (k, v) skipped ->
               existsb (fun x => V20.SecurityRequirement_name x =? k) alts = false) ->
  V20.first_satisfied (skipped ++ rest) alts = V20.first_satisfied rest alts.
Proof.
  induction skipped as [|[k v] s IH]; intro H; [reflexivity|].
  simpl. assert (F : filter (fun x => V20.SecurityRequirement_name x =? k) alts = []).
  { pose proof (H k v (or_introl eq_refl)) as E. clear -E.
    induction alts as [|a alts IHa]; simpl in *; [reflexivity|].
    apply orb_false_iff in E. destruct E as [E1 E2]. rewrite E1. exact (IHa E2). }
  rewrite F. apply IH. intros k' v' I. apply (H k' v'). right. exact I.
Qed.

Lemma OpenAPI3_first_satisfied_skips (skipped rest : dict obj)
    (alts : list OpenAPI3.SecurityRequirement) :
  (forall k v, In (k, v) skipped ->
               existsb (fun x => OpenAPI3.SecurityRequirement_name x =? k) alts = false) ->
  OpenAPI3.first_satisfied (skipped ++ rest) alts = OpenAPI3.first_satisfied rest alts.
Proof.
  induction skipped as [|[k v] s IH]; intro H; [reflexivity|].
  simpl. assert (F : find (fun x => OpenAPI3.SecurityRequirement_name x =? k) alts = None).
  { pose proof (H k v (or_introl eq_refl)) as E. clear -E.
    induction alts as [|a alts IHa]; simpl in *; [reflexivity|].
    apply orb_false_iff in E. destruct E as [E1 E2]. rewrite E1. exact (IHa E2). }
  rewrite F. apply IH. intros k' v' I. apply (H k' v'). right. exact I.
Qed.

(** X8. Credentials are tried in the order of the credential map: those
    that name no alternative are passed over, the first one that names an
    alternative is applied with the first alternative of that name, and
    whatever follows it in the map is never looked at. *)
Theorem first_matching_credential_wins :
  (forall (self : V20.Request) (skipped rest : dict obj) (k : string) (v : obj)
          (earlier later : list V20.SecurityRequirement) (r : V20.SecurityRequirement),
      V20.api_security self = skipped ++ (k, v) :: rest ->
      V20.security_alternatives self = earlier ++ r :: later ->
      V20.SecurityRequirement_name r = k ->
      (forall a, In a earlier -> V20.SecurityRequirement_name a <> k) ->
      (forall k' v', In (k', v') skipped ->
         existsb (fun x => V20.SecurityRequirement_name x =? k')
                 (V20.security_alternatives self) = false) ->
      V20._prepare_security self = V20._prepare_secschemes self r v)
  /\
  (forall (self : OpenAPI3.Operation) (l : OpenAPI3.Locals)
          (skipped rest : dict obj) (k : string) (v : obj)
          (earlier later : list OpenAPI3.SecurityRequirement)
          (r : OpenAPI3.SecurityRequirement),
      OpenAPI3.security self = earlier ++ r :: later ->
      OpenAPI3.SecurityRequirement_name r = k ->
      (forall a, In a earlier -> OpenAPI3.SecurityRequirement_name a <> k) ->
      (forall k' v', In (k', v') skipped ->
         existsb (fun x => OpenAPI3.SecurityRequirement_name x =? k')
                 (OpenAPI3.security self) = false) ->
      OpenAPI3.request_security self (skipped ++ (k, v) :: rest) l
      = (ss <- getitem k (OpenAPI3.securitySchemes (OpenAPI3._root self)) ;;
         OpenAPI3.apply_scheme ss v l)).
Proof.
  assert (T : forall (A : Type) (a b : list A) (x : A), truthy (a ++ x :: b) = true).
  { intros A a b x. destruct a; reflexivity. }
  split.
  - intros self skipped rest k v earlier later r C A N E S.
    unfold V20._prepare_security. rewrite C, T.
    rewrite (V20_first_satisfied_skips skipped ((k, v) :: rest) _ S).
    rewrite A, T. cbn [andb V20.first_satisfied]. rewrite filter_app.
    assert (F : filter (fun x => V20.SecurityRequirement_name x =? k) earlier = []).
    { clear -E. induction earlier as [|a e IH]; simpl; [reflexivity|].
      destruct (String.eqb_spec (V20.SecurityRequirement_name a) k) as [X|X].
      - exfalso. exact (E a (or_introl eq_refl) X).
      - apply IH. intros b I. apply E. right. exact I. }
    rewrite F. cbn [List.app filter]. rewrite N, String.eqb_refl. reflexivity.
  - intros self l skipped rest k v earlier later r A N E S.
    unfold OpenAPI3.request_security. rewrite T.
    rewrite (OpenAPI3_first_satisfied_skips skipped ((k, v) :: rest) _ S).
    rewrite A, T. cbn [andb OpenAPI3.first_satisfied]. rewrite find_app.
    assert (F : find (fun x => OpenAPI3.SecurityRequirement_name x =? k) earlier = None).
    { clear -E. induction earlier as [|a e IH]; simpl; [reflexivity|].
      destruct (String.eqb_spec (OpenAPI3.SecurityRequirement_name a) k) as [X|X].
      - exfalso. exact (E a (or_introl eq_refl) X).
      - apply IH. intros b I. apply E. right. exact I. }
    rewrite F. cbn [find]. rewrite N, String.eqb_refl, N. reflexivity.
Qed.

(** X9. What a successful response handling returns.  It returns without
    decoding exactly when the status is 204 and a declared response covers
    it.  Any value it returns otherwise was decoded: the response carried a
    Content-Type whose media type, in lower case and up to the first [;],
    is [application/json], its text was read as JSON, and the value is what
    the schema of the matched response builds, with the plugins applied in
    the order received, parsed, unmarshalled. *)
Theorem V20_process_success :
  forall (self : V20.Request) (result : V20.Envelope),
    (V20._process self result = Ok None <->
     V20.status_code result = 204%Z /\ V20.expected_response self "204" <> None) /\
    (forall o, V20._process self result = Ok (Some o) ->
       V20.status_code result <> 204%Z /\
       exists expected content_type sch j m,
         V20.expected_response self (str_of_Z (V20.status_code result)) = Some expected /\
         headers_get "Content-Type" (V20.Envelope_headers result) = Some content_type /\
         fst (fst (partition ";" (lower content_type))) = "application/json" /\
         json_loads (V20.received (V20.api_plugins self)
                       (V20.operationId (V20.operation self)) (V20.text result)) = Ok j /\
         V20.Response_schema_ expected = Some sch /\
         Schema_model sch (V20.parsed (V20.api_plugins self)
                             (V20.operationId (V20.operation self)) j) = Ok m /\
         o = V20.unmarshalled (V20.api_plugins self)
               (V20.operationId (V20.operation self)) m).
Proof.
  intros self result. split; [split|].
  - unfold V20._process.
    destruct (V20.expected_response self (str_of_Z (V20.status_code result)))
      as [expected|] eqn:E; [|discriminate].
    destruct (String.eqb_spec (str_of_Z (V20.status_code result)) "204") as [S|S].
    + intros _. assert (Z : V20.status_code result = 204%Z).
      { apply str_of_Z_inj. exact S. }
      split; [exact Z|]. rewrite S in E. rewrite E. discriminate.
    + destruct (headers_get "Content-Type" (V20.Envelope_headers result));
        [|discriminate].
      unfold V20.decode_body.
      destruct (_ =? "application/json"); [|discriminate].
      destruct (json_loads _); cbn [bind]; [|discriminate].
      destruct (V20.Response_schema_ expected); cbn [bind]; [|discriminate].
      destruct (Schema_model _ _); cbn [bind]; discriminate.
  - intros [Z N]. unfold V20._process. rewrite Z.
    change (str_of_Z 204) with "204".
    destruct (V20.expected_response self "204"); [reflexivity|contradiction].
  - intros o P. unfold V20._process in P.
    destruct (V20.expected_response self (str_of_Z (V20.status_code result)))
      as [expected|] eqn:E; [|discriminate].
    destruct (String.eqb_spec (str_of_Z (V20.status_code result)) "204") as [S|S];
      [discriminate|].
    split; [intro Z; apply S; rewrite Z; reflexivity|].
    destruct (headers_get "Content-Type" (V20.Envelope_headers result)) as [ct|] eqn:H;
      [|discriminate].
    unfold V20.decode_body in P.
    destruct (String.eqb_spec (fst (fst (partition ";" (lower ct)))) "application/json")
      as [L|L]; [|discriminate].
    destruct (json_loads _) as [j|] eqn:J; cbn [bind] in P; [|discriminate].
    destruct (V20.Response_schema_ expected) as [sch|] eqn:Sc; cbn [bind] in P;
      [|discriminate].
    destruct (Schema_model _ _) as [m|] eqn:M; cbn [bind] in P; [|discriminate].
    injection P as <-.
    exists expected, ct, sch, j, m. repeat split; assumption || reflexivity.
Qed.

Lemma V20_prepare_security_keeps (self self' : V20.Request) :
  V20._prepare_security self = Ok self' ->
  exists r, self' = V20.with_req self r \/ self' = self.
Proof.
  unfold V20._prepare_security.
  destruct (truthy (V20.api_security self) && truthy (V20.security_alternatives self)).
  - destruct (V20.first_satisfied _ _) as [[r value]|].
    + unfold V20._prepare_secschemes.
      destruct (getitem _ _) as [ss|]; cbn [bind]; [|discriminate].
      intro P. injection P as <-. eexists. left. reflexivity.
    + destruct (V20.security (V20.operation self)); discriminate.
  - intro P. injection P as <-. exists (V20.req self). right. reflexivity.
Qed.

(** X10. A whole preparation changes the request under construction only:
    the operation, the specification, the credentials and the plugins are
    what they were.  Every accepted parameter the caller supplied is in
    place at the end: [query] and [cookie] values under their names, even
    where a security scheme had written the same key before, and [header]
    values too, except under [Content-Type], which the body step sets. *)
Theorem V20_prepare_places_parameters :
  forall (self self' : V20.Request) (body : option obj) (given : option (dict obj))
         (accepted : dict V20.ParameterBase),
    V20.accepted_parameters self = Ok accepted ->
    V20._prepare self body given = Ok self' ->
    V20.operation self' = V20.operation self /\
    V20.root self' = V20.root self /\
    V20.api_security self' = V20.api_security self /\
    V20.api_plugins self' = V20.api_plugins self /\
    forall n spec v, In (n, spec) accepted -> supplied given n = Some v ->
      (V20.in_ spec = "query" -> get n (V20.params (V20.req self')) = Some v) /\
      (V20.in_ spec = "cookie" -> get n (V20.cookies (V20.req self')) = Some v) /\
      (V20.in_ spec = "header" -> n <> "Content-Type" ->
       get n (V20.headers (V20.req self')) = Some v).
Proof.
  intros self self' body given accepted A P. unfold V20._prepare in P.
  destruct (V20._prepare_security self) as [s1|] eqn:S1; cbn [bind] in P; [|discriminate].
  destruct (V20._prepare_parameters s1 given) as [s2|] eqn:S2; cbn [bind] in P;
    [|discriminate].
  assert (K1 : V20.operation s1 = V20.operation self /\ V20.root s1 = V20.root self /\
               V20.path s1 = V20.path self /\
               V20.api_security s1 = V20.api_security self /\
               V20.api_plugins s1 = V20.api_plugins self).
  { destruct (V20_prepare_security_keeps self s1 S1) as (r & [->| ->]);
      repeat split; reflexivity. }
  destruct K1 as (O1 & R1 & P1 & C1 & L1).
  assert (A1 : V20.accepted_parameters s1 = Ok accepted).
  { unfold V20.accepted_parameters in *. rewrite R1, P1, O1. exact A. }
  unfold V20._prepare_parameters in S2. rewrite A1 in S2. cbn [bind] in S2.
  destruct (V20.bind_parameters accepted given [] (V20.req s1)) as [[pp r]|] eqn:B;
    cbn [bind] in S2; [|discriminate].
  destruct (format (V20.url r) [] (V20.kwargs_str pp)) as [u|]; cbn [bind] in S2;
    [|discriminate].
  injection S2 as <-.
  destruct (V20_bind_parameters_routes given accepted [] (V20.req s1) pp r B)
    as (_ & _ & _ & Rt).
  destruct (V20_prepare_body_cases _ self' body P)
    as [[-> _]|(sch & b & _ & _ & ->)]; cbn;
    (do 4 (split; [assumption|]));
    intros n spec v I Sn; destruct (Rt n spec v I Sn) as (Q & H & C);
    (split; [exact Q|split; [exact C|]]); intros X N; try exact (H X).
  rewrite get_set. destruct (String.eqb_spec "Content-Type" n); [congruence|exact (H X)].
Qed.

End V20Steps.

(** [V20_prepare_body_frame] at a concrete call. *)
Lemma V20_prepare_body_frame_witness :
  V20.url (V20.req Examples.v20_create_item_prepared) = "/items" /\
  get "Content-Type" (V20.headers (V20.req Examples.v20_create_item_prepared))
  = Some (Concrete.PStr "application/json").
Proof.
  pose proof (V20_prepare_body_frame (rt := Concrete.runtime)
                Examples.v20_create_item Examples.v20_create_item_prepared
                (Some Examples.item_value) eq_refl)
    as (U & _ & _ & _ & _ & _ & B).
  split; [exact U|].
  exact (proj2 (proj2 (B (Some Examples.item_schema) eq_refl))).
Defined.


(** [V20_prepare_body_errors] at a concrete call. *)
Lemma V20_prepare_body_errors_witness :
  V20._prepare_body Examples.v20_create_item None
  = Raise (ValueError "Request Body is required but none was provided.").
Proof.
  apply (proj1 (V20_prepare_body_errors (rt := Concrete.runtime)
                  Examples.v20_create_item (Some Examples.item_schema) eq_refl)
           Examples.item_schema); reflexivity.
Defined.


(** [V20_prepare_secschemes_effect] at a concrete call. *)
Lemma V20_prepare_secschemes_effect_witness :
  exists req',
    V20._prepare_secschemes Examples.v20_with_api_key Examples.v20_apiKeyAuth
      (Concrete.PStr "secret123")
    = Ok (V20.with_req Examples.v20_with_api_key req') /\
    V20.auth req' = None /\
    get "key" (V20.params req') = Some (Concrete.PStr "secret123").
Proof.
  destruct (proj2 (V20_prepare_secschemes_effect (rt := Concrete.runtime)
                     Examples.v20_with_api_key Examples.v20_apiKeyAuth
                     (Concrete.PStr "secret123"))
              {| V20.SecurityScheme_type := "apiKey"; V20.SecurityScheme_in_ := "query";
                 V20.SecurityScheme_name := "key" |} eq_refl)
    as (req' & E & _ & _ & A & _ & K).
  exists req'. split; [exact E|]. split; [exact A|].
  exact (proj1 (K eq_refl) eq_refl).
Defined.


(** [first_matching_credential_wins] at a concrete call. *)
Lemma first_matching_credential_wins_witness :
  V20._prepare_security
    (Examples.v20_secured (Some [Examples.v20_basicAuth])
       [("other", Concrete.PStr "x"); ("globalKey", Concrete.PStr "secret123");
        ("basicAuth", Concrete.PTuple [Concrete.PStr "user"; Concrete.PStr "pw"])])
  = V20._prepare_secschemes
      (Examples.v20_secured (Some [Examples.v20_basicAuth])
         [("other", Concrete.PStr "x"); ("globalKey", Concrete.PStr "secret123");
          ("basicAuth", Concrete.PTuple [Concrete.PStr "user"; Concrete.PStr "pw"])])
      Examples.v20_globalKey (Concrete.PStr "secret123").
Proof.
  apply (proj1 (first_matching_credential_wins (rt := Concrete.runtime)) _
           [("other", Concrete.PStr "x")]
           [("basicAuth", Concrete.PTuple [Concrete.PStr "user"; Concrete.PStr "pw"])]
           "globalKey" (Concrete.PStr "secret123")
           [Examples.v20_basicAuth] [] Examples.v20_globalKey).
  - reflexivity.
  - reflexivity.
  - reflexivity.
  - intros a [<-|[]]. discriminate.
  - intros k' v' [H|[]]. injection H as <- _. reflexivity.
Defined.


(** [V20_process_success] at a concrete call. *)
Lemma V20_process_success_witness :
  V20._process Examples.v20_get_item_default (Examples.v20_response 204 []) = Ok None /\
  fst (fst (partition ";" (lower "Application/JSON; charset=utf-8"))) = "application/json".
Proof.
  split.
  - apply (proj1 (V20_process_success (rt := Concrete.runtime)
                    Examples.v20_get_item_default (Examples.v20_response 204 []))).
    split; [reflexivity|discriminate].
  - destruct (proj2 (V20_process_success (rt := Concrete.runtime) Examples.v20_get_item
                       (Examples.v20_response 200
                          [("content-type", "Application/JSON; charset=utf-8")]))
                (Concrete.PModel [("id", Concrete.PInt 1)]) eq_refl)
      as (_ & expected & ct & sch & j & m & _ & H & L & _).
    injection H as <-. exact L.
Defined.


(** [V20_prepare_places_parameters] at a concrete call. *)
Lemma V20_prepare_places_parameters_witness :
  V20.operation Examples.v20_search_prepared = V20.operation Examples.v20_search /\
  get "q" (V20.params (V20.req Examples.v20_search_prepared))
  = Some (Concrete.PStr "tea").
Proof.
  pose proof (V20_prepare_places_parameters (rt := Concrete.runtime)
                Examples.v20_search Examples.v20_search_prepared None
                (Some Examples.v20_search_values)
                [("q", Examples.v20_search_q); ("X-Trace", Examples.v20_search_trace);
                 ("session", Examples.v20_search_session)]
                eq_refl eq_refl) as (O & _ & _ & _ & R).
  split; [exact O|].
  apply (R "q" Examples.v20_search_q); [left; reflexivity|reflexivity|reflexivity].
Defined.

Section V20ParametersProperty.
Context {rt : Runtime}.

(** X11. The dictionary of accepted parameters has exactly the names of
    the [parameters] property, and what it holds under a name is one of the
    parameters of that name listed by the property. *)
Theorem V20_accepted_names_are_the_parameters :
  forall (self : V20.Request) (ps : list V20.ParameterBase),
    V20.parameters_property self = Ok ps ->
    exists accepted,
      V20.accepted_parameters self = Ok accepted /\
      (forall n, get n accepted <> None <-> In n (map V20.name ps)) /\
      (forall n q, get n accepted = Some q -> In q ps /\ V20.name q = n).
Proof.
  intros self ps P. unfold V20.parameters_property in P.
  unfold V20.accepted_parameters.
  destruct (getitem (V20.path self) (V20.paths (V20.root self))) as [item|];
    cbn [bind] in *; [|discriminate].
  injection P as <-. eexists. split; [reflexivity|].
  change (fun acc x => update acc [(V20.name x, x)])
    with (fun acc (x : V20.ParameterBase) => set (V20.name x) x acc).
  change V20.not_body with (fun x : V20.ParameterBase => negb (V20.in_ x =? "body")).
  set (ps := filter _ _).
  split.
  - intro n. rewrite get_fold_by_name. simpl get.
    destruct (find (fun x => V20.name x =? n) (List.rev ps)) as [q|] eqn:F.
    + split; [|discriminate]. intros _. apply find_some in F. destruct F as [I E].
      apply String.eqb_eq in E. subst n. apply in_map. apply in_rev. exact I.
    + split; [congruence|]. intro I. exfalso.
      apply in_map_iff in I. destruct I as (q & E & I).
      pose proof (find_none _ _ F q (proj1 (in_rev ps q) I)) as N.
      cbn beta in N. rewrite E, String.eqb_refl in N. discriminate.
  - intros n q G. rewrite get_fold_by_name in G. simpl get in G.
    destruct (find (fun x => V20.name x =? n) (List.rev ps)) as [q'|] eqn:F;
      [|discriminate].
    injection G as <-. apply find_some in F. destruct F as [I E].
    split; [apply in_rev; exact I|apply String.eqb_eq; exact E].
Qed.

End V20ParametersProperty.

(** ** The OpenAPI 3 engine *)

Section OpenAPI3Steps.
Context {rt : Runtime}.

(** X12. Loading a parameter fails with [SpecError] exactly when it is a
    [path] parameter whose [required] member is not [True]; every loaded
    parameter keeps its name and location, and every loaded [path]
    parameter is required. *)
Theorem Parameter_in_path_is_required :
  forall (get_path : string) (f : OpenAPI3.ParameterFields),
    ((exists msg, OpenAPI3.Parameter_parse_data get_path f = OpenAPI3.SpecError msg) <->
     OpenAPI3.fields_in f = "path" /\ OpenAPI3.fields_required f <> Some true) /\
    (forall p, OpenAPI3.Parameter_parse_data get_path f = OpenAPI3.Loaded p ->
       OpenAPI3.name p = OpenAPI3.fields_name f /\
       OpenAPI3.in_ p = OpenAPI3.fields_in f /\
       (OpenAPI3.in_ p = "path" -> OpenAPI3.required p = true)).
Proof.
  intros get_path f. unfold OpenAPI3.Parameter_parse_data.
  destruct (String.eqb_spec (OpenAPI3.fields_in f) "path") as [E|E];
    destruct (OpenAPI3.fields_required f) as [[|]|]; cbn; split;
    try (split; [intros [msg H]; discriminate H|intros [H1 H2]; congruence]);
    try (split; [intros _; split; [assumption|discriminate]|intros _; eexists; reflexivity]);
    try (intros p H; discriminate H);
    intros p H; injection H as <-; cbn; repeat split; auto; congruence.
Qed.

Lemma OpenAPI3_bind_parameters_step (name : string) (spec : OpenAPI3.ParameterObject)
    (rest : list (string * OpenAPI3.ParameterObject)) (given : dict obj)
    (l : OpenAPI3.Locals) :
  OpenAPI3.bind_parameters ((name, spec) :: rest) given l =
  match get name given with
  | None =>
      if OpenAPI3.required spec
      then Raise (ValueError ("Required parameter " ++ name ++ " not provided"))
      else OpenAPI3.bind_parameters rest given l
  | Some value =>
      l <- (if OpenAPI3.in_ spec =? "path" then
              p <- format (OpenAPI3.url_path l) [] [(name, py_str value)] ;;
              Ok (OpenAPI3.set_url_path l p)
            else if OpenAPI3.in_ spec =? "query" then
              Ok (OpenAPI3.set_query_params l (set name value (OpenAPI3.query_params l)))
            else if OpenAPI3.in_ spec =? "header" then
              Ok (OpenAPI3.set_headers l (set name value (OpenAPI3.headers l)))
            else if OpenAPI3.in_ spec =? "cookie" then
              Ok (OpenAPI3.set_headers l (set "Cookie" value (OpenAPI3.headers l)))
            else Ok l) ;;
      OpenAPI3.bind_parameters rest given l
  end.
Proof.
  cbn [OpenAPI3.bind_parameters]. unfold mem, getitem.
  destruct (get name given); cbn [negb andb bind].
  - rewrite andb_false_r. reflexivity.
  - rewrite andb_true_r. destruct (OpenAPI3.required spec); reflexivity.
Qed.

(** X13. A call that leaves out a required parameter never reaches the
    transport: whatever the transport would answer, the call fails. *)
Theorem OpenAPI3_missing_required_parameter_not_sent :
  forall (self : OpenAPI3.Operation) (base_url : string) (creds : dict obj)
         (data : option obj) (given : dict obj)
         (accepted : dict OpenAPI3.ParameterObject)
         (n : string) (spec : OpenAPI3.ParameterObject),
    OpenAPI3.accepted_parameters self = Ok accepted ->
    In (n, spec) accepted ->
    OpenAPI3.required spec = true ->
    get n given = None ->
    exists e, forall transport,
      OpenAPI3.request transport self base_url creds data given = Raise e.
Proof.
  intros self base_url creds data given accepted n spec A I R G.
  assert (B : forall l, exists e, OpenAPI3.bind_parameters accepted given l = Raise e).
  { clear A. induction accepted as [|[k s] acc IH]; [destruct I|]. intro l.
    rewrite OpenAPI3_bind_parameters_step. destruct I as [I|I].
    - injection I as -> ->. rewrite G, R. eexists. reflexivity.
    - destruct (get k given) as [value|].
      + destruct (if OpenAPI3.in_ s =? "path" then _ else _) as [l1|e]; cbn [bind].
        * apply (IH I).
        * eexists. reflexivity.
      + destruct (OpenAPI3.required s); [eexists; reflexivity|apply (IH I)]. }
  unfold OpenAPI3.request.
  destruct (OpenAPI3.index_from_end (OpenAPI3.path self) 1) as [m|e]; cbn [bind];
    [|exists e; reflexivity].
  destruct (OpenAPI3.index_from_end (OpenAPI3.path self) 2) as [t|e]; cbn [bind];
    [|exists e; reflexivity].
  destruct (OpenAPI3.request_security self creds _) as [l1|e]; cbn [bind];
    [|exists e; reflexivity].
  destruct (OpenAPI3.request_body self data l1) as [l2|e]; cbn [bind];
    [|exists e; reflexivity].
  unfold OpenAPI3.request_parameters. rewrite A. cbn [bind].
  destruct (B l2) as [e E]. rewrite E. exists e. reflexivity.
Qed.






(** X17. Schemes the engine does not apply.  [oauth2] and [openIdConnect]
    are not implemented, and neither is an [http] scheme other than
    [basic], [bearer], [digest] and [mutualTLS].  An [apiKey] located
    anywhere but in the query or a header (a cookie, say), and a scheme of
    any other type, are passed over without an error and without a trace in
    the request. *)
Theorem OpenAPI3_schemes_not_applied :
  forall (ss : OpenAPI3.SecurityScheme) (value : obj) (l : OpenAPI3.Locals),
    let t := OpenAPI3.SecurityScheme_type ss in
    ((t = "oauth2" \/ t = "openIdConnect") ->
     OpenAPI3.apply_scheme ss value l = Raise (NotImplementedError "")) /\
    (t = "http" ->
     (forall s, OpenAPI3.scheme ss = Some s ->
                s <> "basic" /\ s <> "bearer" /\ s <> "digest" /\ s <> "mutualTLS") ->
     OpenAPI3.apply_scheme ss value l = Raise (NotImplementedError "")) /\
    (t = "apiKey" ->
     OpenAPI3.SecurityScheme_in_ ss <> Some "query" ->
     OpenAPI3.SecurityScheme_in_ ss <> Some "header" ->
     OpenAPI3.apply_scheme ss value l = Ok l) /\
    (t <> "http" -> t <> "apiKey" -> t <> "oauth2" -> t <> "openIdConnect" ->
     OpenAPI3.apply_scheme ss value l = Ok l).
Proof.
  intros ss value l t. subst t.
  assert (Q : forall (o : option string) (s : string),
             o <> Some s -> OpenAPI3.opt_eqb o s = false).
  { intros [x|] s N; [|reflexivity]. simpl. apply String.eqb_neq. congruence. }
  split; [|split; [|split]].
  - intros [T|T]; unfold OpenAPI3.apply_scheme; rewrite T; reflexivity.
  - intros T S. unfold OpenAPI3.apply_scheme, OpenAPI3.apply_http. rewrite T.
    assert (N : forall s, In s ["basic"; "bearer"; "digest"; "mutualTLS"] ->
                          OpenAPI3.opt_eqb (OpenAPI3.scheme ss) s = false).
    { intros s I. apply Q. intro E. destruct (S s E) as (N1 & N2 & N3 & N4).
      simpl in I. intuition congruence. }
    rewrite (N "basic" ltac:(simpl; tauto)), (N "bearer" ltac:(simpl; tauto)),
      (N "digest" ltac:(simpl; tauto)), (N "mutualTLS" ltac:(simpl; tauto)).
    reflexivity.
  - intros T N1 N2. unfold OpenAPI3.apply_scheme. rewrite T, (Q _ _ N1), (Q _ _ N2).
    reflexivity.
  - intros N1 N2 N3 N4. unfold OpenAPI3.apply_scheme.
    apply String.eqb_neq in N1, N2, N3, N4. rewrite N1, N2, N3, N4. reflexivity.
Qed.

(** X22. What the schemes of the OpenAPI 3 engine put in the request, each
    in one place only.  [basic] and [digest] unpack the credential into a
    user name and a password for the transport's authentication, and fail
    with [TypeError] when it does not unpack into exactly two items;
    [mutualTLS] hands the credential over as the client certificate; an
    [apiKey] goes under its name into the query map or the header map. *)
Theorem OpenAPI3_scheme_placement :
  forall (ss : OpenAPI3.SecurityScheme) (value : obj) (l : OpenAPI3.Locals),
    (OpenAPI3.SecurityScheme_type ss = "http" ->
     (forall args,
        OpenAPI3.scheme ss = Some "basic" \/ OpenAPI3.scheme ss = Some "digest" ->
        py_iter value = Ok args ->
        match args with
        | [u; p] =>
            OpenAPI3.apply_scheme ss value l
            = Ok (OpenAPI3.set_auth l
                    (Some (if OpenAPI3.opt_eqb (OpenAPI3.scheme ss) "basic"
                           then OpenAPI3.HTTPBasicAuth u p
                           else OpenAPI3.HTTPDigestAuth u p)))
        | _ => exists msg, OpenAPI3.apply_scheme ss value l = Raise (TypeError msg)
        end) /\
     (OpenAPI3.scheme ss = Some "mutualTLS" ->
      OpenAPI3.apply_scheme ss value l = Ok (OpenAPI3.set_cert l (Some value)))) /\
    (OpenAPI3.SecurityScheme_type ss = "apiKey" ->
     (OpenAPI3.SecurityScheme_in_ ss = Some "query" ->
      OpenAPI3.apply_scheme ss value l
      = Ok (OpenAPI3.set_query_params l
              (set (OpenAPI3.SecurityScheme_name ss) value (OpenAPI3.query_params l)))) /\
     (OpenAPI3.SecurityScheme_in_ ss = Some "header" ->
      OpenAPI3.apply_scheme ss value l
      = Ok (OpenAPI3.set_headers l
              (set (OpenAPI3.SecurityScheme_name ss) value (OpenAPI3.headers l))))).
Proof.
  intros ss value l. split.
  - intro T. split.
    + intros args [S|S] I; unfold OpenAPI3.apply_scheme, OpenAPI3.apply_http;
        rewrite T, S, I; cbn;
        destruct args as [|u [|p [|x args]]]; cbn; try (eexists; reflexivity);
        reflexivity.
    + intro S. unfold OpenAPI3.apply_scheme, OpenAPI3.apply_http. rewrite T, S.
      reflexivity.
  - intro T. split; intro I; unfold OpenAPI3.apply_scheme; rewrite T, I; reflexivity.
Qed.

(** X18. The body step of the OpenAPI 3 engine never rejects data for its
    type: data that is neither a dictionary nor a model instance (a list, a
    number, a string), like absent data for an optional body, leaves the
    body as it was and still sets [Content-Type: application/json]. *)
Theorem OpenAPI3_unsupported_body_dropped :
  forall (self : OpenAPI3.Operation) (rb : OpenAPI3.RequestBody) (l : OpenAPI3.Locals),
    OpenAPI3.requestBody self = Some rb ->
    mem "application/json" (OpenAPI3.RequestBody_content rb) = true ->
    let sent := OpenAPI3.set_headers l
                  (set "Content-Type" (of_str "application/json") (OpenAPI3.headers l)) in
    (forall d, isinstance_dict d = false -> issubclass_Model d = false ->
               OpenAPI3.request_body self (Some d) l = Ok sent) /\
    (OpenAPI3.RequestBody_required rb = false ->
     OpenAPI3.request_body self None l = Ok sent) /\
    OpenAPI3.body sent = OpenAPI3.body l.
Proof.
  intros self rb l R M sent. subst sent. split; [|split].
  - intros d D1 D2. unfold OpenAPI3.request_body. rewrite R, M, D1, D2.
    rewrite andb_false_r. reflexivity.
  - intro Q. unfold OpenAPI3.request_body. rewrite R, M, Q. reflexivity.
  - reflexivity.
Qed.

(** X19. [can_parse] never fails: it looks at the first value only once it
    knows there is exactly one key.  It accepts exactly the dictionaries
    with a single entry whose value is a list; for such a dictionary
    [_parse_data] names the requirement after that key, and [__dict__] gives
    the key back with the types read for it.  On an empty dictionary
    [_parse_data] fails with [IndexError]. *)
Theorem SecurityRequirement_can_parse :
  forall (dct : dict obj),
    OpenAPI3.can_parse dct
    = Ok (match dct with
          | [(k, v)] => isinstance_list v
          | _ => false
          end) /\
    (forall get_types k v ts,
        dct = [(k, v)] -> get_types k = Ok ts ->
        exists r, OpenAPI3.SecurityRequirement_parse_data get_types dct = Ok r /\
                  OpenAPI3.SecurityRequirement_name r = k /\
                  OpenAPI3.SecurityRequirement_dict r = [(k, ts)]) /\
    (forall get_types, dct = [] ->
        OpenAPI3.SecurityRequirement_parse_data get_types dct
        = Raise (IndexError "list index out of range")).
Proof.
  intro dct. split; [|split].
  - unfold OpenAPI3.can_parse. destruct dct as [|[k v] [|e r]]; reflexivity.
  - intros get_types k v ts -> G. unfold OpenAPI3.SecurityRequirement_parse_data.
    simpl. rewrite G. eexists. repeat split.
  - intros get_types ->. reflexivity.
Qed.

(** X20. Whatever the OpenAPI 3 engine returns was decoded from JSON: a
    call only succeeds on a response whose status is matched, that carries a
    Content-Type header equal to [application/json] up to case, for which
    the matched response declares a media type entry with a schema, and
    whose body is JSON text; the result is what that schema builds. *)
Theorem OpenAPI3_only_json_is_returned :
  forall (self : OpenAPI3.Operation) (result : OpenAPI3.Envelope) (o : obj),
    OpenAPI3.request_process self result = Ok o ->
    exists expected content_type declared media sch j,
      OpenAPI3.expected_response self result = Ok expected /\
      headers_get "Content-Type" (OpenAPI3.Envelope_headers result) = Some content_type /\
      lower content_type = "application/json" /\
      OpenAPI3.content expected = Some declared /\
      OpenAPI3.expected_media self declared content_type = Ok media /\
      OpenAPI3.schema media = Some sch /\
      json_loads (decode (OpenAPI3.Envelope_content result)) = Ok j /\
      Schema_model sch j = Ok o.
Proof.
  intros self result o P. unfold OpenAPI3.request_process in P.
  destruct (OpenAPI3.expected_response self result) as [expected|] eqn:E;
    cbn [bind] in P; [|discriminate].
  destruct (headers_get "Content-Type" (OpenAPI3.Envelope_headers result))
    as [ct|] eqn:H; cbn [bind] in P; [|discriminate].
  destruct (OpenAPI3.content expected) as [declared|] eqn:C; cbn [bind] in P;
    [|discriminate].
  destruct (OpenAPI3.expected_media self declared ct) as [media|] eqn:M;
    cbn [bind] in P; [|discriminate].
  destruct (String.eqb_spec (lower ct) "application/json") as [L|L]; [|discriminate].
  destruct (OpenAPI3.schema media) as [sch|] eqn:S; cbn [bind] in P; [|discriminate].
  destruct (json_loads (decode (OpenAPI3.Envelope_content result))) as [j|] eqn:J;
    cbn [bind] in P; [|discriminate].
  exists expected, ct, declared, media, sch, j. repeat split; assumption.
Qed.

Lemma OpenAPI3_bind_parameters_app (a b : list (string * OpenAPI3.ParameterObject))
    (given : dict obj) (l : OpenAPI3.Locals) :
  OpenAPI3.bind_parameters (a ++ b) given l =
  bind (OpenAPI3.bind_parameters a given l)
       (fun l' => OpenAPI3.bind_parameters b given l').
Proof.
  revert l. induction a as [|[n s] a IH]; intro l; [reflexivity|].
  rewrite <- app_comm_cons, !OpenAPI3_bind_parameters_step.
  destruct (get n given).
  - destruct (if OpenAPI3.in_ s =? "path" then _ else _); cbn [bind];
      [apply IH|reflexivity].
  - destruct (OpenAPI3.required s); [reflexivity|apply IH].
Qed.

(** X21. A [cookie] parameter is sent as the header [Cookie] holding the
    bare value, without the parameter's name; unless a later supplied
    parameter writes that header again, this is the [Cookie] header of the
    request. *)
Theorem OpenAPI3_cookie_parameter_header :
  forall (given : dict obj) (l l' : OpenAPI3.Locals)
         (before rest : list (string * OpenAPI3.ParameterObject))
         (n : string) (spec : OpenAPI3.ParameterObject) (v : obj),
    OpenAPI3.bind_parameters (before ++ (n, spec) :: rest) given l = Ok l' ->
    OpenAPI3.in_ spec = "cookie" ->
    get n given = Some v ->
    Forall (fun item =>
              get (fst item) given <> None ->
              OpenAPI3.in_ (snd item) <> "cookie" /\
              (OpenAPI3.in_ (snd item) = "header" -> fst item <> "Cookie")) rest ->
    get "Cookie" (OpenAPI3.headers l') = Some v.
Proof.
  intros given l l' before rest n spec v B P G F.
  rewrite OpenAPI3_bind_parameters_app in B.
  destruct (OpenAPI3.bind_parameters before given l) as [l1|]; cbn [bind] in B;
    [|discriminate].
  rewrite OpenAPI3_bind_parameters_step, G, P in B.
  change ("cookie" =? "path") with false in B.
  change ("cookie" =? "query") with false in B.
  change ("cookie" =? "header") with false in B.
  change ("cookie" =? "cookie") with true in B. cbn [bind] in B.
  assert (K : forall l2 l3, OpenAPI3.bind_parameters rest given l2 = Ok l3 ->
                            get "Cookie" (OpenAPI3.headers l3)
                            = get "Cookie" (OpenAPI3.headers l2)).
  { clear B. induction F as [|[k s] rest H F IH]; intros l2 l3 B.
    - injection B as <-. reflexivity.
    - rewrite OpenAPI3_bind_parameters_step in B. cbn [fst snd] in H.
      destruct (get k given) as [w|].
      + destruct (H ltac:(discriminate)) as [Nc Nh].
        destruct (String.eqb_spec (OpenAPI3.in_ s) "path").
        * destruct (format _ _ _); cbn [bind] in B; [|discriminate].
          rewrite (IH _ _ B). reflexivity.
        * destruct (String.eqb_spec (OpenAPI3.in_ s) "query"); cbn [bind] in B;
            [rewrite (IH _ _ B); reflexivity|].
          destruct (String.eqb_spec (OpenAPI3.in_ s) "header") as [Eh|Eh];
            cbn [bind] in B.
          -- rewrite (IH _ _ B). cbn. rewrite get_set.
             destruct (String.eqb_spec k "Cookie"); [exfalso; exact (Nh Eh e)|reflexivity].
          -- destruct (String.eqb_spec (OpenAPI3.in_ s) "cookie"); [contradiction|].
             cbn [bind] in B. exact (IH _ _ B).
      + destruct (OpenAPI3.required s); [discriminate|]. exact (IH _ _ B). }
  rewrite (K _ _ B). cbn. rewrite get_set. reflexivity.
Qed.

End OpenAPI3Steps.

(** [V20_accepted_names_are_the_parameters] at a concrete call. *)
Lemma V20_accepted_names_are_the_parameters_witness :
  exists accepted,
    V20.accepted_parameters Examples.v20_get_item = Ok accepted /\
    (forall n, get n accepted <> None <->
               In n (map V20.name [Examples.v20_op_id; Examples.v20_path_id])) /\
    (forall n q, get n accepted = Some q ->
                 In q [Examples.v20_op_id; Examples.v20_path_id] /\ V20.name q = n).
Proof.
  apply (V20_accepted_names_are_the_parameters (rt := Concrete.runtime)
           Examples.v20_get_item [Examples.v20_op_id; Examples.v20_path_id]).
  reflexivity.
Defined.


(** [Parameter_in_path_is_required] at a concrete call. *)
Lemma Parameter_in_path_is_required_witness :
  (exists msg,
     OpenAPI3.Parameter_parse_data "paths./items/{id}.get.parameters.0"
       (Examples.path_id_fields None) = OpenAPI3.SpecError msg) /\
  OpenAPI3.required Examples.oa3_path_id = true.
Proof.
  split.
  - apply (proj1 (Parameter_in_path_is_required
                    "paths./items/{id}.get.parameters.0" (Examples.path_id_fields None))).
    split; [reflexivity|discriminate].
  - apply (proj2 (Parameter_in_path_is_required
                    "paths./items/{id}.get.parameters.0"
                    (Examples.path_id_fields (Some true)))
             Examples.oa3_path_id); reflexivity.
Defined.


(** [OpenAPI3_missing_required_parameter_not_sent] at a concrete call. *)
Lemma OpenAPI3_missing_required_parameter_not_sent_witness :
  exists e, forall transport,
    OpenAPI3.request transport Examples.oa3_get_item "https://api.example.com" []
      None [] = Raise e.
Proof.
  apply (OpenAPI3_missing_required_parameter_not_sent (rt := Concrete.runtime)
           Examples.oa3_get_item "https://api.example.com" [] None []
           [("id", Examples.oa3_path_id)] "id" Examples.oa3_path_id).
  - reflexivity.
  - left. reflexivity.
  - reflexivity.
  - reflexivity.
Defined.








(** [OpenAPI3_schemes_not_applied] at a concrete call. *)
Lemma OpenAPI3_schemes_not_applied_witness :
  OpenAPI3.apply_scheme (rt := Concrete.runtime) (Examples.oa3_api_key "cookie" "sid")
    (Concrete.PStr "secret123") (Examples.no_locals "/items")
  = Ok (Examples.no_locals "/items").
Proof.
  apply (proj1 (proj2 (proj2 (OpenAPI3_schemes_not_applied (rt := Concrete.runtime)
                                (Examples.oa3_api_key "cookie" "sid")
                                (Concrete.PStr "secret123")
                                (Examples.no_locals "/items"))))).
  - reflexivity.
  - discriminate.
  - discriminate.
Defined.


(** [OpenAPI3_scheme_placement] at a concrete call. *)
Lemma OpenAPI3_scheme_placement_witness :
  OpenAPI3.apply_scheme (rt := Concrete.runtime) (Examples.oa3_http_scheme "basic" None)
    (Concrete.PTuple [Concrete.PStr "user"; Concrete.PStr "pw"])
    (Examples.no_locals "/items")
  = Ok (OpenAPI3.set_auth (Examples.no_locals "/items")
          (Some (OpenAPI3.HTTPBasicAuth (rt := Concrete.runtime)
                   (Concrete.PStr "user") (Concrete.PStr "pw")))).
Proof.
  exact (proj1 (proj1 (OpenAPI3_scheme_placement (rt := Concrete.runtime)
                         (Examples.oa3_http_scheme "basic" None)
                         (Concrete.PTuple [Concrete.PStr "user"; Concrete.PStr "pw"])
                         (Examples.no_locals "/items")) eq_refl)
           [Concrete.PStr "user"; Concrete.PStr "pw"] (or_introl eq_refl) eq_refl).
Defined.


(** [OpenAPI3_unsupported_body_dropped] at a concrete call. *)
Lemma OpenAPI3_unsupported_body_dropped_witness :
  OpenAPI3.request_body (rt := Concrete.runtime) Examples.oa3_create_item
    (Some (Concrete.PInt 5))
    (Examples.no_locals "/items")
  = Ok (OpenAPI3.set_headers (Examples.no_locals "/items")
          [("Content-Type", Concrete.PStr "application/json")]).
Proof.
  apply (proj1 (OpenAPI3_unsupported_body_dropped (rt := Concrete.runtime)
                  Examples.oa3_create_item
                  {| OpenAPI3.RequestBody_required := true;
                     OpenAPI3.RequestBody_content :=
                       [("application/json", Examples.json_media)] |}
                  (Examples.no_locals "/items") eq_refl eq_refl)
           (Concrete.PInt 5)); reflexivity.
Defined.


(** [SecurityRequirement_can_parse] at a concrete call. *)
Lemma SecurityRequirement_can_parse_witness :
  exists r,
    OpenAPI3.SecurityRequirement_parse_data (rt := Concrete.runtime)
      (fun _ => Ok ["read"])
      [("petstore_auth", Concrete.PList [Concrete.PStr "read"])] = Ok r /\
    OpenAPI3.SecurityRequirement_name r = "petstore_auth" /\
    OpenAPI3.SecurityRequirement_dict r = [("petstore_auth", ["read"])].
Proof.
  apply (proj1 (proj2 (SecurityRequirement_can_parse (rt := Concrete.runtime)
                         [("petstore_auth", Concrete.PList [Concrete.PStr "read"])]))
           (fun _ => Ok ["read"]) "petstore_auth"
           (Concrete.PList [Concrete.PStr "read"]) ["read"]); reflexivity.
Defined.


(** [OpenAPI3_only_json_is_returned] at a concrete call. *)
Lemma OpenAPI3_only_json_is_returned_witness :
  exists expected content_type declared media sch j,
    OpenAPI3.expected_response Examples.oa3_get_item
      (Examples.oa3_response 200 [("Content-Type", "application/json")]) = Ok expected /\
    headers_get "Content-Type" [("Content-Type", "application/json")]
    = Some content_type /\
    lower content_type = "application/json" /\
    OpenAPI3.content expected = Some declared /\
    OpenAPI3.expected_media Examples.oa3_get_item declared content_type = Ok media /\
    OpenAPI3.schema media = Some sch /\
    json_loads (decode Examples.item_json) = Ok j /\
    Schema_model sch j = Ok (Concrete.PModel [("id", Concrete.PInt 1)]).
Proof.
  apply (OpenAPI3_only_json_is_returned (rt := Concrete.runtime) Examples.oa3_get_item
           (Examples.oa3_response 200 [("Content-Type", "application/json")])
           (Concrete.PModel [("id", Concrete.PInt 1)])).
  reflexivity.
Defined.


(** [OpenAPI3_cookie_parameter_header] at a concrete call. *)
Lemma OpenAPI3_cookie_parameter_header_witness :
  get "Cookie"
    (OpenAPI3.headers
       (OpenAPI3.set_headers (Examples.no_locals "/items")
          [("Cookie", Concrete.PStr "abc")]))
  = Some (Concrete.PStr "abc").
Proof.
  apply (OpenAPI3_cookie_parameter_header (rt := Concrete.runtime)
           [("session", Concrete.PStr "abc")] (Examples.no_locals "/items") _
           [] [] "session" Examples.oa3_session (Concrete.PStr "abc")).
  - reflexivity.
  - reflexivity.
  - reflexivity.
  - constructor.
Defined.

(** ** Scenarios *)

(** A 404 is governed by the [default] entry, a 200 by its own entry. *)
Example scenario_default_response :
  V20.expected_response Examples.v20_get_item_default "404"
  = Some Examples.v20_error_response
  /\ V20.expected_response Examples.v20_get_item_default "200"
     = Some Examples.v20_item_response.
Proof. split; reflexivity. Qed.

(** The Swagger 2.0 engine decodes [application/json; charset=utf-8]. *)
Example scenario_charset_suffix :
  V20._process Examples.v20_get_item
    (Examples.v20_response 200 [("content-type", "Application/JSON; charset=utf-8")])
  = Ok (Some (Concrete.PModel [("id", Concrete.PInt 1)])).
Proof. reflexivity. Qed.

(** In the OpenAPI 3 engine [text/plain] selects the entry declared for
    [text/*]; decoding it is not implemented. *)
Example scenario_wildcard :
  OpenAPI3.expected_media Examples.oa3_get_item
    [("text/*", Examples.json_media)] "text/plain" = Ok Examples.json_media
  /\ OpenAPI3.request_process
       {| OpenAPI3.path := ["paths"; "/notes"; "get"];
          OpenAPI3.operationId := Some "getNote";
          OpenAPI3.parameters := [];
          OpenAPI3.requestBody := None;
          OpenAPI3.responses :=
            [("200", {| OpenAPI3.content := Some [("text/*", Examples.json_media)] |})];
          OpenAPI3.security := [];
          OpenAPI3._root := Examples.oa3_items_root |}
       (Examples.oa3_response 200 [("Content-Type", "text/plain")])
     = Raise (NotImplementedError "").
Proof. split; reflexivity. Qed.

(** A required body that is not provided. *)
Example scenario_missing_body :
  V20._prepare_body Examples.v20_create_item None
  = Raise (ValueError "Request Body is required but none was provided.")
  /\ OpenAPI3.request_body Examples.oa3_create_item None (Examples.no_locals "/items")
     = Raise (ValueError "Request Body is required but none was provided.").
Proof. split; reflexivity. Qed.

(** An API key credential ends up as a query parameter, and nowhere
    else. *)
Example scenario_api_key_in_query :
  V20._prepare_security Examples.v20_with_api_key
  = Ok (V20.with_req Examples.v20_with_api_key
          (V20.set_params (Examples.empty_req "/items/{id}")
             [("key", Concrete.PStr "secret123")])).
Proof. reflexivity. Qed.

(** Preparing a whole request: security, then parameters, then body. *)
Example scenario_prepare :
  fmap V20.req
    (V20._prepare Examples.v20_create_item (Some Examples.item_value) None)
  = Ok (V20.set_headers
          (V20.set_content (Examples.empty_req "/items")
             (Some (encode Examples.item_text)))
          [("Content-Type", Concrete.PStr "application/json")]).
Proof. reflexivity. Qed.

(** The OpenAPI 3 engine end to end, against a transport that answers
    every call with the same item. *)
Example scenario_request :
  OpenAPI3.request
    (fun call => Ok (Examples.oa3_response 200 [("Content-Type", "application/json")]))
    Examples.oa3_get_item "https://api.example.com" []
    None [("id", Concrete.PInt 7)]
  = Ok (Concrete.PModel [("id", Concrete.PInt 1)]).
Proof. reflexivity. Qed.
